(** * libfs_avb: a shallow embedding of [fs_mgr/libfs_avb/avb_util.cpp]

    The verified-boot helpers of [fs_mgr] are embedded function by
    function.  C++ [std::string] values are [string]s, raw memory reached
    through a [uint8_t*] is a [list byte], unsigned machine integers are
    [Z] with their wrap-around written out where the source can wrap.

    Everything the file obtains from its collaborators (libavb, libdm,
    the kernel, the boot configuration) is gathered in one record of
    answer functions, [Host]; the requests the code makes, and the lines
    it logs, are recorded in order in a trace of [Event]s.  An answer
    depends on the request only, not on what was asked before. *)

From Stdlib Require Import ZArith List String Ascii Strings.Byte Bool Lia.
From Stdlib Require Import DecimalString.
Import ListNotations.

Local Open Scope string_scope.
Local Open Scope Z_scope.

(** ** Strings as [std::string] sees them *)

Module StdString.

(** [s.rfind(pat)]: the highest position at which [pat] occurs in [s],
    [None] standing for [std::string::npos]. *)
Fixpoint rfind (pat s : string) : option nat :=
  match s with
  | EmptyString => if prefix pat s then Some O else None
  | String _ s' =>
      match rfind pat s' with
      | Some i => Some (S i)
      | None => if prefix pat s then Some O else None
      end
  end.

(** [s.erase(pos)]: everything from [pos] on is dropped. *)
Definition erase (pos : nat) (s : string) : string := substring 0 pos s.

(** [s.empty()] *)
Definition empty (s : string) : bool :=
  match s with EmptyString => true | String _ _ => false end.

(** [android::base::StartsWith(s, pat)] *)
Definition StartsWith (s pat : string) : bool := prefix pat s.

(** [s.size()] as a [size_t]. *)
Definition size (s : string) : Z := Z.of_nat (String.length s).

(** [std::string(p, n)]: the [n] bytes at [p], NUL bytes included. *)
Definition of_bytes (p : list byte) (n : Z) : string :=
  string_of_list_byte (firstn (Z.to_nat n) p).

(** [s.c_str()] read as a C string: the characters before the first NUL. *)
Fixpoint c_str (s : string) : string :=
  match s with
  | EmptyString => EmptyString
  | String c s' =>
      if Ascii.eqb c Ascii.zero then EmptyString else String c (c_str s')
  end.

(** [operator<<] of a number, in decimal. *)
Definition of_Z (n : Z) : string := NilZero.string_of_int (Z.to_int n).

End StdString.

(** ** A/B slot naming *)

(** [AvbPartitionToDevicePatition]: drops everything from the last
    ["_other"] on and appends the suffix of the slot meant. *)
Definition AvbPartitionToDevicePatition
    (avb_partition_name ab_suffix ab_other_suffix : string) : string :=
  let sanitized_partition_name := avb_partition_name in
  let other_suffix := StdString.rfind "_other" sanitized_partition_name in
  let '(sanitized_partition_name, is_other_slot) :=
    match other_suffix with
    | Some pos => (StdString.erase pos sanitized_partition_name, true)
    | None => (sanitized_partition_name, false)
    end in
  let append_suffix := if is_other_slot then ab_other_suffix else ab_suffix in
  sanitized_partition_name ++ append_suffix.

(** ** Data model *)

(** [enum class VBMetaVerifyResult], in the order of the name table of
    [VBMetaVerifyResultToString]. *)
Inductive VBMetaVerifyResult : Type :=
| kSuccess
| kError
| kErrorVerification
| kUnknown.

Definition VBMetaVerifyResult_eqb (a b : VBMetaVerifyResult) : bool :=
  match a, b with
  | kSuccess, kSuccess | kError, kError
  | kErrorVerification, kErrorVerification | kUnknown, kUnknown => true
  | _, _ => false
  end.

(** [static_cast<uint32_t>(result)] *)
Definition VBMetaVerifyResult_index (r : VBMetaVerifyResult) : Z :=
  match r with
  | kSuccess => 0
  | kError => 1
  | kErrorVerification => 2
  | kUnknown => 3
  end.

Definition VBMetaVerifyResultToString (result : VBMetaVerifyResult) : string :=
  let name := ["ResultSuccess"; "ResultError"; "ResultErrorVerification";
               "ResultUnknown"] in
  let index := VBMetaVerifyResult_index result in
  let unknown_index := Z.of_nat (List.length name) - 1 in
  let index := if index >=? unknown_index then unknown_index else index in
  nth (Z.to_nat index) name "".

(** [VBMetaVerifyResultToString] on the integer an object of the enum
    type holds, which need not be one of the four enumerators:
    [static_cast<uint32_t>] wraps it into 32 bits, and every index from
    the last one of the table on is printed as the last name. *)
Definition VBMetaVerifyResultToString_raw (result : Z) : string :=
  let name := ["ResultSuccess"; "ResultError"; "ResultErrorVerification";
               "ResultUnknown"] in
  let index := result mod 2 ^ 32 in
  let unknown_index := Z.of_nat (List.length name) - 1 in
  let index := if index >=? unknown_index then unknown_index else index in
  nth (Z.to_nat index) name "".

(** libavb's [AvbVBMetaVerifyResult] is a C enum: the switch of
    [VerifyVBMetaSignature] has a [default] arm, so the verdict is kept as
    the integer it is. *)
Definition AvbVBMetaVerifyResult : Type := Z.
Definition AVB_VBMETA_VERIFY_RESULT_OK : AvbVBMetaVerifyResult := 0.
Definition AVB_VBMETA_VERIFY_RESULT_OK_NOT_SIGNED : AvbVBMetaVerifyResult := 1.
Definition AVB_VBMETA_VERIFY_RESULT_INVALID_VBMETA_HEADER : AvbVBMetaVerifyResult := 2.
Definition AVB_VBMETA_VERIFY_RESULT_UNSUPPORTED_VERSION : AvbVBMetaVerifyResult := 3.
Definition AVB_VBMETA_VERIFY_RESULT_HASH_MISMATCH : AvbVBMetaVerifyResult := 4.
Definition AVB_VBMETA_VERIFY_RESULT_SIGNATURE_MISMATCH : AvbVBMetaVerifyResult := 5.

(** libavb's descriptor tags and header flag. *)
Definition AVB_DESCRIPTOR_TAG_HASHTREE : Z := 1.
Definition AVB_DESCRIPTOR_TAG_CHAIN_PARTITION : Z := 4.
Definition AVB_VBMETA_IMAGE_FLAGS_VERIFICATION_DISABLED : Z := 2.
Definition AVB_FOOTER_SIZE : Z := 64.

(** Modelled from the spec: [VBMetaData::kMaxVBMetaSize] is declared in
    [avb_util.h], which is not among the sources; the spec gives 64 KiB. *)
Definition kMaxVBMetaSize : Z := 65536.

(** The fields of the libavb structs that the file reads. *)
Record AvbFooter : Type := {
  vbmeta_offset : Z;
  vbmeta_size : Z
}.

Record AvbVBMetaImageHeader : Type := {
  authentication_data_block_size : Z;
  auxiliary_data_block_size : Z;
  rollback_index : Z;
  flags : Z
}.

Record AvbDescriptor : Type := {
  tag : Z;
  num_bytes_following : Z
}.

Record AvbHashtreeDescriptor : Type := {
  dm_verity_version : Z;
  image_size : Z;
  tree_offset : Z;
  data_block_size : Z;
  hash_block_size : Z;
  fec_num_roots : Z;
  fec_offset : Z;
  fec_size : Z;
  hash_algorithm : list byte;
  partition_name_len : Z;
  salt_len : Z;
  root_digest_len : Z
}.

(** [AvbChainPartitionDescriptor]; its fields carry a [chain_] prefix
    because the hashtree descriptor has a [partition_name_len] too. *)
Record AvbChainPartitionDescriptor : Type := {
  chain_partition_name_len : Z;
  chain_public_key_len : Z
}.

(** [struct ChainInfo { partition_name; public_key_blob }] *)
Record ChainInfo : Type := {
  ci_partition_name : string;
  public_key_blob : string
}.

(** [class VBMetaData]: the owned buffer, its logical size and the
    partition it was read from.  The buffer is allocated uninitialised;
    [vbmeta_ptr_] holds the bytes that were written into it, so it may be
    shorter than [vbmeta_size_] after a partial read. *)
Record VBMetaData : Type := {
  vbmeta_ptr_ : list byte;
  vbmeta_size_ : Z;
  partition_name_ : string
}.

Definition data (v : VBMetaData) : list byte := vbmeta_ptr_ v.
Definition size (v : VBMetaData) : Z := vbmeta_size_ v.
Definition partition (v : VBMetaData) : string := partition_name_ v.

(** The two fields of [FstabEntry] the file touches. *)
Record FstabEntry : Type := {
  blk_device : string;
  mount_point : string
}.

(** Modelled from the spec: [android::dm::DmTargetVerity] and
    [android::dm::DmTable] belong to libdm, which is not among the
    sources.  A target keeps the constructor arguments of section 4.6 and
    what each of [UseFec], [SetVerityMode] and [IgnoreZeroBlocks] was
    called with; numbers are kept as the source computes them. *)
Record FecParams : Type := {
  fec_device : string;
  fec_roots : Z;
  fec_blocks : Z;
  fec_start : Z
}.

Record DmTargetVerity : Type := {
  start_sector : Z;
  length_sectors : Z;
  version : Z;
  data_device : string;
  hash_device : string;
  tv_data_block_size : Z;
  tv_hash_block_size : Z;
  num_data_blocks : Z;
  hash_start_block : Z;
  tv_hash_algorithm : string;
  tv_root_digest : string;
  tv_salt : string;
  fec : option FecParams;
  verity_mode : option string;
  ignore_zero_blocks : bool
}.

Definition UseFec (device : string) (num_roots num_blocks start : Z)
    (t : DmTargetVerity) : DmTargetVerity :=
  {| start_sector := start_sector t; length_sectors := length_sectors t;
     version := version t; data_device := data_device t;
     hash_device := hash_device t;
     tv_data_block_size := tv_data_block_size t;
     tv_hash_block_size := tv_hash_block_size t;
     num_data_blocks := num_data_blocks t;
     hash_start_block := hash_start_block t;
     tv_hash_algorithm := tv_hash_algorithm t;
     tv_root_digest := tv_root_digest t; tv_salt := tv_salt t;
     fec := Some {| fec_device := device; fec_roots := num_roots;
                    fec_blocks := num_blocks; fec_start := start |};
     verity_mode := verity_mode t;
     ignore_zero_blocks := ignore_zero_blocks t |}.

Definition SetVerityMode (mode : string) (t : DmTargetVerity) : DmTargetVerity :=
  {| start_sector := start_sector t; length_sectors := length_sectors t;
     version := version t; data_device := data_device t;
     hash_device := hash_device t;
     tv_data_block_size := tv_data_block_size t;
     tv_hash_block_size := tv_hash_block_size t;
     num_data_blocks := num_data_blocks t;
     hash_start_block := hash_start_block t;
     tv_hash_algorithm := tv_hash_algorithm t;
     tv_root_digest := tv_root_digest t; tv_salt := tv_salt t;
     fec := fec t;
     verity_mode := Some mode;
     ignore_zero_blocks := ignore_zero_blocks t |}.

Definition IgnoreZeroBlocks (t : DmTargetVerity) : DmTargetVerity :=
  {| start_sector := start_sector t; length_sectors := length_sectors t;
     version := version t; data_device := data_device t;
     hash_device := hash_device t;
     tv_data_block_size := tv_data_block_size t;
     tv_hash_block_size := tv_hash_block_size t;
     num_data_blocks := num_data_blocks t;
     hash_start_block := hash_start_block t;
     tv_hash_algorithm := tv_hash_algorithm t;
     tv_root_digest := tv_root_digest t; tv_salt := tv_salt t;
     fec := fec t;
     verity_mode := verity_mode t;
     ignore_zero_blocks := true |}.

Record DmTable : Type := {
  targets : list DmTargetVerity;
  readonly : bool
}.

Definition set_readonly (b : bool) (t : DmTable) : DmTable :=
  {| targets := targets t; readonly := b |}.

(** ** The host and the trace *)

Inductive Whence : Type := SEEK_SET | SEEK_CUR | SEEK_END.

Inductive LogSeverity : Type := INFO | WARNING | ERROR.

(** What the code asks of its host, and what it logs.  [PERROR] lines are
    [ERROR] lines (the text of [errno] is not kept); destructors are not
    traced. *)
Inductive Event : Type :=
| Log (severity : LogSeverity) (message : string)
| Call_lseek64 (fd offset : Z) (whence : Whence)
| Call_pread64 (fd count offset : Z)
| Call_open (path : string)
| Call_WaitForFile (path : string)
| Call_CreateDevice (name : string) (table : DmTable)
| Call_GetDmDevicePathByName (name : string)
| Call_SetBlockDeviceReadOnly (device : string).

(** The collaborators, as the answers they give.  A pointer into a blob is
    the list of bytes from the pointed byte to the end of the blob;
    [None] is a null pointer.  [pread64] answers with its return value and
    the bytes it stored; [open] answers with the descriptor, negative on
    failure ([TEMP_FAILURE_RETRY] is part of the answer). *)
Record Host : Type := {
  (* libavb *)
  avb_vbmeta_image_verify :
    list byte -> Z -> AvbVBMetaVerifyResult * option (list byte) * Z;
  avb_vbmeta_verify_result_to_string : AvbVBMetaVerifyResult -> string;
  avb_vbmeta_image_header_to_host_byte_order : list byte -> AvbVBMetaImageHeader;
  avb_footer_validate_and_byteswap : list byte -> option AvbFooter;
  avb_descriptor_get_all : list byte -> Z -> option (list (list byte));
  avb_descriptor_validate_and_byteswap : list byte -> option AvbDescriptor;
  avb_hashtree_descriptor_validate_and_byteswap :
    list byte -> option AvbHashtreeDescriptor;
  avb_chain_partition_descriptor_validate_and_byteswap :
    list byte -> option AvbChainPartitionDescriptor;
  sizeof_AvbVBMetaImageHeader : Z;
  sizeof_AvbHashtreeDescriptor : Z;
  sizeof_AvbChainPartitionDescriptor : Z;
  (* kernel and libc *)
  lseek64 : Z -> Z -> Whence -> Z;
  pread64 : Z -> Z -> Z -> Z * list byte;
  open : string -> Z;
  basename : string -> string;
  (* fs_mgr *)
  WaitForFile : string -> bool;
  fs_mgr_get_boot_config : string -> option string;
  BytesToHex : list byte -> Z -> string;
  (* libdm *)
  DmTarget_Valid : DmTargetVerity -> bool;
  DmTable_valid : DmTable -> bool;
  GetParameterString : DmTargetVerity -> string;
  CreateDevice : string -> DmTable -> bool;
  GetDmDevicePathByName : string -> option string;
  (* the value an uninitialised [VBMetaVerifyResult] local happens to hold *)
  indeterminate_verify_result : VBMetaVerifyResult
}.

(** Modelled from the spec: [DmTable::AddTarget] belongs to libdm, which
    is not among the sources.  The spec says the target goes into the
    table; here it is appended when the host finds it valid, and the
    table is left alone, with [false] as the result, when it does not. *)
Definition AddTarget (h : Host) (target : DmTargetVerity) (table : DmTable)
    : bool * DmTable :=
  if DmTarget_Valid h target
  then (true, {| targets := targets table ++ [target];
                 readonly := readonly table |})
  else (false, table).

(** ** A state-and-error monad over the trace *)

Inductive Fault : Type :=
| DivideByZero      (* an integer division by zero *)
| NullDereference   (* a null pointer is dereferenced *)
| OutOfFuel.        (* the recursion bound of the model is exhausted *)

Inductive Res (A : Type) : Type :=
| Ok (a : A)
| Crash (f : Fault).
Arguments Ok {A} a.
Arguments Crash {A} f.

Definition M (A : Type) : Type := list Event -> Res A * list Event.

Definition ret {A : Type} (a : A) : M A := fun t => (Ok a, t).

Definition bind {A B : Type} (m : M A) (k : A -> M B) : M B :=
  fun t =>
    match m t with
    | (Ok a, t') => k a t'
    | (Crash f, t') => (Crash f, t')
    end.

Definition crash {A : Type} (f : Fault) : M A := fun t => (Crash f, t).

Definition emit (e : Event) : M unit := fun t => (Ok tt, (t ++ [e])%list).

Declare Scope avb_scope.
Delimit Scope avb_scope with avb.
Notation "x <- m ;; k" := (bind m (fun x => k))
  (at level 61, m at next level, right associativity) : avb_scope.
Notation "' p <- m ;; k" := (bind m (fun x => let p := x in k))
  (at level 61, p pattern, m at next level, right associativity) : avb_scope.
Notation "m ;;; k" := (bind m (fun _ => k))
  (at level 61, right associativity) : avb_scope.
Local Open Scope avb_scope.

Definition LINFO (msg : string) : M unit := emit (Log INFO msg).
Definition LWARNING (msg : string) : M unit := emit (Log WARNING msg).
Definition LERROR (msg : string) : M unit := emit (Log ERROR msg).
Definition PERROR (msg : string) : M unit := emit (Log ERROR msg).

(** Unsigned division as the machine does it: a zero divisor traps. *)
Definition udiv (a b : Z) : M Z :=
  if b =? 0 then crash DivideByZero else ret (a / b).

(** [size_t] and [uint64_t] arithmetic wraps at [2^64]. *)
Definition wrap64 (z : Z) : Z := z mod 2 ^ 64.

(** [memcmp(a, b, n)]: bytes compare as unsigned chars; a byte outside the
    modelled memory never compares equal. *)
Fixpoint memcmp (a b : list byte) (n : nat) {struct n} : Z :=
  match n with
  | O => 0
  | S n' =>
      match a, b with
      | x :: a', y :: b' =>
          if Byte.eqb x y then memcmp a' b' n'
          else if (Byte.to_N x <? Byte.to_N y)%N then -1 else 1
      | _, _ => 1
      end
  end.

Section WithHost.

Variable h : Host.

Definition sys_lseek64 (fd offset : Z) (whence : Whence) : M Z :=
  emit (Call_lseek64 fd offset whence) ;;; ret (lseek64 h fd offset whence).

Definition sys_pread64 (fd count offset : Z) : M (Z * list byte) :=
  emit (Call_pread64 fd count offset) ;;; ret (pread64 h fd count offset).

Definition sys_open (path : string) : M Z :=
  emit (Call_open path) ;;; ret (open h path).

Definition sys_WaitForFile (path : string) : M bool :=
  emit (Call_WaitForFile path) ;;; ret (WaitForFile h path).

(** [VBMetaData::GetVBMetaHeader]: [make_unique] does not return null,
    so a header always comes back; with [update_vbmeta_size] the
    logical size of the blob is recomputed from it. *)
Definition GetVBMetaHeader (v : VBMetaData) (update_vbmeta_size : bool)
    : option AvbVBMetaImageHeader * VBMetaData :=
  let vbmeta_header :=
    avb_vbmeta_image_header_to_host_byte_order h (vbmeta_ptr_ v) in
  let v' :=
    if update_vbmeta_size
    then {| vbmeta_ptr_ := vbmeta_ptr_ v;
            vbmeta_size_ :=
              wrap64 (sizeof_AvbVBMetaImageHeader h
                      + authentication_data_block_size vbmeta_header
                      + auxiliary_data_block_size vbmeta_header);
            partition_name_ := partition_name_ v |}
    else v in
  (Some vbmeta_header, v').

Definition GetTotalSize (fd : Z) : M Z :=
  saved_current <- sys_lseek64 fd 0 SEEK_CUR ;;
  if saved_current =? -1 then
    PERROR "Failed to get current position" ;;; ret (-1)
  else
    total_size <- sys_lseek64 fd 0 SEEK_END ;;
    if total_size =? -1 then
      PERROR "Failed to lseek64 to end of the partition" ;;; ret (-1)
    else
      restored <- sys_lseek64 fd saved_current SEEK_SET ;;
      (if restored =? -1
       then PERROR ("Failed to lseek64 to the original offset: "
                    ++ StdString.of_Z saved_current)
       else ret tt) ;;;
      ret total_size.

Definition GetAvbFooter (fd : Z) : M (option AvbFooter) :=
  total_size <- GetTotalSize fd ;;
  let footer_offset := total_size - AVB_FOOTER_SIZE in
  ' (num_read, footer_buf) <- sys_pread64 fd AVB_FOOTER_SIZE footer_offset ;;
  if (num_read <? 0) || negb (num_read =? AVB_FOOTER_SIZE) then
    PERROR "Failed to read AVB footer" ;;; ret None
  else
    match avb_footer_validate_and_byteswap h footer_buf with
    | None => PERROR "AVB footer verification failed." ;;; ret None
    | Some footer => ret (Some footer)
    end.

Definition VerifyPublicKeyBlob (key : list byte) (length : Z)
    (expected_key_blob : string) : bool :=
  if StdString.empty expected_key_blob then true
  else if negb (StdString.size expected_key_blob =? length) then false
  else if memcmp key (list_byte_of_string expected_key_blob)
                 (Z.to_nat length) =? 0 then true
  else false.

Definition VerifyVBMetaSignature (vbmeta : VBMetaData)
    (expected_public_key_blob : string) : M VBMetaVerifyResult :=
  let '(vbmeta_ret, pk_data, pk_len) :=
    avb_vbmeta_image_verify h (data vbmeta) (size vbmeta) in
  if vbmeta_ret =? AVB_VBMETA_VERIFY_RESULT_OK then
    match pk_data with
    | Some key =>
        if pk_len <=? 0 then
          LERROR (partition vbmeta
                  ++ ": Error verifying vbmeta image: failed to get public key") ;;;
          ret kError
        else if negb (VerifyPublicKeyBlob key pk_len expected_public_key_blob) then
          LERROR (partition vbmeta
                  ++ ": Error verifying vbmeta image: public key used to"
                  ++ " sign data does not match key in chain descriptor") ;;;
          ret kErrorVerification
        else ret kSuccess
    | None =>
        LERROR (partition vbmeta
                ++ ": Error verifying vbmeta image: failed to get public key") ;;;
        ret kError
    end
  else if (vbmeta_ret =? AVB_VBMETA_VERIFY_RESULT_OK_NOT_SIGNED)
          || (vbmeta_ret =? AVB_VBMETA_VERIFY_RESULT_HASH_MISMATCH)
          || (vbmeta_ret =? AVB_VBMETA_VERIFY_RESULT_SIGNATURE_MISMATCH) then
    LERROR (partition vbmeta ++ ": Error verifying vbmeta image: "
            ++ avb_vbmeta_verify_result_to_string h vbmeta_ret) ;;;
    ret kErrorVerification
  else if vbmeta_ret =? AVB_VBMETA_VERIFY_RESULT_INVALID_VBMETA_HEADER then
    LERROR (partition vbmeta
            ++ ": Error verifying vbmeta image: invalid vbmeta header") ;;;
    ret kError
  else if vbmeta_ret =? AVB_VBMETA_VERIFY_RESULT_UNSUPPORTED_VERSION then
    LERROR (partition vbmeta
            ++ ": Error verifying vbmeta image: unsupported AVB version") ;;;
    ret kError
  else
    LERROR ("Unknown vbmeta image verify return value: "
            ++ StdString.of_Z vbmeta_ret) ;;;
    ret kError.

(** [VerifyVBMetaData].  [out_verify_result] is [None] for a null
    pointer and [Some v] for a pointer to a cell that holds [v]; the
    cell comes back next to the result. *)
Definition VerifyVBMetaData (fd : Z) (partition_name : string)
    (expected_public_key_blob : string)
    (out_verify_result : option VBMetaVerifyResult)
    : M (option VBMetaData * option VBMetaVerifyResult) :=
  let is_vbmeta_partition := StdString.StartsWith partition_name "vbmeta" in
  located <-
    (if negb is_vbmeta_partition then
       footer <- GetAvbFooter fd ;;
       match footer with
       | None => ret None
       | Some footer => ret (Some (vbmeta_offset footer, vbmeta_size footer))
       end
     else ret (Some (0, kMaxVBMetaSize))) ;;
  match located with
  | None => ret (None, out_verify_result)
  | Some (vbmeta_offset, vbmeta_size) =>
      if vbmeta_size >? kMaxVBMetaSize then
        LERROR "VbMeta size in footer exceeds kMaxVBMetaSize" ;;;
        ret (None, out_verify_result)
      else
        ' (num_read, buf) <- sys_pread64 fd vbmeta_size vbmeta_offset ;;
        if (num_read <? 0)
           || (negb is_vbmeta_partition && negb (num_read =? vbmeta_size)) then
          PERROR (partition_name ++ ": Failed to read vbmeta at offset "
                  ++ StdString.of_Z vbmeta_offset ++ " with size "
                  ++ StdString.of_Z vbmeta_size) ;;;
          ret (None, out_verify_result)
        else
          let vbmeta := {| vbmeta_ptr_ := buf; vbmeta_size_ := vbmeta_size;
                           partition_name_ := partition_name |} in
          verify_result <- VerifyVBMetaSignature vbmeta expected_public_key_blob ;;
          let out_verify_result :=
            match out_verify_result with
            | None => None
            | Some _ => Some verify_result
            end in
          if VBMetaVerifyResult_eqb verify_result kSuccess
             || VBMetaVerifyResult_eqb verify_result kErrorVerification
          then ret (Some vbmeta, out_verify_result)
          else ret (None, out_verify_result)
  end.

(** [RollbackDetected]: rollback protection is not supported yet. *)
Definition RollbackDetected (partition_name : string) (rollback_index : Z)
    : bool := false.

(** [p + n] on a pointer into a blob. *)
Definition ptr_add (p : list byte) (n : Z) : list byte :=
  skipn (Z.to_nat n) p.

(** The loop of [GetChainPartitionInfo] from descriptor [i] on; the
    second component is what [*fatal_error] holds at the end. *)
Fixpoint GetChainPartitionInfo_from (vbmeta : VBMetaData)
    (descriptors : list (list byte)) (i : Z)
    (chain_partitions : list ChainInfo) (fatal_error : bool)
    : M (list ChainInfo * bool) :=
  match descriptors with
  | [] => ret (chain_partitions, fatal_error)
  | d :: rest =>
      match avb_descriptor_validate_and_byteswap h d with
      | None =>
          LERROR ("Descriptor[" ++ StdString.of_Z i
                  ++ "] is invalid in vbmeta: " ++ partition vbmeta) ;;;
          ret ([], true)
      | Some desc =>
          if tag desc =? AVB_DESCRIPTOR_TAG_CHAIN_PARTITION then
            match avb_chain_partition_descriptor_validate_and_byteswap h d with
            | None =>
                LERROR ("Chain descriptor[" ++ StdString.of_Z i
                        ++ "] is invalid in vbmeta: " ++ partition vbmeta) ;;;
                ret ([], true)
            | Some chain_desc =>
                let chain_partition_name :=
                  ptr_add d (sizeof_AvbChainPartitionDescriptor h) in
                let chain_public_key_blob :=
                  ptr_add chain_partition_name
                          (chain_partition_name_len chain_desc) in
                GetChainPartitionInfo_from vbmeta rest (i + 1)
                  (chain_partitions ++
                   [{| ci_partition_name :=
                         StdString.of_bytes chain_partition_name
                           (chain_partition_name_len chain_desc);
                       public_key_blob :=
                         StdString.of_bytes chain_public_key_blob
                           (chain_public_key_len chain_desc) |}])
                  fatal_error
            end
          else
            GetChainPartitionInfo_from vbmeta rest (i + 1) chain_partitions
                                       fatal_error
      end
  end.

Definition GetChainPartitionInfo (vbmeta : VBMetaData) (fatal_error : bool)
    : M (list ChainInfo * bool) :=
  match avb_descriptor_get_all h (data vbmeta) (size vbmeta) with
  | None => ret ([], fatal_error)
  | Some descriptors =>
      let num_descriptors := Z.of_nat (List.length descriptors) in
      if num_descriptors <? 1 then ret ([], fatal_error)
      else GetChainPartitionInfo_from vbmeta descriptors 0 [] fatal_error
  end.

(** The accumulator [out_vbmeta_images] is a pointer to a vector:
    [None] when null, [Some images] otherwise.  A walk answers with its
    verdict and with the accumulator as it leaves it. *)
Definition Walk : Type := VBMetaVerifyResult * option (list VBMetaData).

(** The [for (auto& chain : chain_partitions)] loop of
    [LoadAndVerifyVbmetaImpl]; [recurse] is the recursive call.  Both
    ways out of the loop return [verify_result] from the function. *)
Fixpoint chain_loop
    (recurse : ChainInfo -> option (list VBMetaData) -> M Walk)
    (chain_partitions : list ChainInfo) (verify_result : VBMetaVerifyResult)
    (out_vbmeta_images : option (list VBMetaData)) : M Walk :=
  match chain_partitions with
  | [] => ret (verify_result, out_vbmeta_images)
  | chain :: rest =>
      ' (sub_ret, out_vbmeta_images) <- recurse chain out_vbmeta_images ;;
      if negb (VBMetaVerifyResult_eqb sub_ret kSuccess) then
        let verify_result := sub_ret in
        if VBMetaVerifyResult_eqb verify_result kError
        then ret (verify_result, out_vbmeta_images)
        else chain_loop recurse rest verify_result out_vbmeta_images
      else chain_loop recurse rest verify_result out_vbmeta_images
  end.

(** [LoadAndVerifyVbmetaImpl].  The source recurses along the chain
    descriptors without a bound; [fuel] bounds the depth here. *)
Fixpoint LoadAndVerifyVbmetaImpl (fuel : nat)
    (partition_name ab_suffix ab_other_suffix : string)
    (expected_public_key_blob : string)
    (allow_verification_error load_chained_vbmeta rollback_protection : bool)
    (device_path_constructor : string -> string)
    (is_chained_vbmeta : bool)
    (out_vbmeta_images : option (list VBMetaData)) {struct fuel} : M Walk :=
  match fuel with
  | O => crash OutOfFuel
  | S fuel' =>
    let device_path :=
      device_path_constructor
        (AvbPartitionToDevicePatition partition_name ab_suffix ab_other_suffix) in
    ready <- sys_WaitForFile device_path ;;
    if negb ready then
      PERROR ("No such partition: " ++ device_path) ;;;
      ret (kError, out_vbmeta_images)
    else
    fd <- sys_open (StdString.c_str device_path) ;;
    if fd <? 0 then
      PERROR ("Failed to open: " ++ device_path) ;;;
      ret (kError, out_vbmeta_images)
    else
    ' (vbmeta, cell) <-
       VerifyVBMetaData fd partition_name expected_public_key_blob
                        (Some (indeterminate_verify_result h)) ;;
    let verify_result :=
      match cell with
      | Some v => v
      | None => indeterminate_verify_result h
      end in
    match vbmeta with
    | None =>
        LERROR (partition_name ++ ": Failed to load vbmeta, result: "
                ++ VBMetaVerifyResultToString verify_result) ;;;
        ret (kError, out_vbmeta_images)
    | Some vbmeta =>
    if negb allow_verification_error
       && VBMetaVerifyResult_eqb verify_result kErrorVerification then
      LERROR (partition_name ++ ": allow verification error is not allowed") ;;;
      ret (kError, out_vbmeta_images)
    else
    let '(vbmeta_header, vbmeta) := GetVBMetaHeader vbmeta true in
    match vbmeta_header with
    | None =>
        LERROR (partition_name ++ ": Failed to get vbmeta header") ;;;
        ret (kError, out_vbmeta_images)
    | Some vbmeta_header =>
    if rollback_protection
       && RollbackDetected partition_name (rollback_index vbmeta_header) then
      ret (kError, out_vbmeta_images)
    else
    if is_chained_vbmeta && negb (flags vbmeta_header =? 0) then
      LERROR (partition_name ++ ": chained vbmeta image has non-zero flags") ;;;
      ret (kError, out_vbmeta_images)
    else
    let out_vbmeta_images :=
      match out_vbmeta_images with
      | Some images => Some (images ++ [vbmeta])%list
      | None => None
      end in
    if negb (Z.land (flags vbmeta_header)
                    AVB_VBMETA_IMAGE_FLAGS_VERIFICATION_DISABLED =? 0) then
      LWARNING ("VERIFICATION_DISABLED bit is set for partition: "
                ++ partition_name) ;;;
      ret (verify_result, out_vbmeta_images)
    else
    if load_chained_vbmeta then
      match out_vbmeta_images with
      | None => crash NullDereference
      | Some images =>
          match rev images with
          | [] => crash NullDereference
          | last_image :: _ =>
              ' (chain_partitions, fatal_error) <-
                 GetChainPartitionInfo last_image false ;;
              if (fatal_error : bool) then ret (kError, out_vbmeta_images)
              else
                chain_loop
                  (fun chain out =>
                     LoadAndVerifyVbmetaImpl fuel'
                       (ci_partition_name chain) ab_suffix ab_other_suffix
                       (public_key_blob chain)
                       allow_verification_error load_chained_vbmeta
                       rollback_protection device_path_constructor
                       true out)
                  chain_partitions verify_result out_vbmeta_images
          end
      end
    else ret (verify_result, out_vbmeta_images)
    end
    end
  end.

End WithHost.

(** ** Hashtree lookup and dm-verity programming *)

(** A [uint8_t] array printed through [operator<<]: the bytes up to the
    first NUL. *)
Fixpoint c_str (p : list byte) : string :=
  match p with
  | [] => ""
  | b :: p' =>
      if Byte.eqb b x00 then "" else String (ascii_of_byte b) (c_str p')
  end.

Section Hashtree.

Variable h : Host.

(** The inner loop of [GetHashtreeDescriptor] from descriptor [n] on.
    It stops at the first match and answers with [*out_hashtree_desc]
    and [desc_partition_name] as they are then; [None] is [!found]. *)
Fixpoint GetHashtreeDescriptor_from (partition_name : string)
    (descriptors : list (list byte)) (n : Z)
    : M (option (AvbHashtreeDescriptor * list byte)) :=
  match descriptors with
  | [] => ret None
  | d :: rest =>
      match avb_descriptor_validate_and_byteswap h d with
      | None =>
          LWARNING ("Descriptor[" ++ StdString.of_Z n ++ "] is invalid") ;;;
          GetHashtreeDescriptor_from partition_name rest (n + 1)
      | Some desc =>
          if tag desc =? AVB_DESCRIPTOR_TAG_HASHTREE then
            let desc_partition_name :=
              ptr_add d (sizeof_AvbHashtreeDescriptor h) in
            match avb_hashtree_descriptor_validate_and_byteswap h d with
            | None => GetHashtreeDescriptor_from partition_name rest (n + 1)
            | Some out_hashtree_desc =>
                if negb (partition_name_len out_hashtree_desc
                         =? StdString.size partition_name) then
                  GetHashtreeDescriptor_from partition_name rest (n + 1)
                else
                  let hashtree_partition_name :=
                    StdString.of_bytes desc_partition_name
                      (partition_name_len out_hashtree_desc) in
                  if String.eqb hashtree_partition_name partition_name
                  then ret (Some (out_hashtree_desc, desc_partition_name))
                  else GetHashtreeDescriptor_from partition_name rest (n + 1)
            end
          else GetHashtreeDescriptor_from partition_name rest (n + 1)
      end
  end.

(** The outer loop, over the verified images. *)
Fixpoint GetHashtreeDescriptor_images (partition_name : string)
    (vbmeta_images : list VBMetaData)
    : M (option (AvbHashtreeDescriptor * list byte)) :=
  match vbmeta_images with
  | [] => ret None
  | vbmeta :: rest =>
      match avb_descriptor_get_all h (data vbmeta) (size vbmeta) with
      | None => GetHashtreeDescriptor_images partition_name rest
      | Some descriptors =>
          let num_descriptors := Z.of_nat (List.length descriptors) in
          if num_descriptors <? 1
          then GetHashtreeDescriptor_images partition_name rest
          else
            found <- GetHashtreeDescriptor_from partition_name descriptors 0 ;;
            match found with
            | Some r => ret (Some r)
            | None => GetHashtreeDescriptor_images partition_name rest
            end
      end
  end.

(** [GetHashtreeDescriptor]: [None] when the function returns [false],
    otherwise the descriptor, salt and digest it hands out. *)
Definition GetHashtreeDescriptor (partition_name : string)
    (vbmeta_images : list VBMetaData)
    : M (option (AvbHashtreeDescriptor * string * string)) :=
  found <- GetHashtreeDescriptor_images partition_name vbmeta_images ;;
  match found with
  | None =>
      LERROR ("Partition descriptor not found: "
              ++ StdString.c_str partition_name) ;;;
      ret None
  | Some (out_hashtree_desc, desc_partition_name) =>
      let desc_salt :=
        ptr_add desc_partition_name (partition_name_len out_hashtree_desc) in
      let out_salt := BytesToHex h desc_salt (salt_len out_hashtree_desc) in
      let desc_digest := ptr_add desc_salt (salt_len out_hashtree_desc) in
      let out_digest :=
        BytesToHex h desc_digest (root_digest_len out_hashtree_desc) in
      ret (Some (out_hashtree_desc, out_salt, out_digest))
  end.

(** [ConstructVerityTable]: the result and the table as it leaves it. *)
Definition ConstructVerityTable (hashtree_desc : AvbHashtreeDescriptor)
    (salt root_digest blk_device : string) (table : DmTable)
    : M (bool * DmTable) :=
  let verity_mode :=
    match fs_mgr_get_boot_config h "veritymode" with
    | Some v => v
    | None => "enforcing"
    end in
  let dm_verity_mode := "" in
  let converted :=
    if String.eqb verity_mode "enforcing" then Some "restart_on_corruption"
    else if String.eqb verity_mode "logging" then Some "ignore_corruption"
    else if negb (String.eqb verity_mode "eio") then None
    else Some dm_verity_mode in
  match converted with
  | None =>
      LERROR ("Unknown androidboot.veritymode: " ++ verity_mode) ;;;
      ret (false, table)
  | Some dm_verity_mode =>
  let hash_algorithm := c_str (hash_algorithm hashtree_desc) in
  blocks <- udiv (image_size hashtree_desc) (data_block_size hashtree_desc) ;;
  hash_start <- udiv (tree_offset hashtree_desc) (hash_block_size hashtree_desc) ;;
  let target :=
    {| start_sector := 0;
       length_sectors := image_size hashtree_desc / 512;
       version := dm_verity_version hashtree_desc;
       data_device := blk_device;
       hash_device := blk_device;
       tv_data_block_size := data_block_size hashtree_desc;
       tv_hash_block_size := hash_block_size hashtree_desc;
       num_data_blocks := blocks;
       hash_start_block := hash_start;
       tv_hash_algorithm := hash_algorithm;
       tv_root_digest := root_digest;
       tv_salt := salt;
       fec := None;
       verity_mode := None;
       ignore_zero_blocks := false |} in
  target <-
    (if fec_size hashtree_desc >? 0 then
       num_blocks <-
         udiv (fec_offset hashtree_desc) (data_block_size hashtree_desc) ;;
       start <-
         udiv (fec_offset hashtree_desc) (data_block_size hashtree_desc) ;;
       ret (UseFec blk_device (fec_num_roots hashtree_desc)
                   num_blocks start target)
     else ret target) ;;
  let target :=
    if negb (StdString.empty dm_verity_mode)
    then SetVerityMode dm_verity_mode target
    else target in
  let target := IgnoreZeroBlocks target in
  LINFO ("Built verity table: '" ++ GetParameterString h target ++ "'") ;;;
  ret (AddTarget h target table)
  end.

Definition dm_CreateDevice (name : string) (table : DmTable) : M bool :=
  emit (Call_CreateDevice name table) ;;; ret (CreateDevice h name table).

Definition dm_GetDmDevicePathByName (name : string) : M (option string) :=
  emit (Call_GetDmDevicePathByName name) ;;;
  ret (GetDmDevicePathByName h name).

Definition SetBlockDeviceReadOnly (blockdev : string) : M unit :=
  emit (Call_SetBlockDeviceReadOnly blockdev).

(** [HashtreeDmVeritySetup]: the result and [*fstab_entry] as the
    function leaves it. *)
Definition HashtreeDmVeritySetup (fstab_entry : FstabEntry)
    (hashtree_desc : AvbHashtreeDescriptor) (salt root_digest : string)
    (wait_for_verity_dev : bool) : M (bool * FstabEntry) :=
  let table := {| targets := []; readonly := false |} in
  ' (constructed, table) <-
     ConstructVerityTable hashtree_desc salt root_digest
                          (blk_device fstab_entry) table ;;
  if negb constructed || negb (DmTable_valid h table) then
    LERROR "Failed to construct verity table." ;;;
    ret (false, fstab_entry)
  else
  let table := set_readonly true table in
  let mount_point_name :=
    basename h (StdString.c_str (mount_point fstab_entry)) in
  created <- dm_CreateDevice mount_point_name table ;;
  if negb created then
    LERROR "Couldn't create verity device!" ;;;
    ret (false, fstab_entry)
  else
  dev_path <- dm_GetDmDevicePathByName mount_point_name ;;
  match dev_path with
  | None =>
      LERROR "Couldn't get verity device path!" ;;;
      ret (false, fstab_entry)
  | Some dev_path =>
      SetBlockDeviceReadOnly (blk_device fstab_entry) ;;;
      let fstab_entry :=
        {| blk_device := dev_path;
           mount_point := mount_point fstab_entry |} in
      if wait_for_verity_dev then
        appeared <- sys_WaitForFile h dev_path ;;
        if negb appeared then ret (false, fstab_entry)
        else ret (true, fstab_entry)
      else ret (true, fstab_entry)
  end.

End Hashtree.

(** ** A small host to run the model on

    A toy image is laid out as: verdict byte, flags byte, key byte, then
    descriptors, each being tag, payload length, payload.  A hashtree
    payload is name length, salt length, digest length, name, salt,
    digest; a chain payload is name length, key length, name, key.  A
    partition that is not a vbmeta partition ends in a 64-byte footer
    whose first two bytes are the offset and the size of its image. *)

Module Toy.

Local Open Scope list_scope.

Definition Zb (b : byte) : Z := Z.of_N (Byte.to_N b).

(** What a toy world holds: the partitions by device path, the
    [veritymode] of the boot configuration, and whether mapper device
    paths show up when waited for. *)
Record World : Type := {
  files : list (string * list byte);
  veritymode : option string;
  mapper_paths_visible : bool
}.

Fixpoint descriptors_from (fuel : nat) (p : list byte) : list (list byte) :=
  match fuel with
  | O => []
  | S fuel' =>
      match p with
      | _ :: n :: payload =>
          p :: descriptors_from fuel' (skipn (Z.to_nat (Zb n)) payload)
      | _ => []
      end
  end.

Definition image_verify (blob : list byte) (size : Z)
    : AvbVBMetaVerifyResult * option (list byte) * Z :=
  match blob with
  | v :: _ :: key => (Zb v, Some key, 1)
  | _ => (AVB_VBMETA_VERIFY_RESULT_INVALID_VBMETA_HEADER, None, 0)
  end.

Definition header_of (blob : list byte) : AvbVBMetaImageHeader :=
  {| authentication_data_block_size := 0;
     auxiliary_data_block_size := Z.of_nat (List.length blob) - 3;
     rollback_index := 0;
     flags := match blob with _ :: f :: _ => Zb f | _ => 0 end |}.

Definition footer_of (buf : list byte) : option AvbFooter :=
  match buf with
  | off :: sz :: _ => Some {| vbmeta_offset := Zb off; vbmeta_size := Zb sz |}
  | _ => None
  end.

Definition descriptor_of (d : list byte) : option AvbDescriptor :=
  match d with
  | t :: n :: _ =>
      if Byte.eqb t xff then None
      else Some {| tag := Zb t; num_bytes_following := Zb n |}
  | _ => None
  end.

Definition hashtree_of (d : list byte) : option AvbHashtreeDescriptor :=
  match d with
  | _ :: _ :: nl :: sl :: dl :: _ =>
      Some {| dm_verity_version := 1;
              image_size := 8192;
              tree_offset := 8192;
              data_block_size := 4096;
              hash_block_size := 4096;
              fec_num_roots := 2;
              fec_offset := 12288;
              fec_size := 4096;
              hash_algorithm := list_byte_of_string "sha256";
              partition_name_len := Zb nl;
              salt_len := Zb sl;
              root_digest_len := Zb dl |}
  | _ => None
  end.

Definition chain_of (d : list byte) : option AvbChainPartitionDescriptor :=
  match d with
  | _ :: _ :: nl :: kl :: _ =>
      Some {| chain_partition_name_len := Zb nl;
              chain_public_key_len := Zb kl |}
  | _ => None
  end.

Definition file_of (w : World) (fd : Z) : option (list byte) :=
  if fd <? 3 then None
  else option_map snd (nth_error (files w) (Z.to_nat (fd - 3))).

Fixpoint index_of (path : string) (l : list (string * list byte)) (i : Z) : Z :=
  match l with
  | [] => -1
  | (p, _) :: l' => if String.eqb p path then i else index_of path l' (i + 1)
  end.

Definition host (w : World) : Host :=
  {| avb_vbmeta_image_verify := image_verify;
     avb_vbmeta_verify_result_to_string := StdString.of_Z;
     avb_vbmeta_image_header_to_host_byte_order := header_of;
     avb_footer_validate_and_byteswap := footer_of;
     avb_descriptor_get_all :=
       fun blob _ => Some (descriptors_from (List.length blob) (skipn 3 blob));
     avb_descriptor_validate_and_byteswap := descriptor_of;
     avb_hashtree_descriptor_validate_and_byteswap := hashtree_of;
     avb_chain_partition_descriptor_validate_and_byteswap := chain_of;
     sizeof_AvbVBMetaImageHeader := 3;
     sizeof_AvbHashtreeDescriptor := 5;
     sizeof_AvbChainPartitionDescriptor := 4;
     lseek64 :=
       fun fd _ whence =>
         match file_of w fd, whence with
         | None, _ => -1
         | Some content, SEEK_END => Z.of_nat (List.length content)
         | Some _, _ => 0
         end;
     pread64 :=
       fun fd count offset =>
         match file_of w fd with
         | None => (-1, [])
         | Some content =>
             if offset <? 0 then (-1, [])
             else
               let bytes :=
                 firstn (Z.to_nat count) (skipn (Z.to_nat offset) content) in
               (Z.of_nat (List.length bytes), bytes)
         end;
     open := fun path => index_of path (files w) 3;
     basename := fun path => match path with
                             | String "/" name => name
                             | _ => path
                             end;
     WaitForFile :=
       fun path =>
         (0 <=? index_of path (files w) 3)
         || (mapper_paths_visible w && StdString.StartsWith path "/dev/block/dm-");
     fs_mgr_get_boot_config :=
       fun key => if String.eqb key "veritymode" then veritymode w else None;
     BytesToHex := fun p n => StdString.of_bytes p n;
     DmTarget_Valid := fun _ => true;
     DmTable_valid := fun table => negb (Nat.eqb (List.length (targets table)) 0);
     GetParameterString := fun target => tv_root_digest target;
     CreateDevice := fun name _ => negb (StdString.empty name);
     GetDmDevicePathByName :=
       fun name => Some ("/dev/block/dm-" ++ name)%string;
     indeterminate_verify_result := kUnknown |}.

Definition device_path (name : string) : string :=
  ("/dev/block/by-name/" ++ name)%string.

Definition name_bytes (s : string) : list byte := list_byte_of_string s.

(** A 64-byte footer locating an image of [size] bytes at offset 0. *)
Definition footer (size : byte) : list byte :=
  x00 :: size :: repeat x00 62.

(** A hashtree descriptor for ["system"], salt [ab], digest [cd]. *)
Definition system_hashtree : list byte :=
  [x01; x0b; x06; x01; x01] ++ name_bytes "system" ++ [xab; xcd].

(** Chain descriptors for ["vendor"] and ["product"] with keys [V], [P]. *)
Definition vendor_chain : list byte :=
  [x04; x09; x06; x01] ++ name_bytes "vendor" ++ name_bytes "V".
Definition product_chain : list byte :=
  [x04; x0a; x07; x01] ++ name_bytes "product" ++ name_bytes "P".

(** The root image: verdict OK, no flag, key [R], then the hashtree
    descriptor and the two chain descriptors. *)
Definition vbmeta_image : list byte :=
  [x00; x00] ++ name_bytes "R"
  ++ system_hashtree ++ vendor_chain ++ product_chain.

(** The same root with [VERIFICATION_DISABLED] set. *)
Definition vbmeta_image_disabled : list byte :=
  [x00; x02] ++ name_bytes "R"
  ++ system_hashtree ++ vendor_chain ++ product_chain.

(** An image whose first descriptor is corrupt and whose second is the
    hashtree descriptor. *)
Definition corrupt_then_system : list byte :=
  [x00; x00] ++ name_bytes "R" ++ [xff; x00] ++ system_hashtree.

Definition image (partition_name : string) (blob : list byte) : VBMetaData :=
  {| vbmeta_ptr_ := blob;
     vbmeta_size_ := Z.of_nat (List.length blob);
     partition_name_ := partition_name |}.

(** [vendor] is signed with key [W] instead of [V]; [product] is fine. *)
Definition vendor_image : list byte := [x00; x00] ++ name_bytes "W".
Definition product_image : list byte := [x00; x00] ++ name_bytes "P".

(** A chained image that carries [VERIFICATION_DISABLED]. *)
Definition vendor_image_disabled : list byte := [x00; x02] ++ name_bytes "V".

Definition world : World :=
  {| files :=
       [(device_path "vbmeta", vbmeta_image);
        (device_path "vendor", vendor_image ++ footer x03);
        (device_path "product", product_image ++ footer x03)];
     veritymode := Some "logging";
     mapper_paths_visible := false |}.

(** [vendor] carries [VERIFICATION_DISABLED] and is signed with [V]. *)
Definition world_vendor_disabled : World :=
  {| files :=
       [(device_path "vbmeta", vbmeta_image);
        (device_path "vendor", vendor_image_disabled ++ footer x03);
        (device_path "product", product_image ++ footer x03)];
     veritymode := None;
     mapper_paths_visible := true |}.

(** The root carries [VERIFICATION_DISABLED]. *)
Definition world_root_disabled : World :=
  {| files :=
       [(device_path "vbmeta", vbmeta_image_disabled);
        (device_path "vendor", vendor_image ++ footer x03);
        (device_path "product", product_image ++ footer x03)];
     veritymode := Some "bogus";
     mapper_paths_visible := true |}.

(** The descriptor the toy libavb reads out of [system_hashtree], and one
    whose image size is not a multiple of its block size. *)
Definition system_descriptor : AvbHashtreeDescriptor :=
  {| dm_verity_version := 1;
     image_size := 8192;
     tree_offset := 8192;
     data_block_size := 4096;
     hash_block_size := 4096;
     fec_num_roots := 2;
     fec_offset := 12288;
     fec_size := 4096;
     hash_algorithm := list_byte_of_string "sha256";
     partition_name_len := 6;
     salt_len := 1;
     root_digest_len := 1 |}.

Definition misaligned_descriptor : AvbHashtreeDescriptor :=
  {| dm_verity_version := 1;
     image_size := 4097;
     tree_offset := 8192;
     data_block_size := 4096;
     hash_block_size := 4096;
     fec_num_roots := 2;
     fec_offset := 12288;
     fec_size := 0;
     hash_algorithm := list_byte_of_string "sha256";
     partition_name_len := 6;
     salt_len := 1;
     root_digest_len := 1 |}.

Definition system_entry : FstabEntry :=
  {| blk_device := device_path "system"; mount_point := "/system" |}.

Definition empty_table : DmTable := {| targets := []; readonly := false |}.

Definition walk (w : World) (partition_name expected_key : string)
    (allow_verification_error is_chained_vbmeta : bool) : Res Walk * list Event :=
  LoadAndVerifyVbmetaImpl (host w) 8 partition_name "" "" expected_key
    allow_verification_error true false device_path is_chained_vbmeta
    (Some []) [].

End Toy.

(** ** Vocabulary of the statements

    Names for the pieces of the functions above that the properties talk
    about. *)

Section Vocabulary.

Variable h : Host.

(** What [VerifyVBMetaData] does once the blob is in its buffer: check
    the signature, store the verdict through [out_verify_result], and
    hand the blob out unless the verdict is [kError]. *)
Definition verify_read_blob (vbmeta : VBMetaData) (expected : string)
    (out_verify_result : option VBMetaVerifyResult)
    : M (option VBMetaData * option VBMetaVerifyResult) :=
  bind (VerifyVBMetaSignature h vbmeta expected)
       (fun verify_result =>
          ret (match verify_result with
               | kSuccess | kErrorVerification => Some vbmeta
               | _ => None
               end,
               match out_verify_result with
               | None => None
               | Some _ => Some verify_result
               end)).

Definition read_failure (partition_name : string) (offset size : Z) : Event :=
  Log ERROR (partition_name ++ ": Failed to read vbmeta at offset "
             ++ StdString.of_Z offset ++ " with size " ++ StdString.of_Z size).

(** [emplace_back] on the accumulator, when there is one. *)
Definition append_image (out : option (list VBMetaData)) (v : VBMetaData)
    : option (list VBMetaData) :=
  match out with
  | Some images => Some (images ++ [v])%list
  | None => None
  end.

(** The descriptors of an image, as the scan sees them. *)
Definition image_descriptors (vbmeta : VBMetaData) : list (list byte) :=
  match avb_descriptor_get_all h (data vbmeta) (size vbmeta) with
  | Some descriptors => descriptors
  | None => []
  end.

(** [d] is a hashtree descriptor for [partition_name], and validates to
    [ht]: it passes the generic and the hashtree validate-and-byteswap,
    its name length is the length of [partition_name] and its name bytes
    are [partition_name]. *)
Definition hashtree_for (partition_name : string) (d : list byte)
    (ht : AvbHashtreeDescriptor) : Prop :=
  (exists desc, avb_descriptor_validate_and_byteswap h d = Some desc
                /\ tag desc = AVB_DESCRIPTOR_TAG_HASHTREE)
  /\ avb_hashtree_descriptor_validate_and_byteswap h d = Some ht
  /\ partition_name_len ht = StdString.size partition_name
  /\ StdString.of_bytes (ptr_add d (sizeof_AvbHashtreeDescriptor h))
                        (partition_name_len ht) = partition_name.

Definition listed (partition_name : string) (vbmeta_images : list VBMetaData)
    : Prop :=
  exists vbmeta d ht,
    In vbmeta vbmeta_images /\ In d (image_descriptors vbmeta)
    /\ hashtree_for partition_name d ht.

(** The target [ConstructVerityTable] hands to [AddTarget], written out
    field by field for the kernel mode string [mode]. *)
Definition built_target (hashtree_desc : AvbHashtreeDescriptor)
    (salt root_digest blk_device : string) (mode : option string)
    : DmTargetVerity :=
  {| start_sector := 0;
     length_sectors := image_size hashtree_desc / 512;
     version := dm_verity_version hashtree_desc;
     data_device := blk_device;
     hash_device := blk_device;
     tv_data_block_size := data_block_size hashtree_desc;
     tv_hash_block_size := hash_block_size hashtree_desc;
     num_data_blocks := image_size hashtree_desc / data_block_size hashtree_desc;
     hash_start_block := tree_offset hashtree_desc / hash_block_size hashtree_desc;
     tv_hash_algorithm := c_str (hash_algorithm hashtree_desc);
     tv_root_digest := root_digest;
     tv_salt := salt;
     fec :=
       if fec_size hashtree_desc >? 0
       then Some {| fec_device := blk_device;
                    fec_roots := fec_num_roots hashtree_desc;
                    fec_blocks := fec_offset hashtree_desc
                                  / data_block_size hashtree_desc;
                    fec_start := fec_offset hashtree_desc
                                 / data_block_size hashtree_desc |}
       else None;
     verity_mode := mode;
     ignore_zero_blocks := true |}.

(** The kernel mode string for each [veritymode] the code knows. *)
Inductive kernel_mode : option string -> option string -> Prop :=
| mode_absent : kernel_mode None (Some "restart_on_corruption")
| mode_enforcing : kernel_mode (Some "enforcing") (Some "restart_on_corruption")
| mode_logging : kernel_mode (Some "logging") (Some "ignore_corruption")
| mode_eio : kernel_mode (Some "eio") None.

Definition built_log (target : DmTargetVerity) : Event :=
  Log INFO ("Built verity table: '" ++ GetParameterString h target ++ "'").

Section Children.

Variables ab_suffix ab_other_suffix : string.
Variables allow_verification_error load_chained_vbmeta rollback_protection : bool.
Variable device_path_constructor : string -> string.

(** The recursive call of the walker at depth [fuel]. *)
Definition recurse (fuel : nat) (chain : ChainInfo)
    (out : option (list VBMetaData)) : M Walk :=
  LoadAndVerifyVbmetaImpl h fuel (ci_partition_name chain)
    ab_suffix ab_other_suffix (public_key_blob chain)
    allow_verification_error load_chained_vbmeta rollback_protection
    device_path_constructor true out.

(** What the walker does at a node once its blob has been read and
    verified: the flag checks, and then the children. *)
Definition after_verify (fuel : nat) (partition_name : string)
    (is_chained_vbmeta : bool) (out : option (list VBMetaData))
    (vbmeta : VBMetaData) (verify_result : VBMetaVerifyResult) : M Walk :=
  let header :=
    avb_vbmeta_image_header_to_host_byte_order h (vbmeta_ptr_ vbmeta) in
  let vbmeta := snd (GetVBMetaHeader h vbmeta true) in
  if is_chained_vbmeta && negb (flags header =? 0) then
    bind (LERROR (partition_name ++ ": chained vbmeta image has non-zero flags"))
         (fun _ => ret (kError, out))
  else if negb (Z.land (flags header)
                       AVB_VBMETA_IMAGE_FLAGS_VERIFICATION_DISABLED =? 0) then
    bind (LWARNING ("VERIFICATION_DISABLED bit is set for partition: "
                    ++ partition_name))
         (fun _ => ret (verify_result, append_image out vbmeta))
  else if load_chained_vbmeta then
    match out with
    | None => crash NullDereference
    | Some _ =>
        bind (GetChainPartitionInfo h vbmeta false)
             (fun '(chain_partitions, fatal_error) =>
                if (fatal_error : bool)
                then ret (kError, append_image out vbmeta)
                else chain_loop (recurse fuel) chain_partitions verify_result
                                (append_image out vbmeta))
    end
  else ret (verify_result, append_image out vbmeta).

End Children.

End Vocabulary.

(** ** The merge of the children's verdicts *)

(** How the verdicts of the chained partitions are merged, as the
    specification words it.  [visit] is the call made for one child;
    [merges_children visit children verdict out t res] says that
    visiting [children] in order, with the running verdict [verdict],
    the accumulator [out] and the trace [t], ends with [res]:
    - with no child left the running verdict is the result;
    - a child that answers [kError] ends the walk with [kError] at
      once, the remaining siblings are not visited;
    - a child that answers [kErrorVerification] makes it the running
      verdict, and the walk goes on with the remaining siblings;
    - a child that answers [kSuccess] leaves the running verdict as it
      is, and the walk goes on with the remaining siblings;
    - a child that does not return ends the walk the same way. *)
Inductive merges_children
    (visit : ChainInfo -> option (list VBMetaData) -> M Walk)
    : list ChainInfo -> VBMetaVerifyResult -> option (list VBMetaData) ->
      list Event -> Res Walk * list Event -> Prop :=
| merge_done (verdict : VBMetaVerifyResult) (out : option (list VBMetaData))
    (t : list Event) :
    merges_children visit [] verdict out t (Ok (verdict, out), t)
| merge_error (chain : ChainInfo) (rest : list ChainInfo)
    (verdict : VBMetaVerifyResult) (out out' : option (list VBMetaData))
    (t t' : list Event) :
    visit chain out t = (Ok (kError, out'), t') ->
    merges_children visit (chain :: rest) verdict out t
      (Ok (kError, out'), t')
| merge_error_verification (chain : ChainInfo) (rest : list ChainInfo)
    (verdict : VBMetaVerifyResult) (out out' : option (list VBMetaData))
    (t t' : list Event) (res : Res Walk * list Event) :
    visit chain out t = (Ok (kErrorVerification, out'), t') ->
    merges_children visit rest kErrorVerification out' t' res ->
    merges_children visit (chain :: rest) verdict out t res
| merge_success (chain : ChainInfo) (rest : list ChainInfo)
    (verdict : VBMetaVerifyResult) (out out' : option (list VBMetaData))
    (t t' : list Event) (res : Res Walk * list Event) :
    visit chain out t = (Ok (kSuccess, out'), t') ->
    merges_children visit rest verdict out' t' res ->
    merges_children visit (chain :: rest) verdict out t res
| merge_crash (chain : ChainInfo) (rest : list ChainInfo)
    (verdict : VBMetaVerifyResult) (out : option (list VBMetaData))
    (t t' : list Event) (f : Fault) :
    visit chain out t = (Crash f, t') ->
    merges_children visit (chain :: rest) verdict out t (Crash f, t').

(** ** Vocabulary of the further properties *)

Section FurtherVocabulary.

Variable h : Host.

(** How the chain scan reads one descriptor: [None] when a
    validate-and-byteswap it needs fails, [Some None] for a descriptor
    that is not a chain descriptor, [Some (Some info)] for a chain
    descriptor, the name and the key being the bytes that follow the
    fixed-size struct. *)
Definition chain_entry (d : list byte) : option (option ChainInfo) :=
  match avb_descriptor_validate_and_byteswap h d with
  | None => None
  | Some desc =>
      if tag desc =? AVB_DESCRIPTOR_TAG_CHAIN_PARTITION then
        match avb_chain_partition_descriptor_validate_and_byteswap h d with
        | None => None
        | Some chain_desc =>
            let name_at := ptr_add d (sizeof_AvbChainPartitionDescriptor h) in
            let key_at := ptr_add name_at (chain_partition_name_len chain_desc) in
            Some (Some {| ci_partition_name :=
                            StdString.of_bytes name_at
                              (chain_partition_name_len chain_desc);
                          public_key_blob :=
                            StdString.of_bytes key_at
                              (chain_public_key_len chain_desc) |})
        end
      else Some None
  end.

(** The chain descriptors among [descriptors], in their order. *)
Fixpoint chain_entries (descriptors : list (list byte)) : list ChainInfo :=
  match descriptors with
  | [] => []
  | d :: rest =>
      match chain_entry d with
      | Some (Some info) => info :: chain_entries rest
      | _ => chain_entries rest
      end
  end.

End FurtherVocabulary.

Section WalkVocabulary.

Variable h : Host.

(** The flags of the header of an image. *)
Definition image_flags (v : VBMetaData) : Z :=
  flags (avb_vbmeta_image_header_to_host_byte_order h (vbmeta_ptr_ v)).

(** [out'] is the accumulator [out] after images that satisfy [P] were
    appended to it; a null accumulator stays null. *)
Definition extends (P : VBMetaData -> Prop)
    (out out' : option (list VBMetaData)) : Prop :=
  match out with
  | None => out' = None
  | Some images =>
      exists more, out' = Some (images ++ more)%list /\ Forall P more
  end.

(** What a walk of [partition_name] leaves in the accumulator: nothing
    new and the verdict [kError], or its own image followed by those of
    the partitions below it; an image from a chained partition has no
    flag set. *)
Definition walked (is_chained_vbmeta : bool) (partition_name : string)
    (out : option (list VBMetaData)) (r : VBMetaVerifyResult)
    (out' : option (list VBMetaData)) : Prop :=
  match out with
  | None => out' = None
  | Some images =>
      (out' = Some images /\ r = kError)
      \/ exists v rest,
           out' = Some (images ++ v :: rest)%list
           /\ partition v = partition_name
           /\ (is_chained_vbmeta = true -> image_flags v = 0)
           /\ Forall (fun v => image_flags v = 0) rest
  end.

End WalkVocabulary.

(** More data for the small host: a second image that lists ["system"],
    with another salt and digest. *)
Module Sample.

Local Open Scope list_scope.

Definition system_hashtree_second : list byte :=
  [x01; x0b; x06; x01; x01] ++ Toy.name_bytes "system" ++ [x12; x34].

Definition second_image : list byte :=
  [x00; x00] ++ Toy.name_bytes "R" ++ system_hashtree_second.

Definition corrupt_descriptor : list byte :=
  [xff; x00] ++ Toy.system_hashtree.

End Sample.

(** An event that is a warning line of the log. *)
Definition is_warning (e : Event) : Prop := exists msg, e = Log WARNING msg.

(** ** The option names the fstab test expects *)

(** From [fs_mgr_read_fstab_file_proc_mounts] in [fs_mgr_test.cpp]: the
    names the test adds to the set [fs_options] for the flags of an
    entry.  The [MS_*] constants come from [<sys/mount.h>] and are left
    open; a [std::set<std::string>] is read through its members. *)
Section FstabTest.

Variables MS_NOATIME MS_NOEXEC MS_NOSUID MS_NODEV MS_NODIRATIME : Z.
Variables MS_RDONLY MS_REMOUNT MS_BIND MS_REC MS_UNBINDABLE : Z.
Variables MS_PRIVATE MS_SLAVE MS_SHARED : Z.

Definition mount_flags : list (string * Z) :=
  [("noatime", MS_NOATIME);
   ("noexec", MS_NOEXEC);
   ("nosuid", MS_NOSUID);
   ("nodev", MS_NODEV);
   ("nodiratime", MS_NODIRATIME);
   ("ro", MS_RDONLY);
   ("rw", 0);
   ("remount", MS_REMOUNT);
   ("bind", MS_BIND);
   ("rec", MS_REC);
   ("unbindable", MS_UNBINDABLE);
   ("private", MS_PRIVATE);
   ("slave", MS_SLAVE);
   ("shared", MS_SHARED);
   ("defaults", 0)]%list.

(** [set.emplace(name)] *)
Definition emplace (name : string) (set : list string) : list string :=
  if in_dec string_dec name set then set else (name :: set)%list.

(** The loop over the table, from entry [table] on. *)
Fixpoint add_flag_names (table : list (string * Z)) (entry_flags : Z)
    (fs_options : list string) : list string :=
  match table with
  | [] => fs_options
  | (name, flag) :: rest =>
      add_flag_names rest entry_flags
        (if negb (Z.land flag entry_flags =? 0)
         then emplace name fs_options
         else fs_options)
  end%list.

(** The set the test compares with the options of [/proc/mounts]:
    [fs_options] holds the options of the entry when the loop starts. *)
Definition expected_fs_options (fs_options : list string) (entry_flags : Z)
    : list string :=
  let fs_options := add_flag_names mount_flags entry_flags fs_options in
  if negb (negb (Z.land entry_flags MS_RDONLY =? 0))
  then emplace "rw" fs_options
  else fs_options.

End FstabTest.

(** * Properties *)

(** ** Facts about [std::string] operations *)

Module StdStringFacts.
Import StdString.

Lemma append_empty_r (s : string) : s ++ "" = s.
Proof. induction s as [|c s IH]; simpl; [reflexivity | now rewrite IH]. Qed.

Lemma substring_0_length (n : nat) (s : string) :
  (String.length (substring 0 n s) <= n)%nat.
Proof.
  revert s; induction n as [|n IH]; intros [|c s]; simpl; try lia.
  specialize (IH s); lia.
Qed.

Lemma prefix_empty_r (pat : string) :
  prefix pat "" = true -> pat = "".
Proof. destruct pat; simpl; [reflexivity | discriminate]. Qed.

Lemma rfind_Some_lt (pat s : string) (i : nat) :
  pat <> "" -> rfind pat s = Some i -> (i < String.length s)%nat.
Proof.
  intros Hpat; revert i; induction s as [|c s IH]; intros i;
    cbn [rfind String.length].
  - destruct (prefix pat "") eqn:E; [|discriminate].
    apply prefix_empty_r in E; contradiction.
  - destruct (rfind pat s) as [j|].
    + intros [= <-]. specialize (IH j eq_refl); lia.
    + destruct (prefix pat (String c s)); [|discriminate].
      intros [= <-]; lia.
Qed.

Lemma substring_shift (i n : nat) (c : ascii) (s : string) :
  substring (S i) n (String c s) = substring i n s.
Proof. reflexivity. Qed.

(** [rfind] answers [npos] exactly when the pattern occurs nowhere. *)
Lemma rfind_None_iff (pat s : string) :
  pat <> "" ->
  rfind pat s = None <->
  (forall i : nat, substring i (String.length pat) s <> pat).
Proof.
  intros Hpat; induction s as [|c s IH]; cbn [rfind].
  - split.
    + intros _ i E. destruct i, (String.length pat) eqn:L, pat;
        simpl in *; congruence.
    + intros _. destruct (prefix pat "") eqn:E; [|reflexivity].
      apply prefix_empty_r in E; contradiction.
  - split.
    + intros H i.
      destruct (rfind pat s) as [j|] eqn:R; [discriminate|].
      destruct (prefix pat (String c s)) eqn:P; [discriminate|].
      destruct i as [|i].
      * intros E. apply prefix_correct in E. congruence.
      * rewrite substring_shift. now apply IH.
    + intros H.
      assert (R : rfind pat s = None).
      { apply IH. intros i. specialize (H (S i)). now rewrite substring_shift in H. }
      rewrite R.
      destruct (prefix pat (String c s)) eqn:P; [|reflexivity].
      apply prefix_correct in P. now specialize (H O).
Qed.

End StdStringFacts.

(** ** C3: the A/B naming with empty suffixes *)

Example avb_name_system :
  AvbPartitionToDevicePatition "system" "_a" "_b" = "system_a".
Proof. reflexivity. Qed.

Example avb_name_system_other :
  AvbPartitionToDevicePatition "system_other" "_a" "_b" = "system_b".
Proof. reflexivity. Qed.

Example avb_name_non_ab_other :
  AvbPartitionToDevicePatition "system_other" "" "" = "system".
Proof. reflexivity. Qed.

(** C3, refuted as stated: with empty suffixes ["system_other"] is mapped
    to ["system"], so the transformation is not the identity on every
    name. *)
Lemma AvbPartitionToDevicePatition_not_identity :
  ~ (forall x : string, AvbPartitionToDevicePatition x "" "" = x).
Proof.
  intros H. specialize (H "system_other"). vm_compute in H. discriminate.
Qed.

(** C3, amended: with empty suffixes a name in which ["_other"] does not
    occur is returned unchanged; a name in which it occurs is cut at the
    last occurrence, and so is changed. *)
Theorem AvbPartitionToDevicePatition_empty_suffixes (x : string) :
  ((forall i : nat, substring i 6 x <> "_other") ->
   AvbPartitionToDevicePatition x "" "" = x)
  /\
  (forall pos : nat,
      StdString.rfind "_other" x = Some pos ->
      AvbPartitionToDevicePatition x "" "" = substring 0 pos x
      /\ AvbPartitionToDevicePatition x "" "" <> x).
Proof.
  assert (Hpat : "_other" <> "") by discriminate.
  unfold AvbPartitionToDevicePatition, StdString.erase. split.
  - intros Hno.
    apply (proj2 (StdStringFacts.rfind_None_iff "_other" x Hpat)) in Hno.
    rewrite Hno. apply StdStringFacts.append_empty_r.
  - intros pos Hpos. rewrite Hpos, StdStringFacts.append_empty_r.
    split; [reflexivity|].
    intros E. apply (StdStringFacts.rfind_Some_lt _ _ _ Hpat) in Hpos.
    pose proof (StdStringFacts.substring_0_length pos x) as Hlen.
    rewrite E in Hlen. lia.
Qed.

Lemma AvbPartitionToDevicePatition_empty_suffixes_witness :
  AvbPartitionToDevicePatition "vendor" "" "" = "vendor"
  /\ AvbPartitionToDevicePatition "system_other" "" "" = "system".
Proof.
  split.
  - apply (proj1 (AvbPartitionToDevicePatition_empty_suffixes "vendor")).
    intros i E.
    do 7 (destruct i as [|i]; [vm_compute in E; discriminate E|]).
    simpl in E. discriminate E.
  - apply (proj2 (AvbPartitionToDevicePatition_empty_suffixes "system_other") 6%nat).
    reflexivity.
Defined.

(** ** Running the monad *)

Ltac munfold :=
  unfold bind, ret, emit, crash, LERROR, LWARNING, LINFO, PERROR,
         sys_lseek64, sys_pread64, sys_open, sys_WaitForFile,
         dm_CreateDevice, dm_GetDmDevicePathByName, SetBlockDeviceReadOnly,
         udiv in *.

(** One step of the monad: the combinators and the boolean connectives
    are unfolded, everything else is left as it is written. *)
Ltac mred :=
  cbv [bind ret emit crash LERROR LWARNING LINFO PERROR
       sys_lseek64 sys_pread64 sys_open sys_WaitForFile
       dm_CreateDevice dm_GetDmDevicePathByName SetBlockDeviceReadOnly
       negb andb orb fst snd].

(** ** C1: the signature verifier *)

Module KeyFacts.

Lemma length_list_byte_of_string (s : string) :
  List.length (list_byte_of_string s) = String.length s.
Proof.
  unfold list_byte_of_string. rewrite length_map.
  induction s as [|c s IH]; simpl; [reflexivity | now rewrite IH].
Qed.

(** [memcmp] answers 0 exactly when both ranges lie in memory and hold
    the same bytes. *)
Lemma memcmp_0_iff (n : nat) (a b : list byte) :
  memcmp a b n = 0 <->
  (n <= List.length a)%nat /\ (n <= List.length b)%nat
  /\ firstn n a = firstn n b.
Proof.
  revert a b; induction n as [|n IH]; intros a b; simpl.
  - split; [intros _; repeat split; lia | reflexivity].
  - destruct a as [|x a], b as [|y b]; simpl;
      try (split; [discriminate | intros (? & ? & ?); lia]).
    destruct (Byte.eqb x y) eqn:E.
    + apply Byte.byte_dec_bl in E; subst y. rewrite IH.
      split; intros (Ha & Hb & Hf); repeat split; try lia; congruence.
    + apply Byte.eqb_false in E.
      split.
      * destruct (Byte.to_N x <? Byte.to_N y)%N; discriminate.
      * intros (_ & _ & Hf). congruence.
Qed.

(** With a non-empty expectation, a key is accepted only when its
    [length] bytes are the expected blob, which then has that length. *)
Lemma VerifyPublicKeyBlob_true_inv (key : list byte) (length : Z)
    (expected_key_blob : string) :
  expected_key_blob <> "" ->
  VerifyPublicKeyBlob key length expected_key_blob = true ->
  StdString.of_bytes key length = expected_key_blob
  /\ StdString.size expected_key_blob = length.
Proof.
  intros Hne. unfold VerifyPublicKeyBlob, StdString.of_bytes.
  assert (He : StdString.empty expected_key_blob = false)
    by (destruct expected_key_blob; [contradiction | reflexivity]).
  rewrite He. unfold StdString.size.
  destruct (Z.of_nat (String.length expected_key_blob) =? length) eqn:El;
    cbn [negb]; [|discriminate].
  apply Z.eqb_eq in El.
  destruct (memcmp key (list_byte_of_string expected_key_blob)
                   (Z.to_nat length) =? 0) eqn:Em; [|discriminate].
  intros _. split; [|assumption].
  apply Z.eqb_eq, memcmp_0_iff in Em. destruct Em as (_ & _ & Hf).
  assert (Hlen : List.length (list_byte_of_string expected_key_blob)
                 = Z.to_nat length)
    by (rewrite length_list_byte_of_string; lia).
  rewrite Hf, <- Hlen, firstn_all.
  apply string_of_list_byte_of_string.
Qed.

(** A recovered key that lies in memory and whose [length] bytes are the
    expected blob is accepted. *)
Lemma VerifyPublicKeyBlob_true_intro (key : list byte) (length : Z)
    (expected_key_blob : string) :
  0 <= length ->
  (Z.to_nat length <= List.length key)%nat ->
  StdString.of_bytes key length = expected_key_blob ->
  VerifyPublicKeyBlob key length expected_key_blob = true.
Proof.
  intros Hpos Hmem Hk. unfold VerifyPublicKeyBlob.
  destruct (StdString.empty expected_key_blob); [reflexivity|].
  assert (Hbytes : list_byte_of_string expected_key_blob
                   = firstn (Z.to_nat length) key).
  { rewrite <- Hk. apply list_byte_of_string_of_list_byte. }
  assert (Hsize : StdString.size expected_key_blob = length).
  { unfold StdString.size.
    rewrite <- length_list_byte_of_string, Hbytes, length_firstn. lia. }
  rewrite Hsize, Z.eqb_refl. cbn [negb].
  replace (memcmp key (list_byte_of_string expected_key_blob)
                  (Z.to_nat length)) with 0; [reflexivity|].
  symmetry. apply memcmp_0_iff. rewrite Hbytes, length_firstn.
  repeat split; try lia.
  now rewrite firstn_firstn, Nat.min_id.
Qed.

End KeyFacts.

Section Signature.

Variable h : Host.

Lemma VerifyVBMetaSignature_total (vbmeta : VBMetaData) (expected : string)
    (t : list Event) :
  exists r t', VerifyVBMetaSignature h vbmeta expected t = (Ok r, t').
Proof.
  unfold VerifyVBMetaSignature.
  destruct (avb_vbmeta_image_verify h (data vbmeta) (size vbmeta))
    as [[verdict pk_data] pk_len].
  munfold. cbv beta iota.
  repeat match goal with
         | |- context [if ?c then _ else _] => destruct c
         | |- context [match ?x with Some _ => _ | None => _ end] => destruct x
         end; cbn; eauto.
Qed.

(** C1: how [VerifyVBMetaSignature] maps the verdict of
    [avb_vbmeta_image_verify] to a [VBMetaVerifyResult].  With verdict OK
    and a recovered key (non-null pointer, positive length): an empty
    expected key gives [kSuccess]; a non-empty expected key gives
    [kSuccess] when the recovered bytes, all of them in memory, equal it
    and [kErrorVerification] when they differ in length or content.
    OK_NOT_SIGNED, HASH_MISMATCH and SIGNATURE_MISMATCH give
    [kErrorVerification].  Every verdict other than those four
    (INVALID_VBMETA_HEADER, UNSUPPORTED_VERSION and any unknown value)
    gives [kError], and so does OK with a null key pointer or a
    non-positive key length. *)
Theorem VerifyVBMetaSignature_verdict_map
    (vbmeta : VBMetaData) (expected : string) (t : list Event)
    (verdict : AvbVBMetaVerifyResult) (pk_data : option (list byte))
    (pk_len : Z) :
  avb_vbmeta_image_verify h (data vbmeta) (size vbmeta)
  = (verdict, pk_data, pk_len) ->
  let result := fst (VerifyVBMetaSignature h vbmeta expected t) in
  (verdict = AVB_VBMETA_VERIFY_RESULT_OK ->
   forall key : list byte,
     pk_data = Some key -> 0 < pk_len ->
     (expected = "" -> result = Ok kSuccess)
     /\ (expected <> "" ->
         (Z.to_nat pk_len <= List.length key)%nat ->
         StdString.of_bytes key pk_len = expected ->
         result = Ok kSuccess)
     /\ (expected <> "" ->
         StdString.size expected <> pk_len
         \/ StdString.of_bytes key pk_len <> expected ->
         result = Ok kErrorVerification))
  /\ (verdict = AVB_VBMETA_VERIFY_RESULT_OK_NOT_SIGNED
      \/ verdict = AVB_VBMETA_VERIFY_RESULT_HASH_MISMATCH
      \/ verdict = AVB_VBMETA_VERIFY_RESULT_SIGNATURE_MISMATCH ->
      result = Ok kErrorVerification)
  /\ (verdict <> AVB_VBMETA_VERIFY_RESULT_OK ->
      verdict <> AVB_VBMETA_VERIFY_RESULT_OK_NOT_SIGNED ->
      verdict <> AVB_VBMETA_VERIFY_RESULT_HASH_MISMATCH ->
      verdict <> AVB_VBMETA_VERIFY_RESULT_SIGNATURE_MISMATCH ->
      result = Ok kError)
  /\ (verdict = AVB_VBMETA_VERIFY_RESULT_OK ->
      pk_data = None \/ pk_len <= 0 ->
      result = Ok kError).
Proof.
  intros Hverify result. subst result.
  unfold VerifyVBMetaSignature. rewrite Hverify. munfold.
  repeat split.
  - (* empty expectation *)
    intros -> . subst. cbn.
    destruct (pk_len <=? 0) eqn:E; [apply Z.leb_le in E; lia|].
    reflexivity.
  - (* the recovered key is the expected one *)
    intros Hne Hmem Hkey. subst verdict pk_data. cbn.
    destruct (pk_len <=? 0) eqn:E; [apply Z.leb_le in E; lia|].
    rewrite (KeyFacts.VerifyPublicKeyBlob_true_intro
               key pk_len expected ltac:(lia) Hmem Hkey).
    reflexivity.
  - (* the recovered key differs *)
    intros Hne Hdiff. subst verdict pk_data. cbn.
    destruct (pk_len <=? 0) eqn:E; [apply Z.leb_le in E; lia|].
    destruct (VerifyPublicKeyBlob key pk_len expected) eqn:V; [|reflexivity].
    apply KeyFacts.VerifyPublicKeyBlob_true_inv in V; [|assumption].
    destruct V as [Vbytes Vsize].
    exfalso. destruct Hdiff as [Hsize | Hbytes]; contradiction.
  - (* not signed, hash mismatch, signature mismatch *)
    intros [-> | [-> | ->]]; reflexivity.
  - (* every other verdict *)
    intros H0 H1 H4 H5.
    apply Z.eqb_neq in H0, H1, H4, H5. rewrite H0, H1, H4, H5. cbn.
    destruct (verdict =? AVB_VBMETA_VERIFY_RESULT_INVALID_VBMETA_HEADER);
      [reflexivity|].
    destruct (verdict =? AVB_VBMETA_VERIFY_RESULT_UNSUPPORTED_VERSION);
      reflexivity.
  - (* OK without a key *)
    intros -> [-> | Hlen]; cbn; [reflexivity|].
    destruct pk_data; [|reflexivity].
    apply Z.leb_le in Hlen. rewrite Hlen. reflexivity.
Qed.

End Signature.

Lemma VerifyVBMetaSignature_verdict_map_witness :
  fst (VerifyVBMetaSignature (Toy.host Toy.world)
         (Toy.image "vendor" Toy.vendor_image) "W" []) = Ok kSuccess
  /\ fst (VerifyVBMetaSignature (Toy.host Toy.world)
            (Toy.image "vendor" Toy.vendor_image) "V" [])
     = Ok kErrorVerification.
Proof.
  pose proof (VerifyVBMetaSignature_verdict_map (Toy.host Toy.world)
                (Toy.image "vendor" Toy.vendor_image)) as H.
  split.
  - specialize (H "W" [] 0 (Some (Toy.name_bytes "W")) 1 eq_refl).
    destruct H as (H & _).
    destruct (H eq_refl (Toy.name_bytes "W") eq_refl ltac:(lia))
      as (_ & Hok & _).
    apply Hok; [discriminate | simpl; lia | reflexivity].
  - specialize (H "V" [] 0 (Some (Toy.name_bytes "W")) 1 eq_refl).
    destruct H as (H & _).
    destruct (H eq_refl (Toy.name_bytes "W") eq_refl ltac:(lia))
      as (_ & _ & Hbad).
    apply Hbad; [discriminate | right; discriminate].
Defined.

(** ** C4: where the blob is read from *)

Section ReadBlob.

Variable h : Host.

(** C4: for a partition whose name begins with ["vbmeta"] the first
    thing [VerifyVBMetaData] asks of the host is a read of
    [kMaxVBMetaSize] bytes (64 KiB) at offset 0, and any read that does
    not fail, however short, goes on to signature verification.  For
    every other partition with a footer the read is at the footer's
    [vbmeta_offset] with its [vbmeta_size]; a size above the maximum
    gives null without any read of the blob, and a read that does not
    return exactly [vbmeta_size] bytes gives null. *)
Theorem VerifyVBMetaData_read
    (fd : Z) (partition_name expected : string)
    (out : option VBMetaVerifyResult) (t : list Event) :
  (StdString.StartsWith partition_name "vbmeta" = true ->
   forall (num_read : Z) (buf : list byte),
     pread64 h fd kMaxVBMetaSize 0 = (num_read, buf) ->
     let t1 := (t ++ [Call_pread64 fd kMaxVBMetaSize 0])%list in
     (0 <= num_read ->
      VerifyVBMetaData h fd partition_name expected out t
      = verify_read_blob h
          {| vbmeta_ptr_ := buf; vbmeta_size_ := kMaxVBMetaSize;
             partition_name_ := partition_name |} expected out t1)
     /\ (num_read < 0 ->
         VerifyVBMetaData h fd partition_name expected out t
         = (Ok (None, out),
            (t1 ++ [read_failure partition_name 0 kMaxVBMetaSize])%list)))
  /\
  (StdString.StartsWith partition_name "vbmeta" = false ->
   forall (footer : AvbFooter) (t0 : list Event),
     GetAvbFooter h fd t = (Ok (Some footer), t0) ->
     (vbmeta_size footer > kMaxVBMetaSize ->
      VerifyVBMetaData h fd partition_name expected out t
      = (Ok (None, out),
         (t0 ++ [Log ERROR "VbMeta size in footer exceeds kMaxVBMetaSize"])%list))
     /\
     (vbmeta_size footer <= kMaxVBMetaSize ->
      forall (num_read : Z) (buf : list byte),
        pread64 h fd (vbmeta_size footer) (vbmeta_offset footer)
        = (num_read, buf) ->
        let t1 := (t0 ++ [Call_pread64 fd (vbmeta_size footer)
                                       (vbmeta_offset footer)])%list in
        (num_read <> vbmeta_size footer ->
         VerifyVBMetaData h fd partition_name expected out t
         = (Ok (None, out),
            (t1 ++ [read_failure partition_name (vbmeta_offset footer)
                                 (vbmeta_size footer)])%list))
        /\
        (num_read = vbmeta_size footer -> 0 <= num_read ->
         VerifyVBMetaData h fd partition_name expected out t
         = verify_read_blob h
             {| vbmeta_ptr_ := buf; vbmeta_size_ := vbmeta_size footer;
                partition_name_ := partition_name |} expected out t1))).
Proof.
  split.
  - intros Hname num_read buf Hread t1. subst t1.
    unfold VerifyVBMetaData, verify_read_blob, read_failure.
    rewrite Hname. mred.
    replace (kMaxVBMetaSize >? kMaxVBMetaSize) with false by reflexivity.
    mred. rewrite Hread. mred.
    split; intros Hn.
    + replace (num_read <? 0) with false
        by (symmetry; apply Z.ltb_ge; lia).
      destruct (VerifyVBMetaSignature h _ expected _) as [[r|f] t2];
        [destruct r|]; reflexivity.
    + replace (num_read <? 0) with true
        by (symmetry; apply Z.ltb_lt; lia).
      reflexivity.
  - intros Hname footer t0 Hfooter.
    unfold VerifyVBMetaData, verify_read_blob, read_failure.
    rewrite Hname. mred. rewrite Hfooter. mred.
    split.
    + intros Hbig.
      replace (vbmeta_size footer >? kMaxVBMetaSize) with true
        by (symmetry; apply Z.gtb_lt; lia).
      reflexivity.
    + intros Hsmall num_read buf Hread.
      replace (vbmeta_size footer >? kMaxVBMetaSize) with false
        by (symmetry; rewrite Z.gtb_ltb; apply Z.ltb_ge; lia).
      rewrite Hread. mred.
      split.
      * intros Hne. apply Z.eqb_neq in Hne. rewrite Hne.
        destruct (num_read <? 0); reflexivity.
      * intros Heq Hpos. apply Z.eqb_eq in Heq. rewrite Heq.
        replace (num_read <? 0) with false
          by (symmetry; apply Z.ltb_ge; lia).
        destruct (VerifyVBMetaSignature h _ expected _) as [[r|f] t2];
          [destruct r|]; reflexivity.
Qed.

End ReadBlob.

Lemma VerifyVBMetaData_read_witness :
  VerifyVBMetaData (Toy.host Toy.world) 3 "vbmeta" "" None []
  = verify_read_blob (Toy.host Toy.world)
      {| vbmeta_ptr_ := Toy.vbmeta_image; vbmeta_size_ := kMaxVBMetaSize;
         partition_name_ := "vbmeta" |} "" None
      [Call_pread64 3 kMaxVBMetaSize 0]
  /\
  VerifyVBMetaData (Toy.host Toy.world) 4 "vendor" "V" None []
  = verify_read_blob (Toy.host Toy.world)
      {| vbmeta_ptr_ := Toy.vendor_image; vbmeta_size_ := 3;
         partition_name_ := "vendor" |} "V" None
      [Call_lseek64 4 0 SEEK_CUR; Call_lseek64 4 0 SEEK_END;
       Call_lseek64 4 0 SEEK_SET; Call_pread64 4 64 3; Call_pread64 4 3 0].
Proof.
  split.
  - apply (proj1 (proj1 (VerifyVBMetaData_read (Toy.host Toy.world) 3
                           "vbmeta" "" None [])
                        eq_refl 39 Toy.vbmeta_image eq_refl)).
    lia.
  - destruct (proj2 (VerifyVBMetaData_read (Toy.host Toy.world) 4 "vendor" "V" None [])
                eq_refl {| vbmeta_offset := 0; vbmeta_size := 3 |}
                [Call_lseek64 4 0 SEEK_CUR; Call_lseek64 4 0 SEEK_END;
                 Call_lseek64 4 0 SEEK_SET; Call_pread64 4 64 3]
                eq_refl) as [_ Hread].
    assert (Hsmall : 3 <= kMaxVBMetaSize) by (unfold kMaxVBMetaSize; lia).
    destruct (Hread Hsmall 3 Toy.vendor_image eq_refl) as [_ Hexact].
    apply Hexact; [reflexivity | lia].
Defined.

(** ** C2 and C5: the chain walker *)

Section Walker.

Variable h : Host.
Variables ab_suffix ab_other_suffix : string.
Variables allow_verification_error load_chained_vbmeta rollback_protection : bool.
Variable device_path_constructor : string -> string.

Local Abbreviation child :=
  (recurse h ab_suffix ab_other_suffix allow_verification_error
           load_chained_vbmeta rollback_protection device_path_constructor).
Local Abbreviation after :=
  (after_verify h ab_suffix ab_other_suffix allow_verification_error
                load_chained_vbmeta rollback_protection device_path_constructor).

Section Node.

Variable fuel : nat.
Variables partition_name expected : string.
Variable is_chained_vbmeta : bool.
Variable out : option (list VBMetaData).
Variable t : list Event.

Let device_path : string :=
  device_path_constructor
    (AvbPartitionToDevicePatition partition_name ab_suffix ab_other_suffix).

Variable vbmeta : VBMetaData.
Variable verify_result : VBMetaVerifyResult.
Variable t1 : list Event.

Hypothesis Hwait : WaitForFile h device_path = true.
Hypothesis Hopen : 0 <= open h (StdString.c_str device_path).
Hypothesis Hverify :
  VerifyVBMetaData h (open h (StdString.c_str device_path)) partition_name expected
    (Some (indeterminate_verify_result h))
    ((t ++ [Call_WaitForFile device_path])
     ++ [Call_open (StdString.c_str device_path)])%list
  = (Ok (Some vbmeta, Some verify_result), t1).
Hypothesis Hallowed :
  allow_verification_error = true \/ verify_result <> kErrorVerification.

(** A node whose device is there, opens, and whose blob is read and
    accepted goes on with [after_verify]. *)
Lemma LoadAndVerifyVbmetaImpl_node :
  LoadAndVerifyVbmetaImpl h (S fuel) partition_name ab_suffix
    ab_other_suffix expected allow_verification_error load_chained_vbmeta
    rollback_protection device_path_constructor is_chained_vbmeta out t
  = after fuel partition_name is_chained_vbmeta out vbmeta
                 verify_result t1.
Proof.
  cbn [LoadAndVerifyVbmetaImpl]. fold device_path.
  unfold after_verify, recurse. mred. rewrite Hwait.
  replace (open h (StdString.c_str device_path) <? 0) with false
    by (symmetry; apply Z.ltb_ge; lia).
  rewrite Hverify.
  assert (Hgo : (if if allow_verification_error then false else true
                 then VBMetaVerifyResult_eqb verify_result kErrorVerification
                 else false)
                = false).
  { destruct Hallowed as [-> | Hne]; [reflexivity|].
    destruct allow_verification_error; [reflexivity|].
    destruct verify_result; try reflexivity. contradiction. }
  rewrite Hgo. unfold GetVBMetaHeader, RollbackDetected.
  cbv beta iota.
  destruct rollback_protection, is_chained_vbmeta; cbv beta iota.
  all: try (destruct (flags _ =? 0); [|reflexivity]).
  all: destruct (Z.land _ _ =? 0); [|reflexivity].
  all: destruct load_chained_vbmeta; [|reflexivity].
  all: destruct out as [images|]; [|reflexivity].
  all: cbv beta iota; rewrite rev_unit; reflexivity.
Qed.

End Node.

(** C2, amended: at a node whose blob was read and accepted and whose
    header carries [VERIFICATION_DISABLED], the walker stops without
    visiting any child.  When the node is a chained partition it logs
    an error and answers [kError], leaving the accumulator as it was;
    when the node is the root it appends the image, logs a warning and
    answers the verdict of the signature check ([kSuccess] when the
    signature verified).  In both cases the trace is the one of
    reading the node followed by that single log line, whatever the
    depth allowed. *)
Theorem LoadAndVerifyVbmetaImpl_verification_disabled
    (fuel : nat) (partition_name expected : string)
    (is_chained_vbmeta : bool) (out : option (list VBMetaData))
    (t : list Event) (vbmeta : VBMetaData)
    (verify_result : VBMetaVerifyResult) (t1 : list Event) :
  let device_path :=
    device_path_constructor
      (AvbPartitionToDevicePatition partition_name ab_suffix ab_other_suffix) in
  let header :=
    avb_vbmeta_image_header_to_host_byte_order h (vbmeta_ptr_ vbmeta) in
  let walk :=
    LoadAndVerifyVbmetaImpl h (S fuel) partition_name ab_suffix
      ab_other_suffix expected allow_verification_error load_chained_vbmeta
      rollback_protection device_path_constructor is_chained_vbmeta out t in
  WaitForFile h device_path = true ->
  0 <= open h (StdString.c_str device_path) ->
  VerifyVBMetaData h (open h (StdString.c_str device_path)) partition_name expected
    (Some (indeterminate_verify_result h))
    ((t ++ [Call_WaitForFile device_path])
     ++ [Call_open (StdString.c_str device_path)])%list
  = (Ok (Some vbmeta, Some verify_result), t1) ->
  allow_verification_error = true \/ verify_result <> kErrorVerification ->
  Z.land (flags header) AVB_VBMETA_IMAGE_FLAGS_VERIFICATION_DISABLED <> 0 ->
  (is_chained_vbmeta = true ->
   walk = (Ok (kError, out),
           (t1 ++ [Log ERROR (partition_name
                              ++ ": chained vbmeta image has non-zero flags")])%list))
  /\
  (is_chained_vbmeta = false ->
   walk = (Ok (verify_result,
               append_image out (snd (GetVBMetaHeader h vbmeta true))),
           (t1 ++ [Log WARNING
                     ("VERIFICATION_DISABLED bit is set for partition: "
                      ++ partition_name)])%list)).
Proof.
  intros device_path header walk Hwait Hopen Hverify Hallowed Hflag.
  subst walk.
  rewrite (LoadAndVerifyVbmetaImpl_node fuel partition_name expected
             is_chained_vbmeta out t vbmeta verify_result t1
             Hwait Hopen Hverify Hallowed).
  unfold after_verify. fold header.
  apply Z.eqb_neq in Hflag. rewrite Hflag.
  assert (Hnz : (flags header =? 0) = false).
  { apply Z.eqb_neq. intros E. apply Z.eqb_neq in Hflag. apply Hflag.
    rewrite E. reflexivity. }
  rewrite Hnz. split; intros ->; reflexivity.
Qed.

(** The blob comes back only with one of the two verdicts that let the
    walk go on. *)
Lemma VerifyVBMetaData_blob_verdict (fd : Z) (partition_name expected : string)
    (v0 : VBMetaVerifyResult) (t t' : list Event) (vbmeta : VBMetaData)
    (cell : option VBMetaVerifyResult) :
  VerifyVBMetaData h fd partition_name expected (Some v0) t
  = (Ok (Some vbmeta, cell), t') ->
  cell = Some kSuccess \/ cell = Some kErrorVerification.
Proof.
  unfold VerifyVBMetaData. mred.
  destruct (StdString.StartsWith partition_name "vbmeta").
  - destruct (kMaxVBMetaSize >? kMaxVBMetaSize); [discriminate|].
    destruct (pread64 h fd kMaxVBMetaSize 0) as [num_read buf].
    destruct (num_read <? 0); [discriminate|].
    destruct (VerifyVBMetaSignature h _ expected _) as [[r|f] t2];
      [|discriminate].
    destruct r; cbn; intros [= <- <- <-]; auto.
  - destruct (GetAvbFooter h fd t) as [[[footer|]|f] t0]; try discriminate.
    destruct (vbmeta_size footer >? kMaxVBMetaSize); [discriminate|].
    destruct (pread64 h fd (vbmeta_size footer) (vbmeta_offset footer))
      as [num_read buf].
    destruct (num_read <? 0); [discriminate|].
    destruct (num_read =? vbmeta_size footer); [|discriminate].
    destruct (VerifyVBMetaSignature h _ expected _) as [[r|f] t2];
      [|discriminate].
    destruct r; cbn; intros [= <- <- <-]; auto.
Qed.

(** The loop hands on a verdict other than [kUnknown] when it starts
    with one and the children do. *)
Lemma chain_loop_never_unknown
    (rec : ChainInfo -> option (list VBMetaData) -> M Walk) :
  (forall chain out t r out' t',
      rec chain out t = (Ok (r, out'), t') -> r <> kUnknown) ->
  forall chain_partitions verify_result out t r out' t',
    verify_result <> kUnknown ->
    chain_loop rec chain_partitions verify_result out t = (Ok (r, out'), t') ->
    r <> kUnknown.
Proof.
  intros Hrec chain_partitions.
  induction chain_partitions as [|chain rest IH];
    intros verify_result out t r out' t' Hvr; cbn [chain_loop]; mred.
  - intros [= <- _ _]. assumption.
  - destruct (rec chain out t) as [[[sub_ret out1]|f] t1] eqn:E;
      [|discriminate].
    pose proof (Hrec _ _ _ _ _ _ E) as Hsub.
    destruct sub_ret; cbn.
    + apply IH. assumption.
    + intros [= <- _ _]. discriminate.
    + apply IH. discriminate.
    + contradiction.
Qed.

(** The walker never answers [kUnknown]. *)
Lemma LoadAndVerifyVbmetaImpl_never_unknown (fuel : nat) :
  forall partition_name expected is_chained_vbmeta out t r out' t',
    LoadAndVerifyVbmetaImpl h fuel partition_name ab_suffix ab_other_suffix
      expected allow_verification_error load_chained_vbmeta
      rollback_protection device_path_constructor is_chained_vbmeta out t
    = (Ok (r, out'), t') ->
    r <> kUnknown.
Proof.
  induction fuel as [|fuel IH];
    intros partition_name expected is_chained_vbmeta out t r out' t'.
  - discriminate.
  - set (device_path :=
           device_path_constructor
             (AvbPartitionToDevicePatition partition_name ab_suffix
                                           ab_other_suffix)).
    destruct (WaitForFile h device_path) eqn:Hwait.
    2: { cbn [LoadAndVerifyVbmetaImpl]. fold device_path. mred.
         rewrite Hwait. intros [= <- _ _]. discriminate. }
    destruct (open h (StdString.c_str device_path) <? 0) eqn:Hopen.
    { cbn [LoadAndVerifyVbmetaImpl]. fold device_path. mred.
      rewrite Hwait, Hopen. intros [= <- _ _]. discriminate. }
    destruct (VerifyVBMetaData h (open h (StdString.c_str device_path))
                partition_name expected
                (Some (indeterminate_verify_result h))
                ((t ++ [Call_WaitForFile device_path])
                 ++ [Call_open (StdString.c_str device_path)])%list)
      as [[[[vbmeta|] cell]|f] t1] eqn:Hverify.
    + destruct (VerifyVBMetaData_blob_verdict _ _ _ _ _ _ _ _ Hverify)
        as [-> | ->].
      * rewrite (LoadAndVerifyVbmetaImpl_node fuel partition_name expected
                   is_chained_vbmeta out t vbmeta kSuccess t1 Hwait
                   ltac:(apply Z.ltb_ge in Hopen; exact Hopen) Hverify
                   ltac:(right; discriminate)).
        unfold after_verify, recurse. mred.
        repeat match goal with
               | |- context [if ?c then _ else _] => destruct c
               end;
          try (intros [= <- _ _]; discriminate).
        all: try discriminate.
        all: destruct (GetChainPartitionInfo h _ false t1)
               as [[[chains [|]]|f] t2]; try discriminate;
          try (intros [= <- _ _]; discriminate).
        all: apply chain_loop_never_unknown; [|discriminate].
        all: intros chain o tt rr oo tt'; apply IH.
      * destruct (Bool.bool_dec allow_verification_error true)
          as [Hallow | Hallow].
        -- rewrite (LoadAndVerifyVbmetaImpl_node fuel partition_name expected
                      is_chained_vbmeta out t vbmeta kErrorVerification t1
                      Hwait ltac:(apply Z.ltb_ge in Hopen; exact Hopen)
                      Hverify ltac:(left; assumption)).
           unfold after_verify, recurse. mred.
           repeat match goal with
                  | |- context [if ?c then _ else _] => destruct c
                  end;
             try (intros [= <- _ _]; discriminate).
           all: try discriminate.
           all: destruct (GetChainPartitionInfo h _ false t1)
                  as [[[chains [|]]|f] t2]; try discriminate;
             try (intros [= <- _ _]; discriminate).
           all: apply chain_loop_never_unknown; [|discriminate].
           all: intros chain o tt rr oo tt'; apply IH.
        -- apply Bool.not_true_is_false in Hallow.
           cbn [LoadAndVerifyVbmetaImpl]. fold device_path. mred.
           rewrite Hwait, Hopen, Hverify, Hallow. cbn.
           intros [= <- _ _]. discriminate.
    + cbn [LoadAndVerifyVbmetaImpl]. fold device_path. mred.
      rewrite Hwait, Hopen, Hverify. intros [= <- _ _]. discriminate.
    + cbn [LoadAndVerifyVbmetaImpl]. fold device_path. mred.
      rewrite Hwait, Hopen, Hverify. discriminate.
Qed.

(** A node that carries no flag and is asked to load its chain runs
    the loop over its chain descriptors, and answers what the loop
    answers. *)
Lemma LoadAndVerifyVbmetaImpl_runs_chain_loop
    (fuel : nat) (partition_name expected : string)
    (is_chained_vbmeta : bool) (images : list VBMetaData)
    (t : list Event) (vbmeta : VBMetaData)
    (verify_result : VBMetaVerifyResult) (t1 t2 : list Event)
    (chain_partitions : list ChainInfo) :
  let device_path :=
    device_path_constructor
      (AvbPartitionToDevicePatition partition_name ab_suffix ab_other_suffix) in
  let header :=
    avb_vbmeta_image_header_to_host_byte_order h (vbmeta_ptr_ vbmeta) in
  let vbmeta' := snd (GetVBMetaHeader h vbmeta true) in
  WaitForFile h device_path = true ->
  0 <= open h (StdString.c_str device_path) ->
  VerifyVBMetaData h (open h (StdString.c_str device_path)) partition_name expected
    (Some (indeterminate_verify_result h))
    ((t ++ [Call_WaitForFile device_path])
     ++ [Call_open (StdString.c_str device_path)])%list
  = (Ok (Some vbmeta, Some verify_result), t1) ->
  allow_verification_error = true \/ verify_result <> kErrorVerification ->
  flags header = 0 ->
  load_chained_vbmeta = true ->
  GetChainPartitionInfo h vbmeta' false t1 = (Ok (chain_partitions, false), t2) ->
  LoadAndVerifyVbmetaImpl h (S fuel) partition_name ab_suffix
    ab_other_suffix expected allow_verification_error load_chained_vbmeta
    rollback_protection device_path_constructor is_chained_vbmeta
    (Some images) t
  = chain_loop (child fuel) chain_partitions verify_result
               (Some (images ++ [vbmeta'])%list) t2.
Proof.
  intros device_path header vbmeta' Hwait Hopen Hverify Hallowed Hflags
         Hload Hchains.
  rewrite (LoadAndVerifyVbmetaImpl_node fuel partition_name expected
             is_chained_vbmeta (Some images) t vbmeta verify_result t1
             Hwait Hopen Hverify Hallowed).
  unfold after_verify. fold header. fold vbmeta'.
  rewrite Hflags, Hload. cbn [Z.eqb Z.land negb andb].
  rewrite andb_false_r. unfold bind. rewrite Hchains. reflexivity.
Qed.

(** A node reaches the loop over its chain descriptors exactly past
    the two tests on its flags. *)
Lemma LoadAndVerifyVbmetaImpl_reaches_loop
    (fuel : nat) (partition_name expected : string)
    (is_chained_vbmeta : bool) (images : list VBMetaData)
    (t : list Event) (vbmeta : VBMetaData)
    (verify_result : VBMetaVerifyResult) (t1 t2 : list Event)
    (chain_partitions : list ChainInfo) :
  let device_path :=
    device_path_constructor
      (AvbPartitionToDevicePatition partition_name ab_suffix ab_other_suffix) in
  let header :=
    avb_vbmeta_image_header_to_host_byte_order h (vbmeta_ptr_ vbmeta) in
  let vbmeta' := snd (GetVBMetaHeader h vbmeta true) in
  WaitForFile h device_path = true ->
  0 <= open h (StdString.c_str device_path) ->
  VerifyVBMetaData h (open h (StdString.c_str device_path)) partition_name expected
    (Some (indeterminate_verify_result h))
    ((t ++ [Call_WaitForFile device_path])
     ++ [Call_open (StdString.c_str device_path)])%list
  = (Ok (Some vbmeta, Some verify_result), t1) ->
  allow_verification_error = true \/ verify_result <> kErrorVerification ->
  (is_chained_vbmeta = true -> flags header = 0) ->
  Z.land (flags header) AVB_VBMETA_IMAGE_FLAGS_VERIFICATION_DISABLED = 0 ->
  load_chained_vbmeta = true ->
  GetChainPartitionInfo h vbmeta' false t1 = (Ok (chain_partitions, false), t2) ->
  LoadAndVerifyVbmetaImpl h (S fuel) partition_name ab_suffix
    ab_other_suffix expected allow_verification_error load_chained_vbmeta
    rollback_protection device_path_constructor is_chained_vbmeta
    (Some images) t
  = chain_loop (child fuel) chain_partitions verify_result
               (Some (images ++ [vbmeta'])%list) t2.
Proof.
  intros device_path header vbmeta' Hwait Hopen Hverify Hallowed Hchained
         Hdisabled Hload Hchains.
  rewrite (LoadAndVerifyVbmetaImpl_node fuel partition_name expected
             is_chained_vbmeta (Some images) t vbmeta verify_result t1
             Hwait Hopen Hverify Hallowed).
  unfold after_verify. fold header. fold vbmeta'.
  assert (Hc : is_chained_vbmeta && negb (flags header =? 0) = false).
  { destruct is_chained_vbmeta; [|reflexivity].
    rewrite (Hchained eq_refl). reflexivity. }
  rewrite Hc, Hdisabled, Hload. cbn [Z.eqb negb].
  unfold bind. rewrite Hchains. reflexivity.
Qed.

(** The loop is a merge of the verdicts of the calls it makes, when
    these never answer [kUnknown]. *)
Lemma chain_loop_merges
    (rec : ChainInfo -> option (list VBMetaData) -> M Walk) :
  (forall chain out t r out' t',
      rec chain out t = (Ok (r, out'), t') -> r <> kUnknown) ->
  forall chain_partitions verify_result out t,
    merges_children rec chain_partitions verify_result out t
      (chain_loop rec chain_partitions verify_result out t).
Proof.
  intros Hrec chain_partitions.
  induction chain_partitions as [|chain rest IH]; intros verify_result out t.
  - apply merge_done.
  - cbn [chain_loop]. unfold bind.
    destruct (rec chain out t) as [[[sub_ret out1]|f] t1] eqn:E.
    + pose proof (Hrec _ _ _ _ _ _ E) as Hknown.
      destruct sub_ret; cbn.
      * eapply merge_success; [exact E | apply IH].
      * apply merge_error. exact E.
      * eapply merge_error_verification; [exact E | apply IH].
      * contradiction.
    + apply merge_crash. exact E.
Qed.

(** The children are visited one way only: a merge has one result. *)
Lemma merges_children_unique
    (visit : ChainInfo -> option (list VBMetaData) -> M Walk)
    (children : list ChainInfo) (verdict : VBMetaVerifyResult)
    (out : option (list VBMetaData)) (t : list Event)
    (res : Res Walk * list Event) :
  merges_children visit children verdict out t res ->
  forall res', merges_children visit children verdict out t res' ->
               res' = res.
Proof.
  induction 1 as [verdict out t
                 | chain rest verdict out out' t t' E
                 | chain rest verdict out out' t t' res E _ IH
                 | chain rest verdict out out' t t' res E _ IH
                 | chain rest verdict out t t' f E];
    intros res' Hres'; inversion Hres'; subst;
    try reflexivity; try congruence.
  - apply IH.
    match goal with
    | Hv : visit chain out t = (Ok (kErrorVerification, ?o), ?tt) |- _ =>
        rewrite E in Hv; injection Hv as <- <-
    end.
    assumption.
  - apply IH.
    match goal with
    | Hv : visit chain out t = (Ok (kSuccess, ?o), ?tt) |- _ =>
        rewrite E in Hv; injection Hv as <- <-
    end.
    assumption.
Qed.

(** C5: what [LoadAndVerifyVbmetaImpl] answers at a node whose own
    image was read and accepted and passes the two tests on its flags
    (none set for a chained image, [VERIFICATION_DISABLED] not set for
    the top-level one), and whose chain descriptors are
    [chain_partitions], when it is asked to load the chained images.  Its result, accumulator and trace are those of
    the merge of the calls it makes for the chained partitions, in
    their order, starting from the verdict of the node's own image and
    the accumulator with that image appended: a child that answers
    [kError] makes [kError] the result at once, with the accumulator
    and the trace as that child left them, so that no later sibling is
    visited; a child that answers [kErrorVerification] makes it the
    running verdict and the remaining siblings are visited; a child
    that answers [kSuccess] leaves the running verdict as it is; after
    the last child the running verdict is the result.  The merge has
    no other result than the one of the function. *)
Theorem LoadAndVerifyVbmetaImpl_merges_children
    (fuel : nat) (partition_name expected : string)
    (is_chained_vbmeta : bool) (images : list VBMetaData)
    (t : list Event) (vbmeta : VBMetaData)
    (verify_result : VBMetaVerifyResult) (t1 t2 : list Event)
    (chain_partitions : list ChainInfo) :
  let device_path :=
    device_path_constructor
      (AvbPartitionToDevicePatition partition_name ab_suffix ab_other_suffix) in
  let header :=
    avb_vbmeta_image_header_to_host_byte_order h (vbmeta_ptr_ vbmeta) in
  let vbmeta' := snd (GetVBMetaHeader h vbmeta true) in
  let walk :=
    LoadAndVerifyVbmetaImpl h (S fuel) partition_name ab_suffix
      ab_other_suffix expected allow_verification_error load_chained_vbmeta
      rollback_protection device_path_constructor is_chained_vbmeta
      (Some images) t in
  let visit (chain : ChainInfo) (out : option (list VBMetaData)) :=
    LoadAndVerifyVbmetaImpl h fuel (ci_partition_name chain) ab_suffix
      ab_other_suffix (public_key_blob chain) allow_verification_error
      load_chained_vbmeta rollback_protection device_path_constructor
      true out in
  WaitForFile h device_path = true ->
  0 <= open h (StdString.c_str device_path) ->
  VerifyVBMetaData h (open h (StdString.c_str device_path)) partition_name expected
    (Some (indeterminate_verify_result h))
    ((t ++ [Call_WaitForFile device_path])
     ++ [Call_open (StdString.c_str device_path)])%list
  = (Ok (Some vbmeta, Some verify_result), t1) ->
  allow_verification_error = true \/ verify_result <> kErrorVerification ->
  (is_chained_vbmeta = true -> flags header = 0) ->
  Z.land (flags header) AVB_VBMETA_IMAGE_FLAGS_VERIFICATION_DISABLED = 0 ->
  load_chained_vbmeta = true ->
  GetChainPartitionInfo h vbmeta' false t1 = (Ok (chain_partitions, false), t2) ->
  merges_children visit chain_partitions verify_result
    (Some (images ++ [vbmeta'])%list) t2 walk
  /\ (forall res,
        merges_children visit chain_partitions verify_result
          (Some (images ++ [vbmeta'])%list) t2 res ->
        res = walk).
Proof.
  intros device_path header vbmeta' walk visit Hwait Hopen Hverify Hallowed
         Hchained Hdisabled Hload Hchains.
  assert (Hwalk : walk
                  = chain_loop visit chain_partitions verify_result
                      (Some (images ++ [vbmeta'])%list) t2).
  { exact (LoadAndVerifyVbmetaImpl_reaches_loop fuel partition_name
             expected is_chained_vbmeta images t vbmeta verify_result t1 t2
             chain_partitions Hwait Hopen Hverify Hallowed Hchained Hdisabled
             Hload Hchains). }
  assert (Hmerge : merges_children visit chain_partitions verify_result
                     (Some (images ++ [vbmeta'])%list) t2 walk).
  { rewrite Hwalk. apply chain_loop_merges.
    intros chain out t0 r out' t'. subst visit.
    apply LoadAndVerifyVbmetaImpl_never_unknown. }
  split; [exact Hmerge|].
  intros res Hres. exact (merges_children_unique _ _ _ _ _ _ Hmerge res Hres).
Qed.

End Walker.

Lemma LoadAndVerifyVbmetaImpl_verification_disabled_witness :
  Toy.walk Toy.world_root_disabled "vbmeta" "" true false
  = (Ok (kSuccess, Some [Toy.image "vbmeta" Toy.vbmeta_image_disabled]),
     [Call_WaitForFile "/dev/block/by-name/vbmeta";
      Call_open "/dev/block/by-name/vbmeta";
      Call_pread64 3 kMaxVBMetaSize 0;
      Log WARNING "VERIFICATION_DISABLED bit is set for partition: vbmeta"])
  /\
  Toy.walk Toy.world_vendor_disabled "vendor" "V" true true
  = (Ok (kError, Some []),
     [Call_WaitForFile "/dev/block/by-name/vendor";
      Call_open "/dev/block/by-name/vendor";
      Call_lseek64 4 0 SEEK_CUR; Call_lseek64 4 0 SEEK_END;
      Call_lseek64 4 0 SEEK_SET; Call_pread64 4 64 3; Call_pread64 4 3 0;
      Log ERROR "vendor: chained vbmeta image has non-zero flags"]).
Proof.
  split.
  - apply (proj2 (LoadAndVerifyVbmetaImpl_verification_disabled
                    (Toy.host Toy.world_root_disabled) "" "" true true false
                    Toy.device_path 7 "vbmeta" "" false (Some []) []
                    {| vbmeta_ptr_ := Toy.vbmeta_image_disabled;
                       vbmeta_size_ := kMaxVBMetaSize;
                       partition_name_ := "vbmeta" |}
                    kSuccess
                    [Call_WaitForFile "/dev/block/by-name/vbmeta";
                     Call_open "/dev/block/by-name/vbmeta";
                     Call_pread64 3 kMaxVBMetaSize 0]
                    eq_refl ltac:(simpl; lia) eq_refl
                    ltac:(left; reflexivity) ltac:(simpl; lia))
                 eq_refl).
  - apply (proj1 (LoadAndVerifyVbmetaImpl_verification_disabled
                    (Toy.host Toy.world_vendor_disabled) "" "" true true false
                    Toy.device_path 7 "vendor" "V" true (Some []) []
                    {| vbmeta_ptr_ := Toy.vendor_image_disabled;
                       vbmeta_size_ := 3;
                       partition_name_ := "vendor" |}
                    kSuccess
                    [Call_WaitForFile "/dev/block/by-name/vendor";
                     Call_open "/dev/block/by-name/vendor";
                     Call_lseek64 4 0 SEEK_CUR; Call_lseek64 4 0 SEEK_END;
                     Call_lseek64 4 0 SEEK_SET; Call_pread64 4 64 3;
                     Call_pread64 4 3 0]
                    eq_refl ltac:(simpl; lia) eq_refl
                    ltac:(left; reflexivity) ltac:(simpl; lia))
                 eq_refl).
Defined.

(** C2, refuted as stated: the chained image of [vendor] verifies against
    the key of its chain descriptor and carries [VERIFICATION_DISABLED];
    called as for a chained partition the walker answers [kError], not
    [kSuccess], and logs no warning; the walk from the root, which
    reaches [vendor] through its chain descriptor, answers [kError]
    too. *)
Lemma chained_verification_disabled_is_error :
  let h := Toy.host Toy.world_vendor_disabled in
  let walk := Toy.walk Toy.world_vendor_disabled "vendor" "V" true true in
  fst (VerifyVBMetaSignature h (Toy.image "vendor" Toy.vendor_image_disabled)
                             "V" []) = Ok kSuccess
  /\ Z.land (flags (avb_vbmeta_image_header_to_host_byte_order h
                      Toy.vendor_image_disabled))
            AVB_VBMETA_IMAGE_FLAGS_VERIFICATION_DISABLED
     = AVB_VBMETA_IMAGE_FLAGS_VERIFICATION_DISABLED
  /\ fst walk = Ok (kError, Some [])
  /\ ~ In (Log WARNING "VERIFICATION_DISABLED bit is set for partition: vendor")
          (snd walk)
  /\ fst (Toy.walk Toy.world_vendor_disabled "vbmeta" "" true false)
     = Ok (kError, Some [Toy.image "vbmeta" Toy.vbmeta_image]).
Proof.
  cbv zeta. repeat split; try (vm_compute; reflexivity).
  vm_compute. intros H.
  repeat (destruct H as [H | H]; [discriminate H|]). exact H.
Qed.

(** The walk from the root over a [vendor] image signed with another key
    than the one of its chain descriptor: with verification errors
    allowed the verdict is [kErrorVerification] and all three images are
    accumulated, root first; without, the walk stops at [vendor] with
    [kError]. *)
Example walk_key_mismatch_allowed :
  fst (Toy.walk Toy.world "vbmeta" "" true false)
  = Ok (kErrorVerification,
        Some [Toy.image "vbmeta" Toy.vbmeta_image;
              Toy.image "vendor" Toy.vendor_image;
              Toy.image "product" Toy.product_image]).
Proof. vm_compute. reflexivity. Qed.

Example walk_key_mismatch_refused :
  fst (Toy.walk Toy.world "vbmeta" "" false false)
  = Ok (kError, Some [Toy.image "vbmeta" Toy.vbmeta_image]).
Proof. vm_compute. reflexivity. Qed.

Lemma LoadAndVerifyVbmetaImpl_merges_children_witness :
  Toy.walk Toy.world "vbmeta" "" true false
  = (Ok (kErrorVerification,
         Some [Toy.image "vbmeta" Toy.vbmeta_image;
               Toy.image "vendor" Toy.vendor_image;
               Toy.image "product" Toy.product_image]),
     [Call_WaitForFile "/dev/block/by-name/vbmeta";
      Call_open "/dev/block/by-name/vbmeta";
      Call_pread64 3 kMaxVBMetaSize 0;
      Call_WaitForFile "/dev/block/by-name/vendor";
      Call_open "/dev/block/by-name/vendor";
      Call_lseek64 4 0 SEEK_CUR; Call_lseek64 4 0 SEEK_END;
      Call_lseek64 4 0 SEEK_SET; Call_pread64 4 64 3; Call_pread64 4 3 0;
      Log ERROR
        "vendor: Error verifying vbmeta image: public key used to sign data does not match key in chain descriptor";
      Call_WaitForFile "/dev/block/by-name/product";
      Call_open "/dev/block/by-name/product";
      Call_lseek64 5 0 SEEK_CUR; Call_lseek64 5 0 SEEK_END;
      Call_lseek64 5 0 SEEK_SET; Call_pread64 5 64 3; Call_pread64 5 3 0])
  /\
  Toy.walk Toy.world "vbmeta" "" false false
  = (Ok (kError, Some [Toy.image "vbmeta" Toy.vbmeta_image]),
     [Call_WaitForFile "/dev/block/by-name/vbmeta";
      Call_open "/dev/block/by-name/vbmeta";
      Call_pread64 3 kMaxVBMetaSize 0;
      Call_WaitForFile "/dev/block/by-name/vendor";
      Call_open "/dev/block/by-name/vendor";
      Call_lseek64 4 0 SEEK_CUR; Call_lseek64 4 0 SEEK_END;
      Call_lseek64 4 0 SEEK_SET; Call_pread64 4 64 3; Call_pread64 4 3 0;
      Log ERROR
        "vendor: Error verifying vbmeta image: public key used to sign data does not match key in chain descriptor";
      Log ERROR "vendor: allow verification error is not allowed"]).
Proof.
  split; symmetry.
  - apply (proj2 (LoadAndVerifyVbmetaImpl_merges_children
                    (Toy.host Toy.world) "" "" true true false
                    Toy.device_path 7 "vbmeta" "" false [] []
                    {| vbmeta_ptr_ := Toy.vbmeta_image;
                       vbmeta_size_ := kMaxVBMetaSize;
                       partition_name_ := "vbmeta" |}
                    kSuccess
                    [Call_WaitForFile "/dev/block/by-name/vbmeta";
                     Call_open "/dev/block/by-name/vbmeta";
                     Call_pread64 3 kMaxVBMetaSize 0]
                    [Call_WaitForFile "/dev/block/by-name/vbmeta";
                     Call_open "/dev/block/by-name/vbmeta";
                     Call_pread64 3 kMaxVBMetaSize 0]
                    [{| ci_partition_name := "vendor"; public_key_blob := "V" |};
                     {| ci_partition_name := "product"; public_key_blob := "P" |}]
                    eq_refl ltac:(simpl; lia) eq_refl
                    ltac:(left; reflexivity) (fun _ => eq_refl) eq_refl eq_refl
                    eq_refl)).
    eapply merge_error_verification; [vm_compute; reflexivity|].
    eapply merge_success; [vm_compute; reflexivity|].
    apply merge_done.
  - apply (proj2 (LoadAndVerifyVbmetaImpl_merges_children
                    (Toy.host Toy.world) "" "" false true false
                    Toy.device_path 7 "vbmeta" "" false [] []
                    {| vbmeta_ptr_ := Toy.vbmeta_image;
                       vbmeta_size_ := kMaxVBMetaSize;
                       partition_name_ := "vbmeta" |}
                    kSuccess
                    [Call_WaitForFile "/dev/block/by-name/vbmeta";
                     Call_open "/dev/block/by-name/vbmeta";
                     Call_pread64 3 kMaxVBMetaSize 0]
                    [Call_WaitForFile "/dev/block/by-name/vbmeta";
                     Call_open "/dev/block/by-name/vbmeta";
                     Call_pread64 3 kMaxVBMetaSize 0]
                    [{| ci_partition_name := "vendor"; public_key_blob := "V" |};
                     {| ci_partition_name := "product"; public_key_blob := "P" |}]
                    eq_refl ltac:(simpl; lia) eq_refl
                    ltac:(right; discriminate) (fun _ => eq_refl) eq_refl eq_refl
                    eq_refl)).
    apply merge_error. vm_compute. reflexivity.
Defined.

(** ** C7: looking a hashtree descriptor up *)

Section Lookup.

Variable h : Host.

Lemma GetHashtreeDescriptor_from_cases (partition_name : string)
    (descriptors : list (list byte)) :
  forall (n : Z) (t : list Event),
    (exists d ht t',
        In d descriptors /\ hashtree_for h partition_name d ht
        /\ GetHashtreeDescriptor_from h partition_name descriptors n t
           = (Ok (Some (ht, ptr_add d (sizeof_AvbHashtreeDescriptor h))), t'))
    \/
    ((forall d ht, In d descriptors -> ~ hashtree_for h partition_name d ht)
     /\ exists t', GetHashtreeDescriptor_from h partition_name descriptors n t
                   = (Ok None, t')).
Proof.
  induction descriptors as [|d rest IH]; intros n t.
  - right. split; [intros d ht []|]. eexists; reflexivity.
  - cbn [GetHashtreeDescriptor_from].
    assert (Hskip : forall t0,
      (forall ht, ~ hashtree_for h partition_name d ht) ->
      (exists d0 ht t',
          In d0 (d :: rest) /\ hashtree_for h partition_name d0 ht
          /\ GetHashtreeDescriptor_from h partition_name rest (n + 1) t0
             = (Ok (Some (ht, ptr_add d0 (sizeof_AvbHashtreeDescriptor h))), t'))
      \/
      ((forall d0 ht, In d0 (d :: rest) -> ~ hashtree_for h partition_name d0 ht)
       /\ exists t', GetHashtreeDescriptor_from h partition_name rest (n + 1) t0
                     = (Ok None, t'))).
    { intros t0 Hno.
      destruct (IH (n + 1) t0) as [(d0 & ht & t' & Hin & Hfor & Hrun)
                                  | (Hnone & t' & Hrun)].
      - left. exists d0, ht, t'. split; [now right | split; assumption].
      - right. split; [|now exists t'].
        intros d0 ht [<- | Hin]; [apply Hno | now apply Hnone]. }
    destruct (avb_descriptor_validate_and_byteswap h d) as [desc|] eqn:Hdesc.
    + destruct (tag desc =? AVB_DESCRIPTOR_TAG_HASHTREE) eqn:Htag.
      * destruct (avb_hashtree_descriptor_validate_and_byteswap h d)
          as [ht|] eqn:Hht.
        -- destruct (partition_name_len ht =? StdString.size partition_name)
             eqn:Hlen; cbn [negb].
           ++ destruct (String.eqb _ partition_name) eqn:Hname.
              ** left. exists d, ht, t. split; [now left|]. split; [|reflexivity].
                 apply Z.eqb_eq in Htag, Hlen. apply String.eqb_eq in Hname.
                 split; [now exists desc | repeat split; assumption].
              ** apply Hskip. intros ht' (_ & Hht' & _ & Hbytes).
                 rewrite Hht in Hht'. injection Hht' as <-.
                 apply String.eqb_neq in Hname. contradiction.
           ++ apply Hskip. intros ht' (_ & Hht' & Hlen' & _).
              rewrite Hht in Hht'. injection Hht' as <-.
              apply Z.eqb_neq in Hlen. contradiction.
        -- apply Hskip. intros ht' (_ & Hht' & _). congruence.
      * apply Hskip. intros ht' ((desc' & Hdesc' & Htag') & _).
        rewrite Hdesc in Hdesc'. injection Hdesc' as <-.
        apply Z.eqb_neq in Htag. contradiction.
    + mred. apply Hskip. intros ht' ((desc' & Hdesc' & _) & _). congruence.
Qed.

Lemma GetHashtreeDescriptor_images_cases (partition_name : string)
    (vbmeta_images : list VBMetaData) :
  forall t : list Event,
    (listed h partition_name vbmeta_images
     /\ exists ht p t',
         GetHashtreeDescriptor_images h partition_name vbmeta_images t
         = (Ok (Some (ht, p)), t'))
    \/
    (~ listed h partition_name vbmeta_images
     /\ exists t', GetHashtreeDescriptor_images h partition_name vbmeta_images t
                   = (Ok None, t')).
Proof.
  induction vbmeta_images as [|vbmeta rest IH]; intros t.
  - right. split; [intros (v & d & ht & [] & _)|]. eexists; reflexivity.
  - cbn [GetHashtreeDescriptor_images].
    assert (Hskip : forall t0,
      (forall d ht, In d (image_descriptors h vbmeta) ->
                    ~ hashtree_for h partition_name d ht) ->
      (listed h partition_name (vbmeta :: rest)
       /\ exists ht p t',
           GetHashtreeDescriptor_images h partition_name rest t0
           = (Ok (Some (ht, p)), t'))
      \/
      (~ listed h partition_name (vbmeta :: rest)
       /\ exists t', GetHashtreeDescriptor_images h partition_name rest t0
                     = (Ok None, t'))).
    { intros t0 Hno.
      destruct (IH t0) as [((v & d & ht & Hv & Hd & Hfor) & Hrun)
                          | (Hnone & Hrun)].
      - left. split; [|assumption]. exists v, d, ht.
        split; [now right | split; assumption].
      - right. split; [|assumption].
        intros (v & d & ht & [<- | Hv] & Hd & Hfor).
        + exact (Hno d ht Hd Hfor).
        + apply Hnone. now exists v, d, ht. }
    unfold image_descriptors in Hskip.
    destruct (avb_descriptor_get_all h (data vbmeta) (size vbmeta))
      as [descriptors|] eqn:Hall.
    + destruct (Z.of_nat (List.length descriptors) <? 1) eqn:Hnum.
      * apply Hskip. intros d ht Hin.
        destruct descriptors; [destruct Hin|].
        apply Z.ltb_lt in Hnum. cbn [List.length] in Hnum. lia.
      * unfold bind.
        destruct (GetHashtreeDescriptor_from_cases partition_name descriptors 0 t)
          as [(d & ht & t' & Hin & Hfor & Hrun) | (Hnone & t' & Hrun)];
          rewrite Hrun.
        -- left. split.
           ++ exists vbmeta, d, ht. split; [now left|].
              unfold image_descriptors. rewrite Hall. now split.
           ++ now exists ht, (ptr_add d (sizeof_AvbHashtreeDescriptor h)), t'.
        -- apply Hskip. exact Hnone.
    + apply Hskip. intros d ht [].
Qed.

(** C7: [GetHashtreeDescriptor] succeeds exactly when some image of the
    list holds a descriptor that passes the generic and the hashtree
    validate-and-byteswap, whose [partition_name_len] is the length of the
    queried name and whose name bytes are the queried name; otherwise it
    answers failure, and it always answers.  In particular, when every
    hashtree descriptor has a name length other than the queried one the
    lookup fails, whatever the bytes; and a descriptor that fails
    validate-and-byteswap is skipped, the scan going on with the next
    one. *)
Theorem GetHashtreeDescriptor_succeeds_iff
    (partition_name : string) (vbmeta_images : list VBMetaData)
    (t : list Event) :
  let result := fst (GetHashtreeDescriptor h partition_name vbmeta_images t) in
  ((exists found, result = Ok (Some found))
   <-> listed h partition_name vbmeta_images)
  /\ (result = Ok None <-> ~ listed h partition_name vbmeta_images)
  /\ ((forall vbmeta d ht,
          In vbmeta vbmeta_images -> In d (image_descriptors h vbmeta) ->
          avb_hashtree_descriptor_validate_and_byteswap h d = Some ht ->
          partition_name_len ht <> StdString.size partition_name) ->
      result = Ok None)
  /\ (forall d rest n t0,
         avb_descriptor_validate_and_byteswap h d = None ->
         GetHashtreeDescriptor_from h partition_name (d :: rest) n t0
         = GetHashtreeDescriptor_from h partition_name rest (n + 1)
             (t0 ++ [Log WARNING ("Descriptor[" ++ StdString.of_Z n
                                  ++ "] is invalid")])%list)
  /\ (forall d rest n t0 desc,
         avb_descriptor_validate_and_byteswap h d = Some desc ->
         tag desc = AVB_DESCRIPTOR_TAG_HASHTREE ->
         avb_hashtree_descriptor_validate_and_byteswap h d = None ->
         GetHashtreeDescriptor_from h partition_name (d :: rest) n t0
         = GetHashtreeDescriptor_from h partition_name rest (n + 1) t0).
Proof.
  intros result.
  assert (Hcases :
    (listed h partition_name vbmeta_images
     /\ exists found, result = Ok (Some found))
    \/ (~ listed h partition_name vbmeta_images /\ result = Ok None)).
  { subst result. unfold GetHashtreeDescriptor, bind.
    destruct (GetHashtreeDescriptor_images_cases partition_name vbmeta_images t)
      as [(Hl & ht & p & t' & Hrun) | (Hn & t' & Hrun)]; rewrite Hrun.
    - left. split; [assumption|]. eexists. reflexivity.
    - right. split; [assumption|]. reflexivity. }
  assert (Hiff1 : (exists found, result = Ok (Some found))
                  <-> listed h partition_name vbmeta_images).
  { destruct Hcases as [(Hl & Hfound) | (Hn & Hnone)].
    - split; auto.
    - split; [|contradiction]. intros (found & Hfound). congruence. }
  assert (Hiff2 : result = Ok None <-> ~ listed h partition_name vbmeta_images).
  { destruct Hcases as [(Hl & found & Hfound) | (Hn & Hnone)].
    - split; [congruence | contradiction].
    - split; auto. }
  repeat split; try apply Hiff1; try apply Hiff2.
  - intros Hlen. apply Hiff2. intros (v & d & ht & Hv & Hd & _ & Hht & Hl & _).
    exact (Hlen v d ht Hv Hd Hht Hl).
  - intros d rest n t0 Hdesc. cbn [GetHashtreeDescriptor_from].
    rewrite Hdesc. reflexivity.
  - intros d rest n t0 desc Hdesc Htag Hht. cbn [GetHashtreeDescriptor_from].
    rewrite Hdesc, Htag, Hht. reflexivity.
Qed.

End Lookup.

Lemma GetHashtreeDescriptor_succeeds_iff_witness :
  let images := [Toy.image "boot" Toy.vendor_image;
                 Toy.image "vbmeta" Toy.corrupt_then_system] in
  listed (Toy.host Toy.world) "system" images
  /\ ~ listed (Toy.host Toy.world) "syste" images.
Proof.
  cbv zeta. split.
  - apply (proj1 (proj1 (GetHashtreeDescriptor_succeeds_iff
                           (Toy.host Toy.world) "system"
                           [Toy.image "boot" Toy.vendor_image;
                            Toy.image "vbmeta" Toy.corrupt_then_system] []))).
    eexists. vm_compute. reflexivity.
  - apply (proj1 (proj1 (proj2 (GetHashtreeDescriptor_succeeds_iff
                                  (Toy.host Toy.world) "syste"
                                  [Toy.image "boot" Toy.vendor_image;
                                   Toy.image "vbmeta" Toy.corrupt_then_system]
                                  [])))).
    vm_compute. reflexivity.
Defined.

(** ** C6, C8, C9: the verity table *)

Section Programmer.

Variable h : Host.

(** With a [veritymode] it knows and block sizes other than zero,
    [ConstructVerityTable] builds [built_target], logs it and adds it to
    the table. *)
Lemma ConstructVerityTable_builds
    (hashtree_desc : AvbHashtreeDescriptor) (salt root_digest blk_device : string)
    (table : DmTable) (t : list Event) (mode : option string) :
  kernel_mode (fs_mgr_get_boot_config h "veritymode") mode ->
  data_block_size hashtree_desc <> 0 ->
  hash_block_size hashtree_desc <> 0 ->
  ConstructVerityTable h hashtree_desc salt root_digest blk_device table t
  = (Ok (AddTarget h (built_target hashtree_desc salt root_digest blk_device mode)
                   table),
     (t ++ [built_log h (built_target hashtree_desc salt root_digest
                                    blk_device mode)])%list).
Proof.
  intros Hmode Hdata Hhash.
  apply Z.eqb_neq in Hdata, Hhash.
  unfold ConstructVerityTable, built_target, built_log, udiv.
  rewrite Hdata, Hhash.
  inversion Hmode as [E1 E2 | E1 E2 | E1 E2 | E1 E2]; mred;
    cbn [String.eqb Ascii.eqb Bool.eqb StdString.empty];
    destruct (fec_size hashtree_desc >? 0); reflexivity.
Qed.

(** An unknown [veritymode] makes [ConstructVerityTable] refuse, before
    anything is computed or added. *)
Lemma ConstructVerityTable_unknown_mode
    (hashtree_desc : AvbHashtreeDescriptor) (salt root_digest blk_device : string)
    (table : DmTable) (t : list Event) (v : string) :
  fs_mgr_get_boot_config h "veritymode" = Some v ->
  v <> "enforcing" -> v <> "logging" -> v <> "eio" ->
  ConstructVerityTable h hashtree_desc salt root_digest blk_device table t
  = (Ok (false, table),
     (t ++ [Log ERROR ("Unknown androidboot.veritymode: " ++ v)])%list).
Proof.
  intros Hboot H1 H2 H3.
  apply String.eqb_neq in H1, H2, H3.
  unfold ConstructVerityTable. rewrite Hboot, H1, H2, H3. reflexivity.
Qed.

(** C8: the kernel mode string of the target [ConstructVerityTable]
    adds, for block sizes other than zero: [restart_on_corruption] when
    [veritymode] is absent or ["enforcing"], [ignore_corruption] when it
    is ["logging"], none when it is ["eio"].  For any other value the
    function logs an error and fails with the table untouched, and
    [HashtreeDmVeritySetup] then fails with the mount record untouched
    after two log lines: the device-mapper is never asked to create a
    device. *)
Theorem ConstructVerityTable_verity_mode
    (hashtree_desc : AvbHashtreeDescriptor) (salt root_digest device : string)
    (table : DmTable) (t : list Event) :
  let boot := fs_mgr_get_boot_config h "veritymode" in
  let built :=
    fst (ConstructVerityTable h hashtree_desc salt root_digest device
                              table t) in
  (data_block_size hashtree_desc <> 0 ->
   hash_block_size hashtree_desc <> 0 ->
   (boot = None \/ boot = Some "enforcing" ->
    exists target, built = Ok (AddTarget h target table)
                   /\ verity_mode target = Some "restart_on_corruption")
   /\ (boot = Some "logging" ->
       exists target, built = Ok (AddTarget h target table)
                      /\ verity_mode target = Some "ignore_corruption")
   /\ (boot = Some "eio" ->
       exists target, built = Ok (AddTarget h target table)
                      /\ verity_mode target = None))
  /\
  (forall v : string,
      boot = Some v -> v <> "enforcing" -> v <> "logging" -> v <> "eio" ->
      ConstructVerityTable h hashtree_desc salt root_digest device table t
      = (Ok (false, table),
         (t ++ [Log ERROR ("Unknown androidboot.veritymode: " ++ v)])%list)
      /\
      forall (fstab_entry : FstabEntry) (wait_for_verity_dev : bool),
        HashtreeDmVeritySetup h fstab_entry hashtree_desc salt root_digest
                              wait_for_verity_dev t
        = (Ok (false, fstab_entry),
           (t ++ [Log ERROR ("Unknown androidboot.veritymode: " ++ v);
                  Log ERROR "Failed to construct verity table."])%list)).
Proof.
  intros boot built. split.
  - intros Hdata Hhash.
    assert (Hmode : forall mode, kernel_mode boot mode ->
              exists target, built = Ok (AddTarget h target table)
                             /\ verity_mode target = mode).
    { intros mode Hmode. eexists. subst built.
      rewrite (ConstructVerityTable_builds hashtree_desc salt root_digest
                 device table t mode Hmode Hdata Hhash).
      split; reflexivity. }
    repeat split.
    + intros [E | E]; apply Hmode; rewrite E; constructor.
    + intros E; apply Hmode; rewrite E; constructor.
    + intros E; apply Hmode; rewrite E; constructor.
  - intros v Hboot H1 H2 H3. split.
    + exact (ConstructVerityTable_unknown_mode hashtree_desc salt root_digest
               device table t v Hboot H1 H2 H3).
    + intros fstab_entry wait_for_verity_dev.
      unfold HashtreeDmVeritySetup, bind.
      rewrite (ConstructVerityTable_unknown_mode hashtree_desc salt root_digest
                 (blk_device fstab_entry) _ t v Hboot H1 H2 H3).
      mred. rewrite <- app_assoc. reflexivity.
Qed.

(** C9: for a [veritymode] the code knows and block sizes other than
    zero, the target [ConstructVerityTable] adds carries FEC parameters
    exactly when [fec_size] is greater than 0; then the FEC device is the
    block device, the roots are [fec_num_roots], and the [fec_blocks] and
    the [fec_start] positions both hold [fec_offset / data_block_size].
    With [fec_size] equal to 0 the target has no FEC parameters. *)
Theorem ConstructVerityTable_fec
    (hashtree_desc : AvbHashtreeDescriptor) (salt root_digest blk_device : string)
    (table : DmTable) (t : list Event) (mode : option string) :
  kernel_mode (fs_mgr_get_boot_config h "veritymode") mode ->
  data_block_size hashtree_desc <> 0 ->
  hash_block_size hashtree_desc <> 0 ->
  exists target,
    fst (ConstructVerityTable h hashtree_desc salt root_digest blk_device
                              table t)
    = Ok (AddTarget h target table)
    /\ (fec target <> None <-> fec_size hashtree_desc > 0)
    /\ (fec_size hashtree_desc > 0 ->
        fec target
        = Some {| fec_device := blk_device;
                  fec_roots := fec_num_roots hashtree_desc;
                  fec_blocks := fec_offset hashtree_desc
                                / data_block_size hashtree_desc;
                  fec_start := fec_offset hashtree_desc
                               / data_block_size hashtree_desc |})
    /\ (fec_size hashtree_desc = 0 -> fec target = None).
Proof.
  intros Hmode Hdata Hhash.
  exists (built_target hashtree_desc salt root_digest blk_device mode).
  rewrite (ConstructVerityTable_builds hashtree_desc salt root_digest
             blk_device table t mode Hmode Hdata Hhash).
  split; [reflexivity|]. cbn [fec built_target].
  destruct (fec_size hashtree_desc >? 0) eqn:E.
  - apply Z.gtb_lt in E. repeat split; try congruence; try lia.
  - rewrite Z.gtb_ltb in E. apply Z.ltb_ge in E.
    repeat split; try congruence; try lia.
Qed.

(** C6, amended: for a [veritymode] the code knows and block sizes other
    than zero, the target [ConstructVerityTable] adds has
    [num_data_blocks = image_size / data_block_size], rounded down; the
    product [num_data_blocks * data_block_size] is [image_size] when
    [data_block_size] divides [image_size], and otherwise falls short of
    it by less than one block. *)
Theorem ConstructVerityTable_num_data_blocks
    (hashtree_desc : AvbHashtreeDescriptor) (salt root_digest blk_device : string)
    (table : DmTable) (t : list Event) (mode : option string) :
  kernel_mode (fs_mgr_get_boot_config h "veritymode") mode ->
  0 < data_block_size hashtree_desc ->
  hash_block_size hashtree_desc <> 0 ->
  exists target,
    fst (ConstructVerityTable h hashtree_desc salt root_digest blk_device
                              table t)
    = Ok (AddTarget h target table)
    /\ (image_size hashtree_desc mod data_block_size hashtree_desc = 0 ->
        num_data_blocks target * data_block_size hashtree_desc
        = image_size hashtree_desc)
    /\ (image_size hashtree_desc mod data_block_size hashtree_desc <> 0 ->
        num_data_blocks target * data_block_size hashtree_desc
        < image_size hashtree_desc)
    /\ image_size hashtree_desc - data_block_size hashtree_desc
       < num_data_blocks target * data_block_size hashtree_desc
       <= image_size hashtree_desc.
Proof.
  intros Hmode Hdata Hhash.
  exists (built_target hashtree_desc salt root_digest blk_device mode).
  rewrite (ConstructVerityTable_builds hashtree_desc salt root_digest
             blk_device table t mode Hmode ltac:(lia) Hhash).
  split; [reflexivity|]. cbn [num_data_blocks built_target].
  pose proof (Z.div_mod (image_size hashtree_desc)
                        (data_block_size hashtree_desc) ltac:(lia)) as Hdm.
  pose proof (Z.mod_pos_bound (image_size hashtree_desc)
                              (data_block_size hashtree_desc) Hdata) as Hb.
  repeat split; nia.
Qed.

(** ** C10: what a failed setup leaves in the mount record *)

(** C10: [HashtreeDmVeritySetup] is not atomic on its last failure path.
    When the table is built and valid, the device is created, its path
    is obtained, and the caller asked to wait but the path does not
    appear, the function fails with [blk_device] already replaced by the
    mapper path.  When the table cannot be built, is not valid, or the
    device is not created, it fails with the mount record as it was.
    More generally a failure that changed [blk_device] can only be that
    of the wait. *)
Theorem HashtreeDmVeritySetup_not_atomic
    (fstab_entry : FstabEntry) (hashtree_desc : AvbHashtreeDescriptor)
    (salt root_digest : string) (wait_for_verity_dev : bool)
    (t : list Event) :
  let name := basename h (StdString.c_str (mount_point fstab_entry)) in
  let setup :=
    HashtreeDmVeritySetup h fstab_entry hashtree_desc salt root_digest
                          wait_for_verity_dev t in
  let construct :=
    ConstructVerityTable h hashtree_desc salt root_digest
      (blk_device fstab_entry) {| targets := []; readonly := false |} t in
  (forall (table : DmTable) (t1 : list Event) (dev_path : string),
      construct = (Ok (true, table), t1) ->
      DmTable_valid h table = true ->
      CreateDevice h name (set_readonly true table) = true ->
      GetDmDevicePathByName h name = Some dev_path ->
      wait_for_verity_dev = true ->
      WaitForFile h dev_path = false ->
      setup
      = (Ok (false, {| blk_device := dev_path;
                       mount_point := mount_point fstab_entry |}),
         (t1 ++ [Call_CreateDevice name (set_readonly true table);
                 Call_GetDmDevicePathByName name;
                 Call_SetBlockDeviceReadOnly (blk_device fstab_entry);
                 Call_WaitForFile dev_path])%list))
  /\
  (forall (constructed : bool) (table : DmTable) (t1 : list Event),
      construct = (Ok (constructed, table), t1) ->
      constructed = false \/ DmTable_valid h table = false
      \/ CreateDevice h name (set_readonly true table) = false ->
      fst setup = Ok (false, fstab_entry))
  /\
  (forall entry' : FstabEntry,
      fst setup = Ok (false, entry') ->
      blk_device entry' <> blk_device fstab_entry ->
      wait_for_verity_dev = true
      /\ exists dev_path,
          GetDmDevicePathByName h name = Some dev_path
          /\ WaitForFile h dev_path = false
          /\ blk_device entry' = dev_path).
Proof.
  intros name setup construct. subst setup construct.
  unfold HashtreeDmVeritySetup. cbv zeta. fold name.
  split; [|split]; unfold bind at 1.
  - intros table t1 dev_path Hc Hvalid Hcreate Hpath -> Hwait.
    rewrite Hc. mred. rewrite Hvalid, Hcreate, Hpath, Hwait.
    repeat rewrite <- app_assoc. reflexivity.
  - intros constructed table t1 Hc Hfail. rewrite Hc. mred.
    destruct constructed; [|reflexivity].
    destruct (DmTable_valid h table); [|reflexivity].
    destruct Hfail as [Hfail | [Hfail | Hfail]]; try discriminate.
    rewrite Hfail. reflexivity.
  - intros entry'.
    destruct (ConstructVerityTable h hashtree_desc salt root_digest
                (blk_device fstab_entry) _ t)
      as [[[constructed table]|f] t1]; [|discriminate].
    mred.
    destruct constructed; [|intros [= <-]; contradiction].
    destruct (DmTable_valid h table); [|intros [= <-]; contradiction].
    destruct (CreateDevice h name (set_readonly true table));
      [|intros [= <-]; contradiction].
    destruct (GetDmDevicePathByName h name) as [dev_path|] eqn:Hpath;
      [|intros [= <-]; contradiction].
    destruct wait_for_verity_dev; [|discriminate].
    destruct (WaitForFile h dev_path) eqn:Hwait; [discriminate|].
    intros [= <-] _. split; [reflexivity|].
    exists dev_path. repeat split; assumption.
Qed.

End Programmer.

Lemma ConstructVerityTable_verity_mode_witness :
  (exists target,
      fst (ConstructVerityTable (Toy.host Toy.world) Toy.system_descriptor
             "ab" "cd" (Toy.device_path "system") Toy.empty_table [])
      = Ok (AddTarget (Toy.host Toy.world) target Toy.empty_table)
      /\ verity_mode target = Some "ignore_corruption")
  /\
  HashtreeDmVeritySetup (Toy.host Toy.world_root_disabled) Toy.system_entry
    Toy.system_descriptor "ab" "cd" true []
  = (Ok (false, Toy.system_entry),
     [Log ERROR "Unknown androidboot.veritymode: bogus";
      Log ERROR "Failed to construct verity table."]).
Proof.
  split.
  - apply (proj1 (proj2 (proj1 (ConstructVerityTable_verity_mode
                                  (Toy.host Toy.world) Toy.system_descriptor
                                  "ab" "cd" (Toy.device_path "system")
                                  Toy.empty_table [])
                               ltac:(discriminate) ltac:(discriminate)))).
    reflexivity.
  - apply (proj2 (proj2 (ConstructVerityTable_verity_mode
                           (Toy.host Toy.world_root_disabled)
                           Toy.system_descriptor "ab" "cd"
                           (Toy.device_path "system") Toy.empty_table [])
                        "bogus" eq_refl ltac:(discriminate)
                        ltac:(discriminate) ltac:(discriminate))).
Defined.

Lemma ConstructVerityTable_fec_witness :
  exists target,
    fst (ConstructVerityTable (Toy.host Toy.world) Toy.system_descriptor
           "ab" "cd" (Toy.device_path "system") Toy.empty_table [])
    = Ok (AddTarget (Toy.host Toy.world) target Toy.empty_table)
    /\ fec target
       = Some {| fec_device := Toy.device_path "system"; fec_roots := 2;
                 fec_blocks := 3; fec_start := 3 |}.
Proof.
  destruct (ConstructVerityTable_fec (Toy.host Toy.world) Toy.system_descriptor
              "ab" "cd" (Toy.device_path "system") Toy.empty_table []
              (Some "ignore_corruption") (mode_logging)
              ltac:(discriminate) ltac:(discriminate))
    as (target & Hrun & _ & Hfec & _).
  exists target. split; [exact Hrun|].
  apply Hfec. reflexivity.
Defined.

(** C6, refuted as stated: a descriptor with [image_size = 4097] and
    [data_block_size = 4096] gives a target with one data block, and
    [1 * 4096] is not [4097]. *)
Lemma ConstructVerityTable_blocks_fall_short :
  exists target,
    fst (ConstructVerityTable (Toy.host Toy.world) Toy.misaligned_descriptor
           "ab" "cd" (Toy.device_path "system") Toy.empty_table [])
    = Ok (true, {| targets := [target]; readonly := false |})
    /\ num_data_blocks target = 1
    /\ num_data_blocks target * data_block_size Toy.misaligned_descriptor
       <> image_size Toy.misaligned_descriptor.
Proof.
  eexists. split; [vm_compute; reflexivity|].
  split; [reflexivity | discriminate].
Qed.

Lemma ConstructVerityTable_num_data_blocks_witness :
  exists target,
    fst (ConstructVerityTable (Toy.host Toy.world) Toy.system_descriptor
           "ab" "cd" (Toy.device_path "system") Toy.empty_table [])
    = Ok (AddTarget (Toy.host Toy.world) target Toy.empty_table)
    /\ num_data_blocks target * 4096 = 8192.
Proof.
  destruct (ConstructVerityTable_num_data_blocks (Toy.host Toy.world)
              Toy.system_descriptor "ab" "cd" (Toy.device_path "system")
              Toy.empty_table [] (Some "ignore_corruption") mode_logging
              ltac:(simpl; lia) ltac:(discriminate))
    as (target & Hrun & Hexact & _).
  exists target. split; [exact Hrun|].
  apply Hexact. reflexivity.
Defined.

Lemma HashtreeDmVeritySetup_not_atomic_witness :
  fst (HashtreeDmVeritySetup (Toy.host Toy.world) Toy.system_entry
         Toy.system_descriptor "ab" "cd" true [])
  = Ok (false, {| blk_device := "/dev/block/dm-system";
                  mount_point := "/system" |}).
Proof.
  pose proof (proj1 (HashtreeDmVeritySetup_not_atomic (Toy.host Toy.world)
                       Toy.system_entry Toy.system_descriptor "ab" "cd" true [])
                    {| targets :=
                         [built_target Toy.system_descriptor "ab" "cd"
                            (Toy.device_path "system")
                            (Some "ignore_corruption")];
                       readonly := false |}
                    [built_log (Toy.host Toy.world)
                       (built_target Toy.system_descriptor "ab" "cd"
                          (Toy.device_path "system")
                          (Some "ignore_corruption"))]
                    "/dev/block/dm-system"
                    eq_refl eq_refl eq_refl eq_refl eq_refl eq_refl) as H.
  rewrite H. reflexivity.
Defined.

(** * Further properties *)

(** ** The A/B naming, whatever the suffixes *)

Module NamingFacts.
Import StdString.

Lemma substring_0_append (p q : string) :
  substring 0 (String.length p) (p ++ q) = p.
Proof.
  induction p as [|c p IH]; simpl.
  - destruct q; reflexivity.
  - now rewrite IH.
Qed.

(** An occurrence that no later one follows is the one [rfind] answers. *)
Lemma rfind_last_occurrence (pat p r : string) :
  rfind pat r = Some O ->
  rfind pat (p ++ r) = Some (String.length p).
Proof.
  intros Hr. induction p as [|c p IH]; simpl.
  - exact Hr.
  - now rewrite IH.
Qed.

Lemma rfind_at_head (c : ascii) (pat' s : string) :
  (forall i : nat,
      substring i (String.length (String c pat')) (pat' ++ s) <> String c pat') ->
  rfind (String c pat') (String c pat' ++ s) = Some O.
Proof.
  intros Hno.
  change (String c pat' ++ s) with (String c (pat' ++ s)).
  cbn [rfind].
  rewrite (proj2 (StdStringFacts.rfind_None_iff (String c pat') (pat' ++ s)
                    ltac:(discriminate)) Hno).
  replace (prefix (String c pat') (String c (pat' ++ s))) with true;
    [reflexivity|].
  symmetry. apply prefix_correct.
  change (String c (pat' ++ s)) with (String c pat' ++ s).
  apply substring_0_append.
Qed.

End NamingFacts.

(** X1: a name in which ["_other"] does not occur gets [ab_suffix]
    appended and is otherwise unchanged, whatever the two suffixes
    are. *)
Theorem AvbPartitionToDevicePatition_this_slot
    (x ab_suffix ab_other_suffix : string) :
  (forall i : nat, substring i 6 x <> "_other") ->
  AvbPartitionToDevicePatition x ab_suffix ab_other_suffix = x ++ ab_suffix.
Proof.
  intros Hno. unfold AvbPartitionToDevicePatition.
  rewrite (proj2 (StdStringFacts.rfind_None_iff "_other" x ltac:(discriminate))
                 Hno).
  reflexivity.
Qed.

Lemma AvbPartitionToDevicePatition_this_slot_witness :
  AvbPartitionToDevicePatition "vbmeta" "_a" "_b" = "vbmeta_a".
Proof.
  apply AvbPartitionToDevicePatition_this_slot.
  intros i E.
  do 7 (destruct i as [|i]; [vm_compute in E; discriminate E|]).
  simpl in E. discriminate E.
Defined.

(** X2: a name of the form [p ++ "_other" ++ q], where no further
    ["_other"] starts inside ["other" ++ q], is mapped to
    [p ++ ab_other_suffix]: the last ["_other"] and everything after it
    are dropped, also when ["_other"] is not at the end of the name.  With
    [q] empty this is ["system_other" => "system_b"]. *)
Theorem AvbPartitionToDevicePatition_other_slot
    (p q ab_suffix ab_other_suffix : string) :
  (forall i : nat, substring i 6 ("other" ++ q) <> "_other") ->
  AvbPartitionToDevicePatition (p ++ "_other" ++ q) ab_suffix ab_other_suffix
  = p ++ ab_other_suffix.
Proof.
  intros Hno. unfold AvbPartitionToDevicePatition, StdString.erase.
  rewrite (NamingFacts.rfind_last_occurrence "_other" p ("_other" ++ q)
             (NamingFacts.rfind_at_head "_" "other" q Hno)).
  now rewrite NamingFacts.substring_0_append.
Qed.

Lemma AvbPartitionToDevicePatition_other_slot_witness :
  AvbPartitionToDevicePatition "system_other" "_a" "_b" = "system_b"
  /\ AvbPartitionToDevicePatition "system_other_x" "_a" "_b" = "system_b".
Proof.
  split.
  - apply (AvbPartitionToDevicePatition_other_slot "system" "" "_a" "_b").
    intros i E.
    do 6 (destruct i as [|i]; [vm_compute in E; discriminate E|]).
    simpl in E. discriminate E.
  - apply (AvbPartitionToDevicePatition_other_slot "system" "_x" "_a" "_b").
    intros i E.
    do 8 (destruct i as [|i]; [vm_compute in E; discriminate E|]).
    simpl in E. discriminate E.
Defined.

(** ** Printing a result *)

Lemma VBMetaVerifyResultToString_raw_clamped (result : Z) :
  VBMetaVerifyResultToString_raw result
  = nth (Z.to_nat (Z.min (result mod 2 ^ 32) 3))
        ["ResultSuccess"; "ResultError"; "ResultErrorVerification";
         "ResultUnknown"] "".
Proof.
  unfold VBMetaVerifyResultToString_raw. cbv zeta.
  change (Z.of_nat (List.length
                      ["ResultSuccess"; "ResultError";
                       "ResultErrorVerification"; "ResultUnknown"]) - 1)
    with 3.
  destruct (result mod 2 ^ 32 >=? 3) eqn:E.
  - apply Z.geb_le in E. now rewrite Z.min_r by lia.
  - rewrite Z.geb_leb in E. apply Z.leb_gt in E.
    now rewrite Z.min_l by lia.
Qed.

(** X3: [VBMetaVerifyResultToString] never reads outside its name
    table: the value of the enum object is wrapped into 32 bits and
    every index from 3 on is printed as ["ResultUnknown"], so that 4
    and -1 print like [kUnknown].  Two values print alike exactly when
    they agree once wrapped and clamped at 3: the names of [kSuccess],
    [kError] and [kErrorVerification] identify them, the name
    ["ResultUnknown"] does not identify [kUnknown].  On the four
    enumerators this is the function the walker logs with. *)
Theorem VBMetaVerifyResultToString_clamps (a b : Z) :
  In (VBMetaVerifyResultToString_raw a)
     ["ResultSuccess"; "ResultError"; "ResultErrorVerification";
      "ResultUnknown"]
  /\ (3 <= a mod 2 ^ 32 <-> VBMetaVerifyResultToString_raw a = "ResultUnknown")
  /\ (VBMetaVerifyResultToString_raw a = VBMetaVerifyResultToString_raw b
      <-> Z.min (a mod 2 ^ 32) 3 = Z.min (b mod 2 ^ 32) 3)
  /\ (forall result : VBMetaVerifyResult,
        VBMetaVerifyResultToString result
        = VBMetaVerifyResultToString_raw (VBMetaVerifyResult_index result)).
Proof.
  rewrite !VBMetaVerifyResultToString_raw_clamped.
  assert (Hrange : forall z, 0 <= Z.min (z mod 2 ^ 32) 3 <= 3).
  { intros z. pose proof (Z.mod_pos_bound z (2 ^ 32) ltac:(lia)). lia. }
  assert (Hcases : forall z, 0 <= z <= 3 -> z = 0 \/ z = 1 \/ z = 2 \/ z = 3)
    by (intros z Hz; lia).
  assert (Hmin : 3 <= a mod 2 ^ 32 <-> Z.min (a mod 2 ^ 32) 3 = 3) by lia.
  rewrite Hmin.
  generalize (Hcases _ (Hrange a)) (Hcases _ (Hrange b)).
  generalize (Z.min (a mod 2 ^ 32) 3) (Z.min (b mod 2 ^ 32) 3).
  intros x y Hx Hy. split; [|split; [|split]].
  - destruct Hx as [-> | [-> | [-> | ->]]]; cbn; auto 6.
  - destruct Hx as [-> | [-> | [-> | ->]]]; cbn;
      split; intros E; try reflexivity; try discriminate E.
  - destruct Hx as [-> | [-> | [-> | ->]]], Hy as [-> | [-> | [-> | ->]]];
      cbn; split; intros E; try reflexivity; try discriminate E.
  - intros result. destruct result; reflexivity.
Qed.

Lemma VBMetaVerifyResultToString_clamps_witness :
  VBMetaVerifyResultToString_raw 4 = "ResultUnknown"
  /\ VBMetaVerifyResultToString_raw (-1) = "ResultUnknown"
  /\ VBMetaVerifyResultToString_raw 4 = VBMetaVerifyResultToString_raw (-1).
Proof.
  split; [|split].
  - apply (proj1 (proj1 (proj2 (VBMetaVerifyResultToString_clamps 4 (-1))))).
    vm_compute. discriminate.
  - apply (proj1 (proj1 (proj2 (VBMetaVerifyResultToString_clamps (-1) 4)))).
    vm_compute. discriminate.
  - apply (proj2 (proj1 (proj2 (proj2
                                  (VBMetaVerifyResultToString_clamps 4 (-1)))))).
    reflexivity.
Defined.

(** ** The header, the size of a partition and its footer *)

Section Reader.

Variable h : Host.

(** X4: [GetVBMetaHeader] always hands a header out, the same whether or
    not the size is updated; it never touches the buffer or the
    partition name; the updated size is a [size_t]; and updating the size
    of a blob whose size was already updated changes nothing. *)
Theorem GetVBMetaHeader_idempotent (v : VBMetaData) (update_vbmeta_size : bool) :
  let header := avb_vbmeta_image_header_to_host_byte_order h (vbmeta_ptr_ v) in
  let v' := snd (GetVBMetaHeader h v update_vbmeta_size) in
  let updated := snd (GetVBMetaHeader h v true) in
  fst (GetVBMetaHeader h v update_vbmeta_size) = Some header
  /\ data v' = data v
  /\ partition v' = partition v
  /\ snd (GetVBMetaHeader h v false) = v
  /\ 0 <= size updated < 2 ^ 64
  /\ GetVBMetaHeader h updated true = (Some header, updated).
Proof.
  unfold GetVBMetaHeader, data, partition, size, wrap64.
  destruct update_vbmeta_size; cbn [fst snd vbmeta_ptr_ partition_name_ vbmeta_size_];
    repeat split; try reflexivity;
    try (apply Z.mod_pos_bound; reflexivity);
    try (destruct (Z.mod_pos_bound
                     (sizeof_AvbVBMetaImageHeader h
                      + authentication_data_block_size
                          (avb_vbmeta_image_header_to_host_byte_order h (vbmeta_ptr_ v))
                      + auxiliary_data_block_size
                          (avb_vbmeta_image_header_to_host_byte_order h (vbmeta_ptr_ v)))
                     (2 ^ 64) eq_refl); assumption).
Qed.


Lemma GetTotalSize_total (fd : Z) (t : list Event) :
  exists total tail,
    GetTotalSize h fd t = (Ok total, (t ++ tail)%list)
    /\ (lseek64 h fd 0 SEEK_CUR = -1 \/ lseek64 h fd 0 SEEK_END = -1 ->
        total = -1).
Proof.
  unfold GetTotalSize. mred.
  destruct (lseek64 h fd 0 SEEK_CUR =? -1) eqn:Es.
  - eexists. eexists. rewrite <- app_assoc. split; [reflexivity|]. reflexivity.
  - destruct (lseek64 h fd 0 SEEK_END =? -1) eqn:Et.
    + eexists. eexists. repeat rewrite <- app_assoc.
      split; [reflexivity|]. reflexivity.
    + apply Z.eqb_neq in Es, Et.
      destruct (lseek64 h fd (lseek64 h fd 0 SEEK_CUR) SEEK_SET =? -1);
        eexists; eexists; repeat rewrite <- app_assoc;
        (split; [reflexivity | intros [|]; contradiction]).
Qed.

Lemma GetAvbFooter_run (fd : Z) (t t1 : list Event) (total : Z)
    (num_read : Z) (footer_buf : list byte) :
  GetTotalSize h fd t = (Ok total, t1) ->
  pread64 h fd AVB_FOOTER_SIZE (total - AVB_FOOTER_SIZE)
  = (num_read, footer_buf) ->
  let asked := (t1 ++ [Call_pread64 fd AVB_FOOTER_SIZE
                                    (total - AVB_FOOTER_SIZE)])%list in
  GetAvbFooter h fd t
  = if (num_read <? 0) || negb (num_read =? AVB_FOOTER_SIZE)
    then (Ok None, (asked ++ [Log ERROR "Failed to read AVB footer"])%list)
    else match avb_footer_validate_and_byteswap h footer_buf with
         | Some footer => (Ok (Some footer), asked)
         | None =>
             (Ok None,
              (asked ++ [Log ERROR "AVB footer verification failed."])%list)
         end.
Proof.
  intros Htotal Hread asked. subst asked.
  unfold GetAvbFooter. unfold bind at 1. rewrite Htotal.
  mred. rewrite Hread.
  destruct (num_read <? 0); [reflexivity|].
  destruct (num_read =? AVB_FOOTER_SIZE); [|reflexivity].
  destruct (avb_footer_validate_and_byteswap h footer_buf); reflexivity.
Qed.

(** X6: [GetAvbFooter] asks for [AVB_FOOTER_SIZE] bytes at the size
    [GetTotalSize] answered less [AVB_FOOTER_SIZE], without looking at
    whether [GetTotalSize] failed: after a failure the read is asked at
    offset -65.  It hands a footer out exactly when the read returned
    [AVB_FOOTER_SIZE] bytes and they validate; a footer comes with no log
    line after the read, a null with exactly one. *)
Theorem GetAvbFooter_answer (fd : Z) (t t1 : list Event) (total : Z)
    (num_read : Z) (footer_buf : list byte) :
  GetTotalSize h fd t = (Ok total, t1) ->
  pread64 h fd AVB_FOOTER_SIZE (total - AVB_FOOTER_SIZE)
  = (num_read, footer_buf) ->
  let run := GetAvbFooter h fd t in
  let asked := (t1 ++ [Call_pread64 fd AVB_FOOTER_SIZE
                                    (total - AVB_FOOTER_SIZE)])%list in
  (forall footer,
      fst run = Ok (Some footer)
      <-> num_read = AVB_FOOTER_SIZE
          /\ avb_footer_validate_and_byteswap h footer_buf = Some footer)
  /\ (forall footer, fst run = Ok (Some footer) -> snd run = asked)
  /\ (fst run = Ok None \/ exists footer, fst run = Ok (Some footer))
  /\ (fst run = Ok None -> exists msg, snd run = (asked ++ [Log ERROR msg])%list)
  /\ (lseek64 h fd 0 SEEK_CUR = -1 \/ lseek64 h fd 0 SEEK_END = -1 ->
      total - AVB_FOOTER_SIZE = -65).
Proof.
  intros Htotal Hread run asked. subst run asked.
  rewrite (GetAvbFooter_run fd t t1 total num_read footer_buf Htotal Hread).
  assert (Hedge : lseek64 h fd 0 SEEK_CUR = -1 \/ lseek64 h fd 0 SEEK_END = -1 ->
                  total - AVB_FOOTER_SIZE = -65).
  { intros Hfail.
    destruct (GetTotalSize_total fd t) as (total' & tail & Hrun & Hneg).
    rewrite Htotal in Hrun. injection Hrun as E1 _.
    rewrite E1, (Hneg Hfail). reflexivity. }
  destruct (num_read <? 0) eqn:Eneg; cbn [orb].
  - apply Z.ltb_lt in Eneg. cbn [fst snd].
    split; [|split; [|split; [|split]]].
    + intros footer. split; [discriminate|].
      intros (E & _). unfold AVB_FOOTER_SIZE in E. lia.
    + intros footer E; discriminate E.
    + now left.
    + intros _. eexists; reflexivity.
    + exact Hedge.
  - destruct (num_read =? AVB_FOOTER_SIZE) eqn:E64; cbn [negb].
    + apply Z.eqb_eq in E64.
      destruct (avb_footer_validate_and_byteswap h footer_buf) as [footer|] eqn:Ev;
        cbn [fst snd].
      * split; [|split; [|split; [|split]]].
        -- intros footer'. split.
           ++ intros [= <-]. now split.
           ++ intros (_ & [= <-]). reflexivity.
        -- intros footer' _. reflexivity.
        -- right. eexists; reflexivity.
        -- discriminate.
        -- exact Hedge.
      * split; [|split; [|split; [|split]]].
        -- intros footer'. split; [discriminate|]. intros (_ & E). discriminate E.
        -- intros footer' E; discriminate E.
        -- now left.
        -- intros _. eexists; reflexivity.
        -- exact Hedge.
    + apply Z.eqb_neq in E64. cbn [fst snd].
      split; [|split; [|split; [|split]]].
      * intros footer. split; [discriminate|]. intros (E & _). contradiction.
      * intros footer E; discriminate E.
      * now left.
      * intros _. eexists; reflexivity.
      * exact Hedge.
Qed.

End Reader.


Lemma GetAvbFooter_answer_witness :
  fst (GetAvbFooter (Toy.host Toy.world) 4 [])
  = Ok (Some {| vbmeta_offset := 0; vbmeta_size := 3 |}).
Proof.
  apply (proj1 (GetAvbFooter_answer (Toy.host Toy.world) 4 []
                  [Call_lseek64 4 0 SEEK_CUR; Call_lseek64 4 0 SEEK_END;
                   Call_lseek64 4 0 SEEK_SET]
                  67 64 (Toy.footer x03) eq_refl eq_refl)).
  split; reflexivity.
Defined.

(** ** The signature check and the blob it is run on *)

Section Blob.

Variable h : Host.

Lemma GetAvbFooter_total (fd : Z) (t : list Event) :
  exists r t', GetAvbFooter h fd t = (Ok r, t').
Proof.
  destruct (GetTotalSize_total h fd t) as (total & tail & Htotal & _).
  destruct (pread64 h fd AVB_FOOTER_SIZE (total - AVB_FOOTER_SIZE))
    as [num_read footer_buf] eqn:Hread.
  rewrite (GetAvbFooter_run h fd t _ total num_read footer_buf Htotal Hread).
  destruct ((num_read <? 0) || negb (num_read =? AVB_FOOTER_SIZE));
    [eauto|].
  destruct (avb_footer_validate_and_byteswap h footer_buf); eauto.
Qed.

(** What the signature check answers and logs does not depend on the
    trace it starts from. *)
Lemma VerifyVBMetaSignature_run (vbmeta : VBMetaData) (expected : string) :
  exists r log,
    (forall t, VerifyVBMetaSignature h vbmeta expected t = (Ok r, (t ++ log)%list))
    /\ r <> kUnknown
    /\ (r = kSuccess -> log = [])
    /\ (r <> kSuccess -> exists msg, log = [Log ERROR msg]).
Proof.
  unfold VerifyVBMetaSignature.
  destruct (avb_vbmeta_image_verify h (data vbmeta) (size vbmeta))
    as [[verdict pk_data] pk_len].
  mred. destruct pk_data as [key|].
  all: repeat match goal with
              | |- context [if ?c then _ else _] => destruct c
              end;
    try (exists kSuccess, []; split; [intros t; now rewrite app_nil_r|];
         split; [discriminate|]; split; [reflexivity | intros E; contradiction]);
    eexists; eexists; (split; [intros t; reflexivity|]);
    (split; [discriminate|]); (split; [discriminate|]);
    intros _; eexists; reflexivity.
Qed.

(** X7: [VerifyVBMetaSignature] always answers, never with [kUnknown];
    it logs nothing when it answers [kSuccess] and exactly one error line
    otherwise. *)
Theorem VerifyVBMetaSignature_logs (vbmeta : VBMetaData) (expected : string)
    (t : list Event) :
  exists r,
    fst (VerifyVBMetaSignature h vbmeta expected t) = Ok r
    /\ r <> kUnknown
    /\ (r = kSuccess -> snd (VerifyVBMetaSignature h vbmeta expected t) = t)
    /\ (r <> kSuccess ->
        exists msg,
          snd (VerifyVBMetaSignature h vbmeta expected t)
          = (t ++ [Log ERROR msg])%list).
Proof.
  destruct (VerifyVBMetaSignature_run vbmeta expected)
    as (r & log & Hrun & Hknown & Hquiet & Hloud).
  exists r. rewrite (Hrun t). cbn [fst snd].
  split; [reflexivity|]. split; [assumption|]. split.
  - intros E. rewrite (Hquiet E). apply app_nil_r.
  - intros E. destruct (Hloud E) as (msg & ->). now exists msg.
Qed.

(** The ways [VerifyVBMetaData] ends: before the signature check, with
    null and the cell as it was; or after it, on a blob of the size that
    was located. *)
Lemma VerifyVBMetaData_cases (fd : Z) (partition_name expected : string)
    (out : option VBMetaVerifyResult) (t : list Event) :
  exists res cell t',
    VerifyVBMetaData h fd partition_name expected out t = (Ok (res, cell), t')
    /\ ((res = None /\ cell = out)
        \/ exists vbmeta vr,
            size vbmeta <= kMaxVBMetaSize
            /\ partition vbmeta = partition_name
            /\ (StdString.StartsWith partition_name "vbmeta" = true ->
                size vbmeta = kMaxVBMetaSize)
            /\ (forall t0, fst (VerifyVBMetaSignature h vbmeta expected t0) = Ok vr)
            /\ vr <> kUnknown
            /\ cell = match out with None => None | Some _ => Some vr end
            /\ res = match vr with
                     | kSuccess | kErrorVerification => Some vbmeta
                     | _ => None
                     end).
Proof.
  assert (Hcheck : forall vbmeta t1,
    size vbmeta <= kMaxVBMetaSize ->
    partition vbmeta = partition_name ->
    (StdString.StartsWith partition_name "vbmeta" = true ->
     size vbmeta = kMaxVBMetaSize) ->
    exists res cell t',
      bind (VerifyVBMetaSignature h vbmeta expected)
        (fun verify_result =>
           let out' := match out with
                       | None => None
                       | Some _ => Some verify_result
                       end in
           if VBMetaVerifyResult_eqb verify_result kSuccess
              || VBMetaVerifyResult_eqb verify_result kErrorVerification
           then ret (Some vbmeta, out') else ret (None, out')) t1
      = (Ok (res, cell), t')
      /\ ((res = None /\ cell = out)
          \/ exists vbmeta vr,
              size vbmeta <= kMaxVBMetaSize
              /\ partition vbmeta = partition_name
              /\ (StdString.StartsWith partition_name "vbmeta" = true ->
                  size vbmeta = kMaxVBMetaSize)
              /\ (forall t0, fst (VerifyVBMetaSignature h vbmeta expected t0) = Ok vr)
              /\ vr <> kUnknown
              /\ cell = match out with None => None | Some _ => Some vr end
              /\ res = match vr with
                       | kSuccess | kErrorVerification => Some vbmeta
                       | _ => None
                       end)).
  { intros vbmeta t1 Hsize Hname Hmax.
    destruct (VerifyVBMetaSignature_run vbmeta expected)
      as (r & log & Hrun & Hknown & _).
    unfold bind. rewrite (Hrun t1).
    exists (match r with kSuccess | kErrorVerification => Some vbmeta | _ => None end),
           (match out with None => None | Some _ => Some r end),
           (t1 ++ log)%list.
    split; [destruct r; reflexivity|].
    right. exists vbmeta, r.
    repeat split; try assumption; try lia.
    intros t0. now rewrite (Hrun t0). }
  unfold VerifyVBMetaData.
  destruct (StdString.StartsWith partition_name "vbmeta") eqn:Hstart; cbn [negb].
  - unfold bind at 1. unfold ret at 1. cbv beta iota.
    replace (kMaxVBMetaSize >? kMaxVBMetaSize) with false by reflexivity.
    unfold bind at 1, sys_pread64. unfold bind at 1, emit. unfold ret at 1.
    cbv beta iota.
    destruct (pread64 h fd kMaxVBMetaSize 0) as [num_read buf].
    cbn [andb orb]. rewrite orb_false_r.
    destruct (num_read <? 0).
    + mred. eexists; eexists; eexists. split; [reflexivity|]. left. now split.
    + apply Hcheck; try reflexivity; unfold size; cbn; lia.
  - unfold bind at 1. unfold bind at 1.
    destruct (GetAvbFooter_total fd t) as ([footer|] & t0 & Hfooter);
      rewrite Hfooter; unfold ret at 1; cbv beta iota.
    + destruct (vbmeta_size footer >? kMaxVBMetaSize) eqn:Hbig.
      * mred. eexists; eexists; eexists. split; [reflexivity|]. left. now split.
      * unfold bind at 1, sys_pread64. unfold bind at 1, emit. unfold ret at 1.
        cbv beta iota.
        destruct (pread64 h fd (vbmeta_size footer) (vbmeta_offset footer))
          as [num_read buf].
        cbn [andb orb].
        destruct ((num_read <? 0) || negb (num_read =? vbmeta_size footer)).
        -- mred. eexists; eexists; eexists. split; [reflexivity|]. left. now split.
        -- rewrite Z.gtb_ltb in Hbig. apply Z.ltb_ge in Hbig.
           apply Hcheck; try reflexivity; try discriminate.
           unfold size; cbn. exact Hbig.
    + mred. eexists; eexists; eexists. split; [reflexivity|]. left. now split.
Qed.

(** X8: a blob that [VerifyVBMetaData] hands out is never larger than
    [kMaxVBMetaSize] (and has exactly that size for a vbmeta partition),
    carries the name of the partition asked for, and its signature check
    answers [kSuccess] or [kErrorVerification]; that verdict is what the
    cell behind a non-null [out_verify_result] then holds. *)
Theorem VerifyVBMetaData_blob (fd : Z) (partition_name expected : string)
    (out : option VBMetaVerifyResult) (t t' : list Event)
    (vbmeta : VBMetaData) (cell : option VBMetaVerifyResult) :
  VerifyVBMetaData h fd partition_name expected out t
  = (Ok (Some vbmeta, cell), t') ->
  size vbmeta <= kMaxVBMetaSize
  /\ partition vbmeta = partition_name
  /\ (StdString.StartsWith partition_name "vbmeta" = true ->
      size vbmeta = kMaxVBMetaSize)
  /\ exists vr,
      (vr = kSuccess \/ vr = kErrorVerification)
      /\ (forall t0, fst (VerifyVBMetaSignature h vbmeta expected t0) = Ok vr)
      /\ cell = match out with None => None | Some _ => Some vr end.
Proof.
  intros Hrun.
  destruct (VerifyVBMetaData_cases fd partition_name expected out t)
    as (res & cell' & t'' & Hrun' & Hcases).
  rewrite Hrun in Hrun'. injection Hrun' as <- <- <-.
  destruct Hcases as [(Hnull & _) | (v & vr & Hsize & Hname & Hmax & Hsig & _ & Hcell & Hres)];
    [discriminate|].
  assert (Hv : v = vbmeta /\ (vr = kSuccess \/ vr = kErrorVerification)).
  { destruct vr; try discriminate; injection Hres as ->; auto. }
  destruct Hv as [-> Hvr].
  repeat split; try assumption. now exists vr.
Qed.

(** X9: [VerifyVBMetaData] always returns.  When it returns null, the
    cell behind [out_verify_result] holds what it held before (the
    signature check was not reached) or [kError]; a null
    [out_verify_result] is never written. *)
Theorem VerifyVBMetaData_null (fd : Z) (partition_name expected : string)
    (out : option VBMetaVerifyResult) (t : list Event) :
  exists res cell t',
    VerifyVBMetaData h fd partition_name expected out t = (Ok (res, cell), t')
    /\ (res = None -> cell = out \/ cell = Some kError)
    /\ (out = None -> cell = None).
Proof.
  destruct (VerifyVBMetaData_cases fd partition_name expected out t)
    as (res & cell & t' & Hrun & Hcases).
  exists res, cell, t'. split; [assumption|].
  destruct Hcases as [(_ & ->) | (v & vr & _ & _ & _ & _ & Hknown & -> & ->)].
  - split; auto.
  - split.
    + intros Hnone.
      destruct vr; try discriminate Hnone; try contradiction;
        destruct out; auto.
    + intros ->. reflexivity.
Qed.

End Blob.

Lemma VerifyVBMetaSignature_logs_witness :
  snd (VerifyVBMetaSignature (Toy.host Toy.world)
         (Toy.image "vendor" Toy.vendor_image) "W" []) = [].
Proof.
  destruct (VerifyVBMetaSignature_logs (Toy.host Toy.world)
              (Toy.image "vendor" Toy.vendor_image) "W" [])
    as (r & Hr & _ & Hquiet & _).
  apply Hquiet. vm_compute in Hr. injection Hr as <-. reflexivity.
Defined.

Lemma VerifyVBMetaData_blob_witness :
  size {| vbmeta_ptr_ := Toy.vendor_image; vbmeta_size_ := 3;
          partition_name_ := "vendor" |} <= kMaxVBMetaSize.
Proof.
  apply (VerifyVBMetaData_blob (Toy.host Toy.world) 4 "vendor" "W"
           (Some kUnknown) []
           [Call_lseek64 4 0 SEEK_CUR; Call_lseek64 4 0 SEEK_END;
            Call_lseek64 4 0 SEEK_SET; Call_pread64 4 64 3; Call_pread64 4 3 0]
           _ (Some kSuccess) eq_refl).
Defined.

Lemma VerifyVBMetaData_null_witness :
  exists t',
    VerifyVBMetaData (Toy.host Toy.world) 9 "vendor" "V" (Some kUnknown) []
    = (Ok (None, Some kUnknown), t').
Proof.
  destruct (VerifyVBMetaData_null (Toy.host Toy.world) 9 "vendor" "V"
              (Some kUnknown) [])
    as (res & cell & t' & Hrun & _).
  exists t'. rewrite Hrun. vm_compute in Hrun.
  injection Hrun as <- <- _. reflexivity.
Defined.

(** ** The chain descriptors of an image *)

Section ChainInfoFacts.

Variable h : Host.

Lemma GetChainPartitionInfo_from_valid (vbmeta : VBMetaData)
    (descriptors : list (list byte)) :
  Forall (fun d => chain_entry h d <> None) descriptors ->
  forall (i : Z) (acc : list ChainInfo) (fatal_error : bool) (t : list Event),
    GetChainPartitionInfo_from h vbmeta descriptors i acc fatal_error t
    = (Ok ((acc ++ chain_entries h descriptors)%list, fatal_error), t).
Proof.
  induction 1 as [|d rest Hd _ IH]; intros i acc fatal_error t.
  - cbn. now rewrite app_nil_r.
  - cbn [GetChainPartitionInfo_from chain_entries].
    unfold chain_entry in *.
    destruct (avb_descriptor_validate_and_byteswap h d) as [desc|];
      [|contradiction].
    destruct (tag desc =? AVB_DESCRIPTOR_TAG_CHAIN_PARTITION).
    + destruct (avb_chain_partition_descriptor_validate_and_byteswap h d)
        as [chain_desc|]; [|contradiction].
      cbv zeta. rewrite IH, <- app_assoc. reflexivity.
    + apply IH.
Qed.

Lemma GetChainPartitionInfo_from_invalid (vbmeta : VBMetaData)
    (descriptors : list (list byte)) :
  Exists (fun d => chain_entry h d = None) descriptors ->
  forall (i : Z) (acc : list ChainInfo) (fatal_error : bool) (t : list Event),
  exists msg,
    GetChainPartitionInfo_from h vbmeta descriptors i acc fatal_error t
    = (Ok ([], true), (t ++ [Log ERROR msg])%list).
Proof.
  induction descriptors as [|d rest IH]; intros Hex i acc fatal_error t.
  - inversion Hex.
  - cbn [GetChainPartitionInfo_from].
    destruct (chain_entry h d) as [entry|] eqn:Hentry.
    + assert (Hrest : Exists (fun d => chain_entry h d = None) rest).
      { inversion Hex as [? ? Hd | ? ? Hr]; [congruence | assumption]. }
      unfold chain_entry in Hentry.
      destruct (avb_descriptor_validate_and_byteswap h d) as [desc|];
        [|discriminate].
      destruct (tag desc =? AVB_DESCRIPTOR_TAG_CHAIN_PARTITION).
      * destruct (avb_chain_partition_descriptor_validate_and_byteswap h d)
          as [chain_desc|]; [|discriminate].
        apply IH. assumption.
      * apply IH. assumption.
    + unfold chain_entry in Hentry.
      destruct (avb_descriptor_validate_and_byteswap h d) as [desc|].
      * destruct (tag desc =? AVB_DESCRIPTOR_TAG_CHAIN_PARTITION);
          [|discriminate].
        destruct (avb_chain_partition_descriptor_validate_and_byteswap h d);
          [discriminate|].
        mred. eexists; reflexivity.
      * mred. eexists; reflexivity.
Qed.

Lemma chain_entry_dec (descriptors : list (list byte)) :
  Forall (fun d => chain_entry h d <> None) descriptors
  \/ Exists (fun d => chain_entry h d = None) descriptors.
Proof.
  induction descriptors as [|d rest [IH | IH]].
  - left. constructor.
  - destruct (chain_entry h d) eqn:E.
    + left. constructor; [congruence | assumption].
    + right. now constructor.
  - right. now constructor 2.
Qed.

(** X10: for [GetChainPartitionInfo] a descriptor that fails a
    validate-and-byteswap is fatal wherever it stands in the image: the
    error flag is set exactly when there is one (or was set before), and
    then the list handed out is empty, whatever chain descriptors
    precede it, and one error line is logged. *)
Theorem GetChainPartitionInfo_fatal (vbmeta : VBMetaData)
    (fatal_error : bool) (t : list Event) :
  exists chain_partitions fatal_error' t',
    GetChainPartitionInfo h vbmeta fatal_error t
    = (Ok (chain_partitions, fatal_error'), t')
    /\ (fatal_error' = true
        <-> fatal_error = true
            \/ exists d, In d (image_descriptors h vbmeta)
                         /\ chain_entry h d = None)
    /\ ((exists d, In d (image_descriptors h vbmeta) /\ chain_entry h d = None) ->
        chain_partitions = []
        /\ exists msg, t' = (t ++ [Log ERROR msg])%list).
Proof.
  unfold GetChainPartitionInfo, image_descriptors.
  destruct (avb_descriptor_get_all h (data vbmeta) (size vbmeta))
    as [descriptors|].
  - destruct descriptors as [|d0 rest].
    + cbn. exists [], fatal_error, t. split; [reflexivity|]. split.
      * split; [auto | intros [E | (d & [] & _)]; assumption].
      * intros (d & [] & _).
    + replace (Z.of_nat (List.length (d0 :: rest)) <? 1) with false
        by (symmetry; apply Z.ltb_ge; cbn [List.length]; lia).
      destruct (chain_entry_dec (d0 :: rest)) as [Hall | Hex].
      * rewrite (GetChainPartitionInfo_from_valid vbmeta _ Hall).
        eexists; eexists; eexists. split; [reflexivity|].
        rewrite Forall_forall in Hall. split.
        -- split; [auto|]. intros [E | (d & Hin & Hd)]; [assumption|].
           exfalso. exact (Hall d Hin Hd).
        -- intros (d & Hin & Hd). exfalso. exact (Hall d Hin Hd).
      * destruct (GetChainPartitionInfo_from_invalid vbmeta _ Hex 0 []
                    fatal_error t) as (msg & ->).
        eexists; eexists; eexists. split; [reflexivity|].
        rewrite Exists_exists in Hex. split.
        -- split; [intros _; now right | reflexivity].
        -- intros _. split; [reflexivity | now exists msg].
  - exists [], fatal_error, t. split; [reflexivity|]. split.
    + split; [auto | intros [E | (d & [] & _)]; assumption].
    + intros (d & [] & _).
Qed.

(** X11: when every descriptor of the image validates,
    [GetChainPartitionInfo] hands out the chain descriptors in the order
    they have in the image, each with its name and its key read from the
    bytes after the fixed-size struct; it logs nothing and leaves the
    error flag as it was. *)
Theorem GetChainPartitionInfo_lists_in_order (vbmeta : VBMetaData)
    (fatal_error : bool) (t : list Event) :
  (forall d, In d (image_descriptors h vbmeta) -> chain_entry h d <> None) ->
  GetChainPartitionInfo h vbmeta fatal_error t
  = (Ok (chain_entries h (image_descriptors h vbmeta), fatal_error), t).
Proof.
  intros Hall. apply Forall_forall in Hall.
  unfold GetChainPartitionInfo, image_descriptors in *.
  destruct (avb_descriptor_get_all h (data vbmeta) (size vbmeta))
    as [descriptors|]; [|reflexivity].
  destruct descriptors as [|d0 rest]; [reflexivity|].
  replace (Z.of_nat (List.length (d0 :: rest)) <? 1) with false
    by (symmetry; apply Z.ltb_ge; cbn [List.length]; lia).
  now rewrite (GetChainPartitionInfo_from_valid vbmeta _ Hall).
Qed.

End ChainInfoFacts.

Lemma GetChainPartitionInfo_fatal_witness :
  exists t',
    GetChainPartitionInfo (Toy.host Toy.world)
      (Toy.image "vbmeta" Toy.corrupt_then_system) false []
    = (Ok ([], true), t').
Proof.
  destruct (GetChainPartitionInfo_fatal (Toy.host Toy.world)
              (Toy.image "vbmeta" Toy.corrupt_then_system) false [])
    as (chains & fatal & t' & Hrun & Hfatal & Hempty).
  exists t'. rewrite Hrun.
  assert (Hbad : exists d,
             In d (image_descriptors (Toy.host Toy.world)
                     (Toy.image "vbmeta" Toy.corrupt_then_system))
             /\ chain_entry (Toy.host Toy.world) d = None).
  { eexists. split; [left; reflexivity | reflexivity]. }
  destruct (Hempty Hbad) as (-> & _).
  rewrite (proj2 Hfatal (or_intror Hbad)). reflexivity.
Defined.

Lemma GetChainPartitionInfo_lists_in_order_witness :
  fst (GetChainPartitionInfo (Toy.host Toy.world)
         (Toy.image "vbmeta" Toy.vbmeta_image) false [])
  = Ok ([{| ci_partition_name := "vendor"; public_key_blob := "V" |};
         {| ci_partition_name := "product"; public_key_blob := "P" |}],
        false).
Proof.
  rewrite (GetChainPartitionInfo_lists_in_order (Toy.host Toy.world)
             (Toy.image "vbmeta" Toy.vbmeta_image) false []).
  - reflexivity.
  - intros d Hin. vm_compute in Hin.
    repeat (destruct Hin as [<- | Hin]; [vm_compute; discriminate|]).
    destruct Hin.
Defined.

(** ** What a walk leaves behind *)

Section WalkFacts.

Variable h : Host.
Variables ab_suffix ab_other_suffix : string.
Variables allow_verification_error load_chained_vbmeta rollback_protection : bool.
Variable device_path_constructor : string -> string.

Local Abbreviation walk_from fuel partition_name expected is_chained_vbmeta out :=
  (LoadAndVerifyVbmetaImpl h fuel partition_name ab_suffix ab_other_suffix
     expected allow_verification_error load_chained_vbmeta
     rollback_protection device_path_constructor is_chained_vbmeta out).
Local Abbreviation child :=
  (recurse h ab_suffix ab_other_suffix allow_verification_error
           load_chained_vbmeta rollback_protection device_path_constructor).
Local Abbreviation after :=
  (after_verify h ab_suffix ab_other_suffix allow_verification_error
                load_chained_vbmeta rollback_protection device_path_constructor).

(** A node stops with [kError] before it touches the accumulator, or
    goes on with [after_verify] on a blob whose verdict lets it. *)
Lemma LoadAndVerifyVbmetaImpl_node_cases (fuel : nat)
    (partition_name expected : string) (is_chained_vbmeta : bool)
    (out : option (list VBMetaData)) (t : list Event) :
  (exists t',
      walk_from (S fuel) partition_name expected is_chained_vbmeta out t
      = (Ok (kError, out), t'))
  \/ exists vbmeta verify_result t1,
       (verify_result = kSuccess
        \/ verify_result = kErrorVerification
           /\ allow_verification_error = true)
       /\ partition vbmeta = partition_name
       /\ walk_from (S fuel) partition_name expected is_chained_vbmeta out t
          = after fuel partition_name is_chained_vbmeta out vbmeta
                  verify_result t1.
Proof.
  set (device_path :=
         device_path_constructor
           (AvbPartitionToDevicePatition partition_name ab_suffix
                                         ab_other_suffix)).
  destruct (WaitForFile h device_path) eqn:Hwait.
  2: { left. cbn [LoadAndVerifyVbmetaImpl]. fold device_path. mred.
       rewrite Hwait. eexists; reflexivity. }
  destruct (open h (StdString.c_str device_path) <? 0) eqn:Hopen.
  { left. cbn [LoadAndVerifyVbmetaImpl]. fold device_path. mred.
    rewrite Hwait, Hopen. eexists; reflexivity. }
  destruct (VerifyVBMetaData_cases h (open h (StdString.c_str device_path))
              partition_name expected (Some (indeterminate_verify_result h))
              ((t ++ [Call_WaitForFile device_path])
               ++ [Call_open (StdString.c_str device_path)])%list)
    as (res & cell & t1 & Hrun & Hcases).
  assert (Hfd : 0 <= open h (StdString.c_str device_path))
    by (apply Z.ltb_ge in Hopen; exact Hopen).
  assert (Hstop : res = None ->
                  exists t',
                    walk_from (S fuel) partition_name expected
                              is_chained_vbmeta out t
                    = (Ok (kError, out), t')).
  { intros ->. cbn [LoadAndVerifyVbmetaImpl]. fold device_path. mred.
    rewrite Hwait, Hopen, Hrun. eexists; reflexivity. }
  destruct Hcases as [(Hres & _)
                     | (vbmeta & vr & _ & Hpart & _ & _ & _ & -> & ->)].
  - left. auto.
  - destruct vr.
    + right. exists vbmeta, kSuccess, t1.
      split; [left; reflexivity|]. split; [assumption|].
      apply LoadAndVerifyVbmetaImpl_node; auto. right; discriminate.
    + left. auto.
    + destruct (Bool.bool_dec allow_verification_error true)
        as [Hallow | Hallow].
      * right. exists vbmeta, kErrorVerification, t1.
        split; [right; split; [reflexivity | assumption]|].
        split; [assumption|].
        apply LoadAndVerifyVbmetaImpl_node; auto.
      * left. apply Bool.not_true_is_false in Hallow.
        cbn [LoadAndVerifyVbmetaImpl]. fold device_path. mred.
        rewrite Hwait, Hopen, Hrun, Hallow. eexists; reflexivity.
    + left. auto.
Qed.

Lemma extends_weaken (P : VBMetaData -> Prop)
    (out : option (list VBMetaData)) (v : VBMetaData) (rest : list VBMetaData)
    (out' : option (list VBMetaData)) :
  extends P (append_image out v) out' ->
  match out with
  | None => out' = None
  | Some images =>
      exists more, out' = Some (images ++ v :: more)%list /\ Forall P more
  end.
Proof.
  destruct out as [images|]; cbn; [|auto].
  intros (more & -> & Hmore). exists more.
  now rewrite <- app_assoc.
Qed.

(** The loop extends the accumulator by what the children append. *)
Lemma chain_loop_extends (P : VBMetaData -> Prop)
    (rec : ChainInfo -> option (list VBMetaData) -> M Walk) :
  (forall chain out t r out' t',
      rec chain out t = (Ok (r, out'), t') -> extends P out out') ->
  forall chain_partitions verify_result out t r out' t',
    chain_loop rec chain_partitions verify_result out t = (Ok (r, out'), t') ->
    extends P out out'.
Proof.
  intros Hrec chain_partitions.
  assert (Htrans : forall a b c, extends P a b -> extends P b c -> extends P a c).
  { intros [images|] b c; cbn.
    - intros (m1 & -> & H1). cbn. intros (m2 & -> & H2).
      exists (m1 ++ m2)%list. rewrite app_assoc. split; [reflexivity|].
      apply Forall_app. auto.
    - intros ->. auto. }
  induction chain_partitions as [|chain rest IH];
    intros verify_result out t r out' t'; cbn [chain_loop]; mred.
  - intros [= _ <- _]. destruct out as [images|]; cbn; [|reflexivity].
    exists []. rewrite app_nil_r. auto.
  - destruct (rec chain out t) as [[[sub_ret out1]|f] t1] eqn:E;
      [|discriminate].
    pose proof (Hrec _ _ _ _ _ _ E) as Hsub.
    destruct sub_ret; cbn.
    + intros Hloop. exact (Htrans _ _ _ Hsub (IH _ _ _ _ _ _ Hloop)).
    + intros [= _ <- _]. assumption.
    + intros Hloop. exact (Htrans _ _ _ Hsub (IH _ _ _ _ _ _ Hloop)).
    + intros Hloop. exact (Htrans _ _ _ Hsub (IH _ _ _ _ _ _ Hloop)).
Qed.

(** The verdict of the loop is the running verdict it starts with or
    the verdict of a child. *)
Lemma chain_loop_verdict (Q : VBMetaVerifyResult -> Prop)
    (rec : ChainInfo -> option (list VBMetaData) -> M Walk) :
  (forall chain out t r out' t',
      rec chain out t = (Ok (r, out'), t') -> Q r) ->
  forall chain_partitions verify_result out t r out' t',
    Q verify_result ->
    chain_loop rec chain_partitions verify_result out t = (Ok (r, out'), t') ->
    Q r.
Proof.
  intros Hrec chain_partitions.
  induction chain_partitions as [|chain rest IH];
    intros verify_result out t r out' t' Hvr; cbn [chain_loop]; mred.
  - intros [= <- _ _]. assumption.
  - destruct (rec chain out t) as [[[sub_ret out1]|f] t1] eqn:E;
      [|discriminate].
    pose proof (Hrec _ _ _ _ _ _ E) as Hsub.
    destruct sub_ret; cbn.
    + apply IH. assumption.
    + intros [= <- _ _]. assumption.
    + apply IH. assumption.
    + apply IH. assumption.
Qed.

Lemma walked_extends (partition_name : string)
    (out : option (list VBMetaData)) (r : VBMetaVerifyResult)
    (out' : option (list VBMetaData)) :
  walked h true partition_name out r out' ->
  extends (fun v => image_flags h v = 0) out out'.
Proof.
  unfold walked, extends. destruct out as [images|]; [|auto].
  intros [(-> & _) | (v & rest & -> & _ & Hv & Hrest)].
  - exists []. rewrite app_nil_r. auto.
  - exists (v :: rest). auto.
Qed.

(** What a walk that returns leaves in the accumulator, and the verdict
    it can give when verification errors are not allowed. *)
Lemma LoadAndVerifyVbmetaImpl_post (fuel : nat) :
  forall partition_name expected is_chained_vbmeta out t r out' t',
    walk_from fuel partition_name expected is_chained_vbmeta out t
    = (Ok (r, out'), t') ->
    walked h is_chained_vbmeta partition_name out r out'
    /\ (allow_verification_error = false -> r <> kErrorVerification).
Proof.
  induction fuel as [|fuel IH];
    intros partition_name expected is_chained_vbmeta out t r out' t'.
  - discriminate.
  - assert (Hstop : walked h is_chained_vbmeta partition_name out kError out
                    /\ (allow_verification_error = false ->
                        kError <> kErrorVerification)).
    { split; [|discriminate]. unfold walked.
      destruct out; [left; auto | reflexivity]. }
    destruct (LoadAndVerifyVbmetaImpl_node_cases fuel partition_name expected
                is_chained_vbmeta out t)
      as [(t0 & ->) | (vbmeta & vr & t1 & Hvr & Hpart & ->)].
    + intros [= <- <- <-]. exact Hstop.
    + assert (Hverdict : allow_verification_error = false ->
                         vr <> kErrorVerification).
      { intros Hallow. destruct Hvr as [-> | (_ & Htrue)];
          [discriminate | congruence]. }
      assert (Hrec : forall chain o tt rr oo tt',
                 child fuel chain o tt = (Ok (rr, oo), tt') ->
                 walked h true (ci_partition_name chain) o rr oo
                 /\ (allow_verification_error = false ->
                     rr <> kErrorVerification)).
      { intros chain o tt rr oo tt'. apply IH. }
      unfold after_verify.
      generalize dependent (child fuel). intros rec Hrec.
      set (header :=
             avb_vbmeta_image_header_to_host_byte_order h (vbmeta_ptr_ vbmeta)).
      set (v' := snd (GetVBMetaHeader h vbmeta true)).
      assert (Hown : forall rr rest,
                 Forall (fun v => image_flags h v = 0) rest ->
                 (is_chained_vbmeta && negb (flags header =? 0)) = false ->
                 match out with
                 | None => True
                 | Some images =>
                     walked h is_chained_vbmeta partition_name (Some images)
                       rr (Some (images ++ v' :: rest)%list)
                 end).
      { intros rr rest Hrest Hc. destruct out as [images|]; [|exact I].
        right. exists v', rest. repeat split; auto.
        intros ->. cbn in Hc. apply Bool.negb_false_iff in Hc.
        apply Z.eqb_eq in Hc. exact Hc. }
      destruct (is_chained_vbmeta && negb (flags header =? 0)) eqn:Hc.
      { mred. intros [= <- <- <-]. exact Hstop. }
      specialize (fun rr rest Hrest => Hown rr rest Hrest eq_refl).
      destruct (negb (Z.land (flags header)
                             AVB_VBMETA_IMAGE_FLAGS_VERIFICATION_DISABLED =? 0)).
      { mred. intros [= <- <- <-]. split; [|assumption].
        specialize (Hown vr [] (Forall_nil _)).
        destruct out as [images|]; [exact Hown | reflexivity]. }
      destruct (Bool.bool_dec load_chained_vbmeta true) as [Hload | Hload].
      2: { apply Bool.not_true_is_false in Hload. rewrite Hload.
           intros [= <- <- <-]. split; [|assumption].
           specialize (Hown vr [] (Forall_nil _)).
           destruct out as [images|]; [exact Hown | reflexivity]. }
      rewrite Hload. destruct out as [images|]; [|discriminate].
      unfold bind.
      destruct (GetChainPartitionInfo h v' false t1)
        as [[[chains [|]]|f] t2]; [| |discriminate].
      * intros [= <- <- <-]. split; [|discriminate].
        exact (Hown kError [] (Forall_nil _)).
      * intros Hloop. split.
        -- apply (chain_loop_extends (fun v => image_flags h v = 0)) in Hloop.
           ++ apply extends_weaken in Hloop; [|exact []].
              destruct Hloop as (more & -> & Hmore). apply Hown, Hmore.
           ++ intros chain o tt rr oo tt' E.
              exact (walked_extends _ _ _ _ (proj1 (Hrec _ _ _ _ _ _ E))).
        -- intros Hallow.
           apply (chain_loop_verdict (fun r => r <> kErrorVerification))
             in Hloop; auto.
           intros chain o tt rr oo tt' E.
           exact (proj2 (Hrec _ _ _ _ _ _ E) Hallow).
Qed.

(** X12: a walk that returns only appends to the accumulator: a null
    accumulator stays null, the images that were there stay in front, in
    their order, and unless the verdict is [kError] the first image
    appended is the one of the partition the walk was called for (the
    images of the partitions chained below it come after it). *)
Theorem LoadAndVerifyVbmetaImpl_accumulates (fuel : nat)
    (partition_name expected : string) (is_chained_vbmeta : bool)
    (out : option (list VBMetaData)) (t : list Event)
    (r : VBMetaVerifyResult) (out' : option (list VBMetaData))
    (t' : list Event) :
  walk_from fuel partition_name expected is_chained_vbmeta out t
  = (Ok (r, out'), t') ->
  (out = None -> out' = None)
  /\ (forall images, out = Some images ->
        exists more,
          out' = Some (images ++ more)%list
          /\ (r <> kError ->
              exists v rest, more = v :: rest
                             /\ partition v = partition_name)).
Proof.
  intros Hrun.
  destruct (LoadAndVerifyVbmetaImpl_post _ _ _ _ _ _ _ _ _ Hrun)
    as (Hwalked & _).
  unfold walked in Hwalked. split.
  - intros ->. assumption.
  - intros images ->.
    destruct Hwalked as [(-> & ->) | (v & rest & -> & Hname & _)].
    + exists []. rewrite app_nil_r. split; [reflexivity|].
      intros Hne. contradiction.
    + exists (v :: rest). split; [reflexivity|].
      intros _. now exists v, rest.
Qed.

(** X13: flags can only be set by the top-level image: every image a
    walk of a chained partition appends to the accumulator has a header
    whose flags are zero, and a walk of the top-level partition appends
    no image with a flag set after its own. *)
Theorem LoadAndVerifyVbmetaImpl_chained_flags_zero (fuel : nat)
    (partition_name expected : string) (is_chained_vbmeta : bool)
    (images : list VBMetaData) (t : list Event)
    (r : VBMetaVerifyResult) (out' : option (list VBMetaData))
    (t' : list Event) :
  walk_from fuel partition_name expected is_chained_vbmeta (Some images) t
  = (Ok (r, out'), t') ->
  exists more,
    out' = Some (images ++ more)%list
    /\ Forall (fun v => image_flags h v = 0)
              (if is_chained_vbmeta then more else tl more).
Proof.
  intros Hrun.
  destruct (LoadAndVerifyVbmetaImpl_post _ _ _ _ _ _ _ _ _ Hrun)
    as (Hwalked & _).
  destruct Hwalked as [(-> & _) | (v & rest & -> & _ & Hv & Hrest)].
  - exists []. rewrite app_nil_r. split; [reflexivity|].
    destruct is_chained_vbmeta; constructor.
  - exists (v :: rest). split; [reflexivity|].
    destruct is_chained_vbmeta; [constructor; auto | exact Hrest].
Qed.

(** X14: when verification errors are not allowed, a walk that returns
    answers [kSuccess] or [kError], whatever the images below it: no
    [kErrorVerification] of a chained partition comes through. *)
Theorem LoadAndVerifyVbmetaImpl_strict (fuel : nat)
    (partition_name expected : string) (is_chained_vbmeta : bool)
    (out : option (list VBMetaData)) (t : list Event)
    (r : VBMetaVerifyResult) (out' : option (list VBMetaData))
    (t' : list Event) :
  allow_verification_error = false ->
  walk_from fuel partition_name expected is_chained_vbmeta out t
  = (Ok (r, out'), t') ->
  r = kSuccess \/ r = kError.
Proof.
  intros Hallow Hrun.
  destruct (LoadAndVerifyVbmetaImpl_post _ _ _ _ _ _ _ _ _ Hrun)
    as (_ & Hstrict).
  specialize (Hstrict Hallow).
  pose proof (LoadAndVerifyVbmetaImpl_never_unknown h ab_suffix
                ab_other_suffix allow_verification_error load_chained_vbmeta
                rollback_protection device_path_constructor
                _ _ _ _ _ _ _ _ _ Hrun) as Hknown.
  destruct r; auto; contradiction.
Qed.

(** X15: a walk whose device does not show up, or cannot be opened,
    answers [kError] and leaves the accumulator as it was; it logs one
    error and reads nothing, at any depth. *)
Theorem LoadAndVerifyVbmetaImpl_no_device (fuel : nat)
    (partition_name expected : string) (is_chained_vbmeta : bool)
    (out : option (list VBMetaData)) (t : list Event) :
  let device_path :=
    device_path_constructor
      (AvbPartitionToDevicePatition partition_name ab_suffix ab_other_suffix) in
  (WaitForFile h device_path = false ->
   walk_from (S fuel) partition_name expected is_chained_vbmeta out t
   = (Ok (kError, out),
      (t ++ [Call_WaitForFile device_path;
             Log ERROR ("No such partition: " ++ device_path)])%list))
  /\ (WaitForFile h device_path = true ->
      open h (StdString.c_str device_path) < 0 ->
      walk_from (S fuel) partition_name expected is_chained_vbmeta out t
      = (Ok (kError, out),
         (t ++ [Call_WaitForFile device_path;
                Call_open (StdString.c_str device_path);
                Log ERROR ("Failed to open: " ++ device_path)])%list)).
Proof.
  intros device_path. split.
  - intros Hwait. cbn [LoadAndVerifyVbmetaImpl]. fold device_path. mred.
    rewrite Hwait. now rewrite <- app_assoc.
  - intros Hwait Hopen. apply Z.ltb_lt in Hopen.
    cbn [LoadAndVerifyVbmetaImpl]. fold device_path. mred.
    rewrite Hwait, Hopen. now rewrite <- !app_assoc.
Qed.

(** X16: with a null accumulator and [load_chained_vbmeta] set, a node
    whose blob is accepted and whose flags do not stop the walk
    dereferences the null accumulator: the guard before [emplace_back]
    is not repeated before [rbegin]. *)
Theorem LoadAndVerifyVbmetaImpl_null_accumulator (fuel : nat)
    (partition_name expected : string) (is_chained_vbmeta : bool)
    (t : list Event) (vbmeta : VBMetaData)
    (verify_result : VBMetaVerifyResult) (t1 : list Event) :
  let device_path :=
    device_path_constructor
      (AvbPartitionToDevicePatition partition_name ab_suffix ab_other_suffix) in
  WaitForFile h device_path = true ->
  0 <= open h (StdString.c_str device_path) ->
  VerifyVBMetaData h (open h (StdString.c_str device_path)) partition_name expected
    (Some (indeterminate_verify_result h))
    ((t ++ [Call_WaitForFile device_path])
     ++ [Call_open (StdString.c_str device_path)])%list
  = (Ok (Some vbmeta, Some verify_result), t1) ->
  allow_verification_error = true \/ verify_result <> kErrorVerification ->
  image_flags h vbmeta = 0 ->
  load_chained_vbmeta = true ->
  walk_from (S fuel) partition_name expected is_chained_vbmeta None t
  = (Crash NullDereference, t1).
Proof.
  intros device_path Hwait Hopen Hverify Hallowed Hflags Hload.
  rewrite (LoadAndVerifyVbmetaImpl_node h ab_suffix ab_other_suffix
             allow_verification_error load_chained_vbmeta rollback_protection
             device_path_constructor fuel partition_name expected
             is_chained_vbmeta None t vbmeta verify_result t1
             Hwait Hopen Hverify Hallowed).
  unfold after_verify. unfold image_flags in Hflags.
  rewrite Hflags, Hload. cbn [Z.eqb Z.land negb andb].
  rewrite andb_false_r. reflexivity.
Qed.

End WalkFacts.

Lemma LoadAndVerifyVbmetaImpl_accumulates_witness :
  exists more,
    Some [Toy.image "vbmeta" Toy.vbmeta_image;
          Toy.image "vendor" Toy.vendor_image;
          Toy.image "product" Toy.product_image]
    = Some ([] ++ more)%list
    /\ (kErrorVerification <> kError ->
        exists v rest, more = v :: rest /\ partition v = "vbmeta").
Proof.
  refine (proj2 (LoadAndVerifyVbmetaImpl_accumulates
                   (Toy.host Toy.world) "" "" true true false Toy.device_path
                   8 "vbmeta" "" false (Some []) [] kErrorVerification _
                   (snd (Toy.walk Toy.world "vbmeta" "" true false)) _)
                [] eq_refl).
  vm_compute. reflexivity.
Defined.

Lemma LoadAndVerifyVbmetaImpl_chained_flags_zero_witness :
  exists more,
    Some [Toy.image "vbmeta" Toy.vbmeta_image;
          Toy.image "vendor" Toy.vendor_image;
          Toy.image "product" Toy.product_image]
    = Some ([] ++ more)%list
    /\ Forall (fun v => image_flags (Toy.host Toy.world) v = 0) (tl more).
Proof.
  refine (LoadAndVerifyVbmetaImpl_chained_flags_zero
            (Toy.host Toy.world) "" "" true true false Toy.device_path
            8 "vbmeta" "" false [] [] kErrorVerification _
            (snd (Toy.walk Toy.world "vbmeta" "" true false)) _).
  vm_compute. reflexivity.
Defined.

Lemma LoadAndVerifyVbmetaImpl_strict_witness :
  fst (Toy.walk Toy.world "vbmeta" "" false false)
  = Ok (kError, Some [Toy.image "vbmeta" Toy.vbmeta_image])
  /\ (kError = kSuccess \/ kError = kError).
Proof.
  split; [vm_compute; reflexivity|].
  refine (LoadAndVerifyVbmetaImpl_strict
            (Toy.host Toy.world) "" "" false true false Toy.device_path
            8 "vbmeta" "" false (Some []) [] kError
            (Some [Toy.image "vbmeta" Toy.vbmeta_image])
            (snd (Toy.walk Toy.world "vbmeta" "" false false)) eq_refl _).
  vm_compute. reflexivity.
Defined.

Lemma LoadAndVerifyVbmetaImpl_no_device_witness :
  Toy.walk Toy.world "system" "" true false
  = (Ok (kError, Some []),
     [Call_WaitForFile "/dev/block/by-name/system";
      Log ERROR "No such partition: /dev/block/by-name/system"])
  /\ LoadAndVerifyVbmetaImpl (Toy.host Toy.world_vendor_disabled) 1 "system"
       "_a" "_b" "" true true false (fun name => "/dev/block/dm-" ++ name)
       false (Some []) []
     = (Ok (kError, Some []),
        [Call_WaitForFile "/dev/block/dm-system_a";
         Call_open "/dev/block/dm-system_a";
         Log ERROR "Failed to open: /dev/block/dm-system_a"]).
Proof.
  split.
  - exact (proj1 (LoadAndVerifyVbmetaImpl_no_device
                    (Toy.host Toy.world) "" "" true true false Toy.device_path
                    7 "system" "" false (Some []) [])
                 eq_refl).
  - exact (proj2 (LoadAndVerifyVbmetaImpl_no_device
                    (Toy.host Toy.world_vendor_disabled) "_a" "_b" true true
                    false (fun name => "/dev/block/dm-" ++ name)
                    0 "system" "" false (Some []) [])
                 eq_refl ltac:(vm_compute; reflexivity)).
Defined.

Lemma LoadAndVerifyVbmetaImpl_null_accumulator_witness :
  LoadAndVerifyVbmetaImpl (Toy.host Toy.world) 8 "vbmeta" "" "" "" true true
    false Toy.device_path false None []
  = (Crash NullDereference,
     [Call_WaitForFile "/dev/block/by-name/vbmeta";
      Call_open "/dev/block/by-name/vbmeta";
      Call_pread64 3 kMaxVBMetaSize 0]).
Proof.
  exact (LoadAndVerifyVbmetaImpl_null_accumulator
           (Toy.host Toy.world) "" "" true true false Toy.device_path
           7 "vbmeta" "" false []
           {| vbmeta_ptr_ := Toy.vbmeta_image;
              vbmeta_size_ := kMaxVBMetaSize;
              partition_name_ := "vbmeta" |}
           kSuccess
           [Call_WaitForFile "/dev/block/by-name/vbmeta";
            Call_open "/dev/block/by-name/vbmeta";
            Call_pread64 3 kMaxVBMetaSize 0]
           eq_refl ltac:(simpl; lia) eq_refl
           ltac:(left; reflexivity) eq_refl eq_refl).
Defined.

(** ** Parameters of the walk that do not matter *)

Lemma chain_loop_ext
    (rec1 rec2 : ChainInfo -> option (list VBMetaData) -> M Walk) :
  (forall chain out t, rec1 chain out t = rec2 chain out t) ->
  forall chain_partitions verify_result out t,
    chain_loop rec1 chain_partitions verify_result out t
    = chain_loop rec2 chain_partitions verify_result out t.
Proof.
  intros Hrec chain_partitions.
  induction chain_partitions as [|chain rest IH]; intros verify_result out t;
    cbn [chain_loop]; [reflexivity|].
  unfold bind. rewrite Hrec.
  destruct (rec2 chain out t) as [[[sub_ret out1]|f] t1]; [|reflexivity].
  destruct sub_ret; cbn; auto.
Qed.

(** X17: [RollbackDetected] always answers false, so the
    [rollback_protection] argument changes nothing: two walks that
    differ only in it give the same verdict, the same accumulator and
    the same trace, on every image tree. *)
Theorem LoadAndVerifyVbmetaImpl_rollback_protection_unused
    (h : Host) (ab_suffix ab_other_suffix : string)
    (allow_verification_error load_chained_vbmeta : bool)
    (device_path_constructor : string -> string) (fuel : nat) :
  forall (partition_name expected : string)
         (rollback_protection rollback_protection' is_chained_vbmeta : bool)
         (out : option (list VBMetaData)) (t : list Event),
    LoadAndVerifyVbmetaImpl h fuel partition_name ab_suffix ab_other_suffix
      expected allow_verification_error load_chained_vbmeta
      rollback_protection device_path_constructor is_chained_vbmeta out t
    = LoadAndVerifyVbmetaImpl h fuel partition_name ab_suffix ab_other_suffix
        expected allow_verification_error load_chained_vbmeta
        rollback_protection' device_path_constructor is_chained_vbmeta out t.
Proof.
  induction fuel as [|fuel IH];
    intros partition_name expected rollback_protection rollback_protection'
           is_chained_vbmeta out t; [reflexivity|].
  cbn [LoadAndVerifyVbmetaImpl]. unfold RollbackDetected, GetVBMetaHeader.
  rewrite !Bool.andb_false_r. mred.
  destruct (WaitForFile h _); [|reflexivity].
  destruct (open h _ <? 0); [reflexivity|].
  destruct (VerifyVBMetaData h _ _ _ _ _) as [[[[vbmeta|] cell]|f] t1];
    try reflexivity.
  destruct (if if allow_verification_error then false else true
            then _ else false); [reflexivity|].
  destruct (if is_chained_vbmeta then _ else false); [reflexivity|].
  destruct (Z.land _ _ =? 0); [|reflexivity].
  destruct load_chained_vbmeta; [|reflexivity].
  destruct out as [images|]; [|reflexivity].
  destruct (rev _); [reflexivity|].
  destruct (GetChainPartitionInfo h _ false t1) as [[[chains [|]]|f] t2];
    try reflexivity.
  apply chain_loop_ext. intros chain o tt. apply IH.
Qed.

Section WithoutChain.

Variable h : Host.
Variables ab_suffix ab_other_suffix : string.
Variables allow_verification_error rollback_protection : bool.
Variable device_path_constructor : string -> string.

(** X18: without [load_chained_vbmeta] the function never calls itself
    and never dereferences the accumulator: whatever the image, it
    returns (a depth of one is enough, and the answer is the same at
    any greater depth), and it leaves the accumulator as it was or
    appends the one image of its partition. *)
Theorem LoadAndVerifyVbmetaImpl_without_chain (fuel : nat)
    (partition_name expected : string) (is_chained_vbmeta : bool)
    (out : option (list VBMetaData)) (t : list Event) :
  exists r out' t',
    LoadAndVerifyVbmetaImpl h (S fuel) partition_name ab_suffix
      ab_other_suffix expected allow_verification_error false
      rollback_protection device_path_constructor is_chained_vbmeta out t
    = (Ok (r, out'), t')
    /\ (out' = out
        \/ exists v, partition v = partition_name
                     /\ out' = append_image out v).
Proof.
  destruct (LoadAndVerifyVbmetaImpl_node_cases h ab_suffix ab_other_suffix
              allow_verification_error false rollback_protection
              device_path_constructor fuel partition_name expected
              is_chained_vbmeta out t)
    as [(t0 & ->) | (vbmeta & vr & t1 & _ & Hpart & ->)].
  - exists kError, out, t0. auto.
  - unfold after_verify. mred.
    destruct (if is_chained_vbmeta then _ else false).
    + eexists; eexists; eexists. split; [reflexivity | left; reflexivity].
    + destruct (Z.land _ _ =? 0).
      * eexists; eexists; eexists. split; [reflexivity|].
        right. eexists. split; [|reflexivity]. exact Hpart.
      * eexists; eexists; eexists. split; [reflexivity|].
        right. eexists. split; [|reflexivity]. exact Hpart.
Qed.

End WithoutChain.

(** X19: the loop over the chained partitions never improves the
    verdict: started with a running verdict other than [kSuccess] (the
    node's own image failed verification and that was allowed), it
    cannot answer [kSuccess], whatever the children answer. *)
Theorem chain_loop_never_improves
    (rec : ChainInfo -> option (list VBMetaData) -> M Walk)
    (chain_partitions : list ChainInfo) :
  forall (verify_result : VBMetaVerifyResult) (out : option (list VBMetaData))
         (t : list Event) (r : VBMetaVerifyResult)
         (out' : option (list VBMetaData)) (t' : list Event),
    verify_result <> kSuccess ->
    chain_loop rec chain_partitions verify_result out t = (Ok (r, out'), t') ->
    r <> kSuccess.
Proof.
  induction chain_partitions as [|chain rest IH];
    intros verify_result out t r out' t' Hvr; cbn [chain_loop]; mred.
  - intros [= <- _ _]. assumption.
  - destruct (rec chain out t) as [[[sub_ret out1]|f] t1]; [|discriminate].
    destruct sub_ret; cbn.
    + apply IH. assumption.
    + intros [= <- _ _]. discriminate.
    + apply IH. discriminate.
    + apply IH. discriminate.
Qed.

Lemma chain_loop_never_improves_witness :
  let rec := recurse (Toy.host Toy.world) "" "" true true false
                     Toy.device_path 7 in
  let product := {| ci_partition_name := "product"; public_key_blob := "P" |} in
  fst (chain_loop rec [product] kErrorVerification (Some []) [])
  = Ok (kErrorVerification, Some [Toy.image "product" Toy.product_image])
  /\ kErrorVerification <> kSuccess.
Proof.
  cbv zeta. split; [vm_compute; reflexivity|].
  refine (chain_loop_never_improves
            (recurse (Toy.host Toy.world) "" "" true true false
                     Toy.device_path 7)
            [{| ci_partition_name := "product"; public_key_blob := "P" |}]
            kErrorVerification (Some []) [] kErrorVerification
            (Some [Toy.image "product" Toy.product_image]) _ _ _).
  - discriminate.
  - vm_compute. reflexivity.
Defined.

(** ** The order of the lookup, and what it logs *)

Section LookupOrder.

Variable h : Host.

Lemma GetHashtreeDescriptor_from_first (partition_name : string)
    (ds1 : list (list byte)) (d : list byte) (ds2 : list (list byte))
    (ht : AvbHashtreeDescriptor) :
  (forall d' ht', In d' ds1 -> ~ hashtree_for h partition_name d' ht') ->
  hashtree_for h partition_name d ht ->
  forall (n : Z) (t : list Event),
  exists t',
    GetHashtreeDescriptor_from h partition_name (ds1 ++ d :: ds2)%list n t
    = (Ok (Some (ht, ptr_add d (sizeof_AvbHashtreeDescriptor h))), t').
Proof.
  intros Hnone ((desc & Hdesc & Htag) & Hht & Hlen & Hname).
  induction ds1 as [|d' rest IH]; intros n t.
  - cbn [app GetHashtreeDescriptor_from].
    rewrite Hdesc, Htag, Z.eqb_refl, Hht, Hlen, Z.eqb_refl.
    cbn [negb]. cbv zeta. rewrite <- Hlen, Hname, String.eqb_refl.
    eexists; reflexivity.
  - assert (IH' : forall n t, exists t',
               GetHashtreeDescriptor_from h partition_name
                 (rest ++ d :: ds2)%list n t
               = (Ok (Some (ht, ptr_add d (sizeof_AvbHashtreeDescriptor h))),
                  t')).
    { apply IH. intros d0 ht0 Hin. apply Hnone. now right. }
    assert (Hhead : forall ht', ~ hashtree_for h partition_name d' ht').
    { intros ht'. apply Hnone. now left. }
    cbn [app GetHashtreeDescriptor_from].
    destruct (avb_descriptor_validate_and_byteswap h d') as [desc'|] eqn:Hd'.
    + destruct (tag desc' =? AVB_DESCRIPTOR_TAG_HASHTREE) eqn:Htag';
        [|apply IH'].
      destruct (avb_hashtree_descriptor_validate_and_byteswap h d')
        as [ht'|] eqn:Hht'; [|apply IH'].
      destruct (partition_name_len ht' =? StdString.size partition_name)
        eqn:Hlen'; cbn [negb]; [|apply IH'].
      cbv zeta.
      destruct (String.eqb _ partition_name) eqn:Hname'; [|apply IH'].
      exfalso. apply (Hhead ht'). split; [|split; [|split]].
      * exists desc'. split; [assumption|]. now apply Z.eqb_eq.
      * assumption.
      * now apply Z.eqb_eq.
      * now apply String.eqb_eq.
    + mred. apply IH'.
Qed.

Lemma GetHashtreeDescriptor_images_first (partition_name : string)
    (before : list VBMetaData) (vbmeta : VBMetaData)
    (after : list VBMetaData)
    (ds1 : list (list byte)) (d : list byte) (ds2 : list (list byte))
    (ht : AvbHashtreeDescriptor) :
  (forall v d' ht', In v before -> In d' (image_descriptors h v) ->
                    ~ hashtree_for h partition_name d' ht') ->
  avb_descriptor_get_all h (data vbmeta) (size vbmeta)
  = Some (ds1 ++ d :: ds2)%list ->
  (forall d' ht', In d' ds1 -> ~ hashtree_for h partition_name d' ht') ->
  hashtree_for h partition_name d ht ->
  forall t : list Event,
  exists t',
    GetHashtreeDescriptor_images h partition_name
      (before ++ vbmeta :: after)%list t
    = (Ok (Some (ht, ptr_add d (sizeof_AvbHashtreeDescriptor h))), t').
Proof.
  intros Hbefore Hall Hds1 Hd.
  induction before as [|v rest IH]; intros t.
  - cbn [app GetHashtreeDescriptor_images]. rewrite Hall.
    replace (Z.of_nat (List.length (ds1 ++ d :: ds2)%list) <? 1) with false
      by (symmetry; apply Z.ltb_ge; rewrite length_app; cbn [List.length];
          lia).
    unfold bind.
    destruct (GetHashtreeDescriptor_from_first partition_name ds1 d ds2 ht
                Hds1 Hd 0 t) as (t' & ->).
    eexists; reflexivity.
  - assert (IH' : forall t, exists t',
               GetHashtreeDescriptor_images h partition_name
                 (rest ++ vbmeta :: after)%list t
               = (Ok (Some (ht, ptr_add d (sizeof_AvbHashtreeDescriptor h))),
                  t')).
    { apply IH. intros v0 d0 ht0 Hin. apply Hbefore. now right. }
    assert (Hv : forall d' ht', In d' (image_descriptors h v) ->
                                ~ hashtree_for h partition_name d' ht').
    { intros d' ht'. apply Hbefore. now left. }
    cbn [app GetHashtreeDescriptor_images]. unfold image_descriptors in Hv.
    destruct (avb_descriptor_get_all h (data v) (size v)) as [ds|];
      [|apply IH'].
    destruct (Z.of_nat (List.length ds) <? 1); [apply IH'|].
    unfold bind.
    destruct (GetHashtreeDescriptor_from_cases h partition_name ds 0 t)
      as [(d0 & ht0 & t0 & Hin & Hfor & _) | (_ & t0 & ->)].
    + exfalso. exact (Hv d0 ht0 Hin Hfor).
    + apply IH'.
Qed.

(** X20: the lookup takes the first descriptor that matches, in the
    order of the images and, within an image, of its descriptors: when
    no descriptor before [d] is a hashtree descriptor for the name and
    [d] is, the answer is the fields of [d], the salt is the hex of the
    [salt_len] bytes that follow the name of [d], and the digest the hex
    of the [root_digest_len] bytes after the salt, whatever the
    descriptors and images that come later hold. *)
Theorem GetHashtreeDescriptor_first_match (partition_name : string)
    (before : list VBMetaData) (vbmeta : VBMetaData)
    (after : list VBMetaData)
    (ds1 : list (list byte)) (d : list byte) (ds2 : list (list byte))
    (ht : AvbHashtreeDescriptor) (t : list Event) :
  let name_at := ptr_add d (sizeof_AvbHashtreeDescriptor h) in
  let salt_at := ptr_add name_at (partition_name_len ht) in
  let digest_at := ptr_add salt_at (salt_len ht) in
  (forall v d' ht', In v before -> In d' (image_descriptors h v) ->
                    ~ hashtree_for h partition_name d' ht') ->
  avb_descriptor_get_all h (data vbmeta) (size vbmeta)
  = Some (ds1 ++ d :: ds2)%list ->
  (forall d' ht', In d' ds1 -> ~ hashtree_for h partition_name d' ht') ->
  hashtree_for h partition_name d ht ->
  fst (GetHashtreeDescriptor h partition_name
         (before ++ vbmeta :: after)%list t)
  = Ok (Some (ht, BytesToHex h salt_at (salt_len ht),
              BytesToHex h digest_at (root_digest_len ht))).
Proof.
  intros name_at salt_at digest_at Hbefore Hall Hds1 Hd.
  unfold GetHashtreeDescriptor, bind.
  destruct (GetHashtreeDescriptor_images_first partition_name before vbmeta
              after ds1 d ds2 ht Hbefore Hall Hds1 Hd t) as (t' & ->).
  reflexivity.
Qed.

Lemma GetHashtreeDescriptor_from_warns (partition_name : string)
    (descriptors : list (list byte)) :
  forall (n : Z) (t : list Event),
  exists r warnings,
    GetHashtreeDescriptor_from h partition_name descriptors n t
    = (Ok r, (t ++ warnings)%list)
    /\ Forall is_warning warnings.
Proof.
  induction descriptors as [|d rest IH]; intros n t.
  - exists None, []. rewrite app_nil_r. split; [reflexivity | constructor].
  - cbn [GetHashtreeDescriptor_from].
    destruct (avb_descriptor_validate_and_byteswap h d) as [desc|].
    + destruct (tag desc =? AVB_DESCRIPTOR_TAG_HASHTREE); [|apply IH].
      destruct (avb_hashtree_descriptor_validate_and_byteswap h d)
        as [ht|]; [|apply IH].
      destruct (negb _); [apply IH|]. cbv zeta.
      destruct (String.eqb _ partition_name); [|apply IH].
      eexists; exists []. rewrite app_nil_r.
      split; [reflexivity | constructor].
    + mred.
      destruct (IH (n + 1)
                  (t ++ [Log WARNING ("Descriptor[" ++ StdString.of_Z n
                                      ++ "] is invalid")])%list)
        as (r & ws & -> & Hws).
      exists r, (Log WARNING ("Descriptor[" ++ StdString.of_Z n
                              ++ "] is invalid") :: ws).
      rewrite <- app_assoc. split; [reflexivity|].
      constructor; [eexists; reflexivity | assumption].
Qed.

Lemma GetHashtreeDescriptor_images_warns (partition_name : string)
    (vbmeta_images : list VBMetaData) :
  forall t : list Event,
  exists r warnings,
    GetHashtreeDescriptor_images h partition_name vbmeta_images t
    = (Ok r, (t ++ warnings)%list)
    /\ Forall is_warning warnings.
Proof.
  induction vbmeta_images as [|v rest IH]; intros t.
  - exists None, []. rewrite app_nil_r. split; [reflexivity | constructor].
  - cbn [GetHashtreeDescriptor_images].
    destruct (avb_descriptor_get_all h (data v) (size v)) as [ds|];
      [|apply IH].
    destruct (Z.of_nat (List.length ds) <? 1); [apply IH|].
    unfold bind.
    destruct (GetHashtreeDescriptor_from_warns partition_name ds 0 t)
      as ([found|] & ws & -> & Hws).
    + exists (Some found), ws. auto.
    + destruct (IH (t ++ ws)%list) as (r & ws' & -> & Hws').
      exists r, (ws ++ ws')%list. rewrite app_assoc.
      split; [reflexivity|]. apply Forall_app. auto.
Qed.

(** X21: the lookup always answers, and it only logs.  What it adds to
    the trace is a run of warning lines (those of the descriptors that
    fail the generic validate-and-byteswap) followed, exactly when it
    fails, by one error line that names the partition (up to its first
    NUL, the name being streamed as a C string). *)
Theorem GetHashtreeDescriptor_logs (partition_name : string)
    (vbmeta_images : list VBMetaData) (t : list Event) :
  exists r warnings,
    Forall is_warning warnings
    /\ GetHashtreeDescriptor h partition_name vbmeta_images t
       = (Ok r,
          (t ++ warnings
             ++ match r with
                | Some _ => []
                | None =>
                    [Log ERROR ("Partition descriptor not found: "
                                ++ StdString.c_str partition_name)]
                end)%list).
Proof.
  unfold GetHashtreeDescriptor, bind.
  destruct (GetHashtreeDescriptor_images_warns partition_name vbmeta_images t)
    as ([[ht name_at]|] & ws & -> & Hws).
  - exists (Some (ht,
                  BytesToHex h (ptr_add name_at (partition_name_len ht))
                             (salt_len ht),
                  BytesToHex h
                    (ptr_add (ptr_add name_at (partition_name_len ht))
                             (salt_len ht))
                    (root_digest_len ht))), ws.
    split; [assumption|]. rewrite app_nil_r. reflexivity.
  - exists None, ws. split; [assumption|].
    mred. rewrite <- app_assoc. reflexivity.
Qed.

End LookupOrder.

Lemma GetHashtreeDescriptor_first_match_witness :
  fst (GetHashtreeDescriptor (Toy.host Toy.world) "system"
         ([Toy.image "boot" Toy.vendor_image]
          ++ Toy.image "vbmeta" Toy.corrupt_then_system
          :: [Toy.image "vbmeta_system" Sample.second_image])%list [])
  = Ok (Some (Toy.system_descriptor,
              BytesToHex (Toy.host Toy.world) [xab; xcd] 1,
              BytesToHex (Toy.host Toy.world) [xcd] 1)).
Proof.
  apply (GetHashtreeDescriptor_first_match (Toy.host Toy.world) "system"
           [Toy.image "boot" Toy.vendor_image]
           (Toy.image "vbmeta" Toy.corrupt_then_system)
           [Toy.image "vbmeta_system" Sample.second_image]
           [Sample.corrupt_descriptor] Toy.system_hashtree []
           Toy.system_descriptor []).
  - intros v d' ht' [<- | []] Hin. vm_compute in Hin. destruct Hin.
  - reflexivity.
  - intros d' ht' [<- | []] ((desc & Hdesc & _) & _).
    vm_compute in Hdesc. discriminate Hdesc.
  - split; [|split; [|split]]; try reflexivity.
    eexists. split; reflexivity.
Defined.

(** ** The verity table and the mapper device, on every path *)

Section Mapper.

Variable h : Host.

(** X22: the block sizes of the descriptor are divided by as they
    come: for a [veritymode] the code knows, a descriptor whose
    [data_block_size] or [hash_block_size] is zero makes
    [ConstructVerityTable] divide by zero before it logs or adds
    anything, and [HashtreeDmVeritySetup] with it. *)
Theorem ConstructVerityTable_zero_block_size
    (hashtree_desc : AvbHashtreeDescriptor) (salt root_digest device : string)
    (table : DmTable) (t : list Event) (mode : option string) :
  kernel_mode (fs_mgr_get_boot_config h "veritymode") mode ->
  data_block_size hashtree_desc = 0 \/ hash_block_size hashtree_desc = 0 ->
  ConstructVerityTable h hashtree_desc salt root_digest device table t
  = (Crash DivideByZero, t)
  /\ forall (fstab_entry : FstabEntry) (wait_for_verity_dev : bool),
       HashtreeDmVeritySetup h fstab_entry hashtree_desc salt root_digest
                             wait_for_verity_dev t
       = (Crash DivideByZero, t).
Proof.
  intros Hmode Hzero.
  assert (Hcrash : forall device table,
             ConstructVerityTable h hashtree_desc salt root_digest device
                                  table t
             = (Crash DivideByZero, t)).
  { intros device0 table0. unfold ConstructVerityTable, udiv.
    inversion Hmode as [E1 E2 | E1 E2 | E1 E2 | E1 E2]; mred;
      cbn [String.eqb Ascii.eqb Bool.eqb StdString.empty];
      destruct Hzero as [-> | ->]; cbn [Z.eqb]; try reflexivity;
      destruct (data_block_size hashtree_desc =? 0); reflexivity. }
  split; [apply Hcrash|].
  intros fstab_entry wait_for_verity_dev.
  unfold HashtreeDmVeritySetup. unfold bind at 1. rewrite Hcrash.
  reflexivity.
Qed.

(** X23: the one target [ConstructVerityTable] builds, for a
    [veritymode] the code knows and block sizes other than zero: it
    starts at sector 0 and covers [image_size / 512] sectors; the data,
    the hash tree and the FEC data, when there is any, are all read
    from the block device given; the tree starts at block
    [tree_offset / hash_block_size]; salt and digest are the strings
    given; zero blocks are always ignored; and the one line logged
    carries the parameter string of that target. *)
Theorem ConstructVerityTable_target
    (hashtree_desc : AvbHashtreeDescriptor) (salt root_digest device : string)
    (table : DmTable) (t : list Event) (mode : option string) :
  kernel_mode (fs_mgr_get_boot_config h "veritymode") mode ->
  data_block_size hashtree_desc <> 0 ->
  hash_block_size hashtree_desc <> 0 ->
  exists target,
    ConstructVerityTable h hashtree_desc salt root_digest device table t
    = (Ok (AddTarget h target table),
       (t ++ [Log INFO ("Built verity table: '"
                        ++ GetParameterString h target ++ "'")])%list)
    /\ start_sector target = 0
    /\ length_sectors target = image_size hashtree_desc / 512
    /\ data_device target = device
    /\ hash_device target = device
    /\ (forall f, fec target = Some f -> fec_device f = device)
    /\ hash_start_block target
       = tree_offset hashtree_desc / hash_block_size hashtree_desc
    /\ tv_salt target = salt
    /\ tv_root_digest target = root_digest
    /\ ignore_zero_blocks target = true.
Proof.
  intros Hmode Hdata Hhash.
  exists (built_target hashtree_desc salt root_digest device mode).
  split.
  - exact (ConstructVerityTable_builds h hashtree_desc salt root_digest
             device table t mode Hmode Hdata Hhash).
  - cbn. repeat split.
    intros f. destruct (fec_size hashtree_desc >? 0); [|discriminate].
    intros [= <-]. reflexivity.
Qed.

(** X24: [HashtreeDmVeritySetup] answers success only when every step
    succeeded, in this order: the table was built and is valid, the
    device named after the base name of the mount point was created
    from the table made read-only, its path was obtained, the block
    device of the entry was set read-only, and, when the caller asked
    to wait, the path showed up.  The entry then carries the mapper path
    and the mount point it had. *)
Theorem HashtreeDmVeritySetup_success
    (fstab_entry : FstabEntry) (hashtree_desc : AvbHashtreeDescriptor)
    (salt root_digest : string) (wait_for_verity_dev : bool)
    (t : list Event) (entry' : FstabEntry) (t' : list Event) :
  let name := basename h (StdString.c_str (mount_point fstab_entry)) in
  HashtreeDmVeritySetup h fstab_entry hashtree_desc salt root_digest
                        wait_for_verity_dev t
  = (Ok (true, entry'), t') ->
  exists table t1 dev_path,
    ConstructVerityTable h hashtree_desc salt root_digest
      (blk_device fstab_entry) {| targets := []; readonly := false |} t
    = (Ok (true, table), t1)
    /\ DmTable_valid h table = true
    /\ CreateDevice h name (set_readonly true table) = true
    /\ GetDmDevicePathByName h name = Some dev_path
    /\ (wait_for_verity_dev = true -> WaitForFile h dev_path = true)
    /\ entry' = {| blk_device := dev_path;
                   mount_point := mount_point fstab_entry |}
    /\ t' = (t1 ++ [Call_CreateDevice name (set_readonly true table);
                    Call_GetDmDevicePathByName name;
                    Call_SetBlockDeviceReadOnly (blk_device fstab_entry)]
                ++ (if wait_for_verity_dev
                    then [Call_WaitForFile dev_path] else []))%list.
Proof.
  intros name. unfold HashtreeDmVeritySetup. fold name. unfold bind at 1.
  destruct (ConstructVerityTable h hashtree_desc salt root_digest
              (blk_device fstab_entry) _ t)
    as [[[constructed table]|f] t1]; [|discriminate].
  mred.
  destruct constructed; [|discriminate].
  destruct (DmTable_valid h table) eqn:Hvalid; [|discriminate].
  destruct (CreateDevice h name (set_readonly true table)) eqn:Hcreate;
    [|discriminate].
  destruct (GetDmDevicePathByName h name) as [dev_path|] eqn:Hpath;
    [|discriminate].
  destruct wait_for_verity_dev.
  - destruct (WaitForFile h dev_path) eqn:Hwait; [|discriminate].
    intros [= <- <-]. exists table, t1, dev_path.
    repeat split; auto. now rewrite <- !app_assoc.
  - intros [= <- <-]. exists table, t1, dev_path.
    repeat split; auto; try discriminate. now rewrite <- !app_assoc.
Qed.

(** X25: whatever the outcome, [HashtreeDmVeritySetup] leaves the
    mount point of the entry alone, and the entry it hands back is the
    one it was given or that one with its block device replaced by the
    path the mapper gives for the base name of the mount point; on
    success it is always the second. *)
Theorem HashtreeDmVeritySetup_entry
    (fstab_entry : FstabEntry) (hashtree_desc : AvbHashtreeDescriptor)
    (salt root_digest : string) (wait_for_verity_dev : bool)
    (t : list Event) (ok : bool) (entry' : FstabEntry) (t' : list Event) :
  let name := basename h (StdString.c_str (mount_point fstab_entry)) in
  HashtreeDmVeritySetup h fstab_entry hashtree_desc salt root_digest
                        wait_for_verity_dev t
  = (Ok (ok, entry'), t') ->
  mount_point entry' = mount_point fstab_entry
  /\ ((ok = false /\ entry' = fstab_entry)
      \/ GetDmDevicePathByName h name = Some (blk_device entry')).
Proof.
  intros name. unfold HashtreeDmVeritySetup. fold name. unfold bind at 1.
  destruct (ConstructVerityTable h hashtree_desc salt root_digest
              (blk_device fstab_entry) _ t)
    as [[[constructed table]|f] t1]; [|discriminate].
  mred.
  destruct constructed; [|intros [= <- <- _]; auto].
  destruct (DmTable_valid h table); [|intros [= <- <- _]; auto].
  destruct (CreateDevice h name (set_readonly true table));
    [|intros [= <- <- _]; auto].
  destruct (GetDmDevicePathByName h name) as [dev_path|];
    [|intros [= <- <- _]; auto].
  destruct wait_for_verity_dev.
  - destruct (WaitForFile h dev_path); intros [= <- <- _]; auto.
  - intros [= <- <- _]; auto.
Qed.

End Mapper.

Lemma ConstructVerityTable_zero_block_size_witness :
  let zero_blocks :=
    {| dm_verity_version := 1; image_size := 8192; tree_offset := 8192;
       data_block_size := 4096; hash_block_size := 0;
       fec_num_roots := 2; fec_offset := 12288; fec_size := 0;
       hash_algorithm := list_byte_of_string "sha256";
       partition_name_len := 6; salt_len := 1; root_digest_len := 1 |} in
  HashtreeDmVeritySetup (Toy.host Toy.world) Toy.system_entry zero_blocks
                        "ab" "cd" true []
  = (Crash DivideByZero, []).
Proof.
  cbv zeta.
  exact (proj2 (ConstructVerityTable_zero_block_size (Toy.host Toy.world)
                  {| dm_verity_version := 1; image_size := 8192;
                     tree_offset := 8192; data_block_size := 4096;
                     hash_block_size := 0; fec_num_roots := 2;
                     fec_offset := 12288; fec_size := 0;
                     hash_algorithm := list_byte_of_string "sha256";
                     partition_name_len := 6; salt_len := 1;
                     root_digest_len := 1 |}
                  "ab" "cd" (Toy.device_path "system") Toy.empty_table []
                  (Some "ignore_corruption") mode_logging
                  (or_intror eq_refl))
               Toy.system_entry true).
Defined.

Lemma ConstructVerityTable_target_witness :
  exists target,
    ConstructVerityTable (Toy.host Toy.world) Toy.system_descriptor
      "ab" "cd" (Toy.device_path "system") Toy.empty_table []
    = (Ok (AddTarget (Toy.host Toy.world) target Toy.empty_table),
       [Log INFO ("Built verity table: '"
                  ++ GetParameterString (Toy.host Toy.world) target ++ "'")])
    /\ length_sectors target = 16
    /\ data_device target = "/dev/block/by-name/system"
    /\ hash_device target = "/dev/block/by-name/system"
    /\ hash_start_block target = 2
    /\ ignore_zero_blocks target = true.
Proof.
  destruct (ConstructVerityTable_target (Toy.host Toy.world)
              Toy.system_descriptor "ab" "cd" (Toy.device_path "system")
              Toy.empty_table [] (Some "ignore_corruption") mode_logging
              ltac:(simpl; lia) ltac:(simpl; lia))
    as (target & Hrun & _ & Hlen & Hdata & Hhash & _ & Hstart & _ & _ & Hzero).
  exists target. repeat split; assumption.
Defined.

Lemma HashtreeDmVeritySetup_success_witness :
  exists table t1,
    snd (HashtreeDmVeritySetup (Toy.host Toy.world_vendor_disabled)
           Toy.system_entry Toy.system_descriptor "ab" "cd" true [])
    = (t1 ++ [Call_CreateDevice "system" (set_readonly true table);
              Call_GetDmDevicePathByName "system";
              Call_SetBlockDeviceReadOnly "/dev/block/by-name/system";
              Call_WaitForFile "/dev/block/dm-system"])%list.
Proof.
  destruct (HashtreeDmVeritySetup_success (Toy.host Toy.world_vendor_disabled)
              Toy.system_entry Toy.system_descriptor "ab" "cd" true []
              {| blk_device := "/dev/block/dm-system";
                 mount_point := "/system" |}
              (snd (HashtreeDmVeritySetup (Toy.host Toy.world_vendor_disabled)
                      Toy.system_entry Toy.system_descriptor "ab" "cd"
                      true []))
              ltac:(vm_compute; reflexivity))
    as (table & t1 & dev_path & _ & _ & _ & Hpath & _ & _ & Htrace).
  exists table, t1. rewrite Htrace.
  injection Hpath as <-. reflexivity.
Defined.

Lemma HashtreeDmVeritySetup_entry_witness :
  mount_point {| blk_device := "/dev/block/dm-system";
                 mount_point := "/system" |}
  = mount_point Toy.system_entry
  /\ ((false = false
       /\ {| blk_device := "/dev/block/dm-system"; mount_point := "/system" |}
          = Toy.system_entry)
      \/ GetDmDevicePathByName (Toy.host Toy.world) "system"
         = Some "/dev/block/dm-system").
Proof.
  exact (HashtreeDmVeritySetup_entry (Toy.host Toy.world) Toy.system_entry
           Toy.system_descriptor "ab" "cd" true [] false
           {| blk_device := "/dev/block/dm-system"; mount_point := "/system" |}
           (snd (HashtreeDmVeritySetup (Toy.host Toy.world) Toy.system_entry
                   Toy.system_descriptor "ab" "cd" true []))
           ltac:(vm_compute; reflexivity)).
Defined.

(** ** The key a blob is checked against *)

(** X26: [VerifyPublicKeyBlob] accepts a recovered key exactly when
    nothing is expected (the expected blob is empty: any key passes), or
    the key has the length of the expected blob, lies in memory, and its
    bytes are those of the expected blob. *)
Theorem VerifyPublicKeyBlob_accepts_iff (key : list byte) (length : Z)
    (expected_key_blob : string) :
  VerifyPublicKeyBlob key length expected_key_blob = true
  <-> expected_key_blob = ""
      \/ (StdString.size expected_key_blob = length
          /\ (Z.to_nat length <= List.length key)%nat
          /\ StdString.of_bytes key length = expected_key_blob).
Proof.
  split.
  - intros Htrue.
    destruct (string_dec expected_key_blob "") as [Hempty | Hne];
      [left; assumption | right].
    destruct (KeyFacts.VerifyPublicKeyBlob_true_inv key length
                expected_key_blob Hne Htrue) as (Hbytes & Hsize).
    repeat split; try assumption.
    unfold VerifyPublicKeyBlob in Htrue.
    assert (He : StdString.empty expected_key_blob = false)
      by (destruct expected_key_blob; [contradiction | reflexivity]).
    rewrite He, Hsize, Z.eqb_refl in Htrue. cbn [negb] in Htrue.
    destruct (memcmp key _ (Z.to_nat length) =? 0) eqn:Em;
      [|discriminate].
    apply Z.eqb_eq, KeyFacts.memcmp_0_iff in Em. tauto.
  - intros [-> | (Hsize & Hmem & Hbytes)]; [reflexivity|].
    apply KeyFacts.VerifyPublicKeyBlob_true_intro; try assumption.
    rewrite <- Hsize. unfold StdString.size. lia.
Qed.

(** ** The options the fstab test expects *)

Section FstabTestFacts.

Variables MS_NOATIME MS_NOEXEC MS_NOSUID MS_NODEV MS_NODIRATIME : Z.
Variables MS_RDONLY MS_REMOUNT MS_BIND MS_REC MS_UNBINDABLE : Z.
Variables MS_PRIVATE MS_SLAVE MS_SHARED : Z.

Local Abbreviation table :=
  (mount_flags MS_NOATIME MS_NOEXEC MS_NOSUID MS_NODEV MS_NODIRATIME
               MS_RDONLY MS_REMOUNT MS_BIND MS_REC MS_UNBINDABLE
               MS_PRIVATE MS_SLAVE MS_SHARED).
Local Abbreviation expected :=
  (expected_fs_options MS_NOATIME MS_NOEXEC MS_NOSUID MS_NODEV MS_NODIRATIME
                       MS_RDONLY MS_REMOUNT MS_BIND MS_REC MS_UNBINDABLE
                       MS_PRIVATE MS_SLAVE MS_SHARED).

Lemma In_emplace (x name : string) (set : list string) :
  In x (emplace name set) <-> x = name \/ In x set.
Proof.
  unfold emplace. destruct (in_dec string_dec name set) as [Hin | Hout].
  - split; [auto | intros [-> | H]; assumption].
  - cbn. split; intros [H | H]; auto.
Qed.

Lemma In_add_flag_names (x : string) (flags_table : list (string * Z))
    (entry_flags : Z) :
  forall fs_options,
    In x (add_flag_names flags_table entry_flags fs_options)
    <-> In x fs_options
        \/ exists flag, In (x, flag) flags_table
                        /\ Z.land flag entry_flags <> 0.
Proof.
  induction flags_table as [|[name flag] rest IH]; intros fs_options;
    cbn [add_flag_names].
  - split; [auto | intros [H | (flag & [] & _)]; assumption].
  - rewrite IH. destruct (Z.land flag entry_flags =? 0) eqn:E; cbn [negb].
    + apply Z.eqb_eq in E. split.
      * intros [H | (f & Hin & Hf)]; [auto|].
        right. exists f. split; [now right | assumption].
      * intros [H | (f & [[= <- <-] | Hin] & Hf)]; [auto | contradiction|].
        right. now exists f.
    + apply Z.eqb_neq in E. rewrite In_emplace. split.
      * intros [[-> | H] | (f & Hin & Hf)]; auto.
        -- right. exists flag. split; [now left | assumption].
        -- right. exists f. split; [now right | assumption].
      * intros [H | (f & [[= <- <-] | Hin] & Hf)]; auto.
        right. now exists f.
Qed.

(** X27: the set of options the fstab test expects for an entry whose
    own options name neither, holds exactly one of [ro] and [rw]: [ro]
    when the flags of the entry have [MS_RDONLY], [rw] when they do not.
    The [rw] row of the table, whose flag is 0, never adds anything: it
    is the test after the loop that adds [rw]. *)
Theorem expected_fs_options_ro_xor_rw (fs_options : list string)
    (entry_flags : Z) :
  ~ In "ro" fs_options ->
  ~ In "rw" fs_options ->
  (In "ro" (expected fs_options entry_flags)
   <-> Z.land entry_flags MS_RDONLY <> 0)
  /\ (In "rw" (expected fs_options entry_flags)
      <-> Z.land entry_flags MS_RDONLY = 0)
  /\ ~ In "rw" (add_flag_names table entry_flags fs_options).
Proof.
  intros Hro Hrw.
  assert (Hloop_ro : In "ro" (add_flag_names table entry_flags fs_options)
                     <-> Z.land entry_flags MS_RDONLY <> 0).
  { rewrite In_add_flag_names, (Z.land_comm entry_flags). split.
    - intros [H | (flag & Hin & Hflag)]; [contradiction|].
      cbn in Hin.
      repeat (destruct Hin as [Hin | Hin];
              [first [discriminate Hin | injection Hin as <-; exact Hflag]|]).
      destruct Hin.
    - intros Hflag. right. exists MS_RDONLY. split; [|assumption].
      cbn. do 5 right. now left. }
  assert (Hloop_rw : ~ In "rw" (add_flag_names table entry_flags fs_options)).
  { rewrite In_add_flag_names. intros [H | (flag & Hin & Hflag)];
      [contradiction|].
    cbn in Hin.
    repeat (destruct Hin as [Hin | Hin];
            [first [discriminate Hin
                   | injection Hin as <-; now apply Hflag]|]).
    destruct Hin. }
  unfold expected_fs_options. cbv zeta.
  destruct (Z.land entry_flags MS_RDONLY =? 0) eqn:E; cbn [negb].
  - apply Z.eqb_eq in E. rewrite !In_emplace. repeat split.
    + intros [H | H]; [discriminate H|]. now apply Hloop_ro.
    + intros H. contradiction.
    + auto.
    + auto.
    + assumption.
  - apply Z.eqb_neq in E. repeat split.
    + intros _. assumption.
    + intros _. now apply Hloop_ro.
    + intros H. contradiction.
    + intros H. contradiction.
    + assumption.
Qed.

End FstabTestFacts.

Lemma expected_fs_options_ro_xor_rw_witness :
  let expected :=
    expected_fs_options 1024 8 2 4 2048 1 32 4096 16384 131072 262144 524288
                        1048576 ["barrier=1"] 1029 in
  In "ro" expected /\ ~ In "rw" expected.
Proof.
  cbv zeta.
  destruct (expected_fs_options_ro_xor_rw 1024 8 2 4 2048 1 32 4096 16384
              131072 262144 524288 1048576 ["barrier=1"] 1029)
    as (Hro & Hrw & _).
  - intros [H | []]. discriminate H.
  - intros [H | []]. discriminate H.
  - split.
    + apply Hro. vm_compute. discriminate.
    + intros H. apply Hrw in H. vm_compute in H. discriminate H.
Defined.
